(** * corsair-ccxt: the protocol engine of the Commander Core XT driver

    A shallow embedding of [corsair-ccxt.c] (the hwmon/HID kernel driver) and
    of the helpers of [polyfills.h] it shares with [debug-tool.c].

    - A [u8] is a [Z] in [0, 256); an [int] or [long] is a [Z].  Every
      arithmetic expression modelled here stays far inside the range of its C
      type; conversions to [u8] are written out with [u8].
    - The three scratch buffers, the target table and the label table are
      lists, read with [buf_get] and written with stdpp's [<[_:=_]>] and
      [list_inserts], which keep the length of the array.  An access outside
      the array is undefined behaviour in C; the theorems carry the bounds
      under which the C code is defined ([allocated], channel ranges).
    - The HID substrate is the [hdev] field: the script of what the device
      will do at the coming exchanges and the log of the frames handed to
      [hid_hw_output_report].  The functions are state transformers over
      [ccxt_device]. *)

From stdpp Require Import base list numbers strings pretty.

Local Open Scope Z_scope.

(** ** Constants *)

Definition NUM_FANS : Z := 6.
Definition NUM_TEMP_SENSORS : Z := 2.

Definition OUT_BUFFER_SIZE : Z := 385.
Definition IN_BUFFER_SIZE : Z := 384.
Definition LABEL_LENGTH : Z := 11.

Definition CMD_HEADER_SIZE : Z := 2.
Definition WRITE_DATA_HEADER_SIZE : Z := 4.

Definition FAN_CNT_INDEX : Z := 5.
Definition FAN_DATA_OFFSET : Z := 6.
Definition TEMP_CNT_INDEX : Z := 5.
Definition TEMP_DATA_OFFSET : Z := 6.

Definition FAN_STATE_OK : Z := 0x07.

Definition cmd_get_firmware : list Z := [0x02; 0x13].
Definition cmd_hardware_mode : list Z := [0x01; 0x03; 0x00; 0x01].
Definition cmd_software_mode : list Z := [0x01; 0x03; 0x00; 0x02].
Definition cmd_open_endpoint : list Z := [0x0d; 0x01].
Definition cmd_close_endpoint : list Z := [0x05; 0x01; 0x01].
Definition cmd_write : list Z := [0x06; 0x01].
Definition cmd_read : list Z := [0x08; 0x01].

Definition endpoint_fan_state : Z := 0x17.
Definition endpoint_fan_pwm : Z := 0x18.
Definition endpoint_get_fans : Z := 0x1a.
Definition endpoint_get_temperatures : Z := 0x21.

Definition data_type_set_speed : list Z := [0x07; 0x00].

(** The errno values of the kernel's [errno-base.h] and [errno.h]; the driver
    only uses them by name. *)
Definition EIO : Z := 5.
Definition EINVAL : Z := 22.
Definition ENODATA : Z := 61.
Definition EPROTO : Z := 71.
Definition EOPNOTSUPP : Z := 95.
Definition ETIMEDOUT : Z := 110.

(** ** Bytes, arrays and the helpers of polyfills.h *)

Definition u8 (v : Z) : Z := v mod 256.

Definition buf_get (b : list Z) (i : Z) : Z := default 0 (b !! Z.to_nat i).
Definition buf_set (b : list Z) (i : Z) (v : Z) : list Z := <[Z.to_nat i := v]> b.

(** [memset (dst, c, n)] and [memcpy (dst + off, src, n)]. *)
Definition memset (dst : list Z) (c : Z) (n : Z) : list Z :=
  list_inserts 0 (replicate (Z.to_nat n) c) dst.
Definition memcpy (dst : list Z) (off : Z) (src : list Z) (n : Z) : list Z :=
  list_inserts (Z.to_nat off) (take (Z.to_nat n) src) dst.

Definition min (a b : Z) : Z := if a <? b then a else b.

(** [DIV_ROUND_CLOSEST] at signed operand types: C division truncates
    towards zero, which is [Z.quot].  The value is computed in [Z]: it is
    the macro's as long as [x + divisor / 2] and [x - divisor / 2] fit the
    type of [x], as they do for every operand of the driver (a byte times
    255, or a value in 0..255 times 100). *)
Definition DIV_ROUND_CLOSEST (x divisor : Z) : Z :=
  if Bool.eqb (0 <? x) (0 <? divisor)
  then (x + divisor ÷ 2) ÷ divisor
  else (x - divisor ÷ 2) ÷ divisor.

(** [set_bit] and [test_bit] on a bitmap that fits one [unsigned long]. *)
Definition set_bit (nr : Z) (bitmap : Z) : Z := Z.lor bitmap (Z.shiftl 1 nr).
Definition test_bit (nr : Z) (bitmap : Z) : bool := Z.testbit bitmap nr.

(** Modelled from the spec: [clamp_val] is a macro of the kernel's
    [minmax.h], absent from the sources; the spec says the value is clamped
    to the given range. *)
Definition clamp_val (val lo hi : Z) : Z :=
  if val <? lo then lo else if hi <? val then hi else val.

(** Modelled from the spec: the kernel's [scnprintf] at the one format the
    driver uses, ["fan%d"]: the text "fan" followed by the decimal number,
    cut to [size - 1] characters. *)
Definition scnprintf_fan (size : Z) (n : Z) : string :=
  String.substring 0 (Z.to_nat (size - 1)) ("fan" +:+ pretty n).

(** ** Device state *)

Record firmware_version := {
  major : Z;
  minor : Z;
  patch : Z;
}.

(** One exchange as the HID substrate decides it: what
    [hid_hw_output_report] returns, and the input report (if any) that
    arrives inside the wait. *)
Record hid_exchange := {
  output_ret : Z;
  input_report : option (list Z);
}.

Record hid_device := {
  script : list hid_exchange;
  in_flight : option (list Z);
  output_log : list (list Z);
}.

(** [struct ccxt_device]; [wait_input_report] is the completion, [true]
    when it is done.  The locks are left out: every function below runs to
    its end before the next one starts. *)
Record ccxt_device := {
  hdev : hid_device;
  wait_input_report : bool;
  cmd_buffer : list Z;
  buffer : list Z;
  data_buffer : list Z;
  buffer_recv_size : Z;
  data_buffer_recv_size : Z;
  target : list Z;
  temp_cnct : Z;
  fan_cnct : Z;
  fan_label : list string;
  firmware_ver : firmware_version;
  bootloader_ver : list Z;
}.

(** Field updates. *)
Definition with_hdev (v : hid_device) (c : ccxt_device) : ccxt_device :=
  {| hdev := v; wait_input_report := wait_input_report c;
     cmd_buffer := cmd_buffer c; buffer := buffer c;
     data_buffer := data_buffer c; buffer_recv_size := buffer_recv_size c;
     data_buffer_recv_size := data_buffer_recv_size c; target := target c;
     temp_cnct := temp_cnct c; fan_cnct := fan_cnct c;
     fan_label := fan_label c; firmware_ver := firmware_ver c;
     bootloader_ver := bootloader_ver c |}.
Definition with_wait_input_report (v : bool) (c : ccxt_device) : ccxt_device :=
  {| hdev := hdev c; wait_input_report := v; cmd_buffer := cmd_buffer c;
     buffer := buffer c; data_buffer := data_buffer c;
     buffer_recv_size := buffer_recv_size c;
     data_buffer_recv_size := data_buffer_recv_size c; target := target c;
     temp_cnct := temp_cnct c; fan_cnct := fan_cnct c;
     fan_label := fan_label c; firmware_ver := firmware_ver c;
     bootloader_ver := bootloader_ver c |}.
Definition with_cmd_buffer (v : list Z) (c : ccxt_device) : ccxt_device :=
  {| hdev := hdev c; wait_input_report := wait_input_report c;
     cmd_buffer := v; buffer := buffer c; data_buffer := data_buffer c;
     buffer_recv_size := buffer_recv_size c;
     data_buffer_recv_size := data_buffer_recv_size c; target := target c;
     temp_cnct := temp_cnct c; fan_cnct := fan_cnct c;
     fan_label := fan_label c; firmware_ver := firmware_ver c;
     bootloader_ver := bootloader_ver c |}.
Definition with_buffer (v : list Z) (n : Z) (c : ccxt_device) : ccxt_device :=
  {| hdev := hdev c; wait_input_report := wait_input_report c;
     cmd_buffer := cmd_buffer c; buffer := v; data_buffer := data_buffer c;
     buffer_recv_size := n; data_buffer_recv_size := data_buffer_recv_size c;
     target := target c; temp_cnct := temp_cnct c; fan_cnct := fan_cnct c;
     fan_label := fan_label c; firmware_ver := firmware_ver c;
     bootloader_ver := bootloader_ver c |}.
Definition with_data_buffer (v : list Z) (c : ccxt_device) : ccxt_device :=
  {| hdev := hdev c; wait_input_report := wait_input_report c;
     cmd_buffer := cmd_buffer c; buffer := buffer c; data_buffer := v;
     buffer_recv_size := buffer_recv_size c;
     data_buffer_recv_size := data_buffer_recv_size c; target := target c;
     temp_cnct := temp_cnct c; fan_cnct := fan_cnct c;
     fan_label := fan_label c; firmware_ver := firmware_ver c;
     bootloader_ver := bootloader_ver c |}.
Definition with_data_buffer_recv_size (v : Z) (c : ccxt_device) : ccxt_device :=
  {| hdev := hdev c; wait_input_report := wait_input_report c;
     cmd_buffer := cmd_buffer c; buffer := buffer c;
     data_buffer := data_buffer c; buffer_recv_size := buffer_recv_size c;
     data_buffer_recv_size := v; target := target c;
     temp_cnct := temp_cnct c; fan_cnct := fan_cnct c;
     fan_label := fan_label c; firmware_ver := firmware_ver c;
     bootloader_ver := bootloader_ver c |}.
Definition with_target (v : list Z) (c : ccxt_device) : ccxt_device :=
  {| hdev := hdev c; wait_input_report := wait_input_report c;
     cmd_buffer := cmd_buffer c; buffer := buffer c;
     data_buffer := data_buffer c; buffer_recv_size := buffer_recv_size c;
     data_buffer_recv_size := data_buffer_recv_size c; target := v;
     temp_cnct := temp_cnct c; fan_cnct := fan_cnct c;
     fan_label := fan_label c; firmware_ver := firmware_ver c;
     bootloader_ver := bootloader_ver c |}.
Definition with_fan_cnct (v : Z) (c : ccxt_device) : ccxt_device :=
  {| hdev := hdev c; wait_input_report := wait_input_report c;
     cmd_buffer := cmd_buffer c; buffer := buffer c;
     data_buffer := data_buffer c; buffer_recv_size := buffer_recv_size c;
     data_buffer_recv_size := data_buffer_recv_size c; target := target c;
     temp_cnct := temp_cnct c; fan_cnct := v; fan_label := fan_label c;
     firmware_ver := firmware_ver c; bootloader_ver := bootloader_ver c |}.
Definition with_fan_label (v : list string) (c : ccxt_device) : ccxt_device :=
  {| hdev := hdev c; wait_input_report := wait_input_report c;
     cmd_buffer := cmd_buffer c; buffer := buffer c;
     data_buffer := data_buffer c; buffer_recv_size := buffer_recv_size c;
     data_buffer_recv_size := data_buffer_recv_size c; target := target c;
     temp_cnct := temp_cnct c; fan_cnct := fan_cnct c; fan_label := v;
     firmware_ver := firmware_ver c; bootloader_ver := bootloader_ver c |}.
Definition with_firmware_ver (v : firmware_version) (c : ccxt_device) : ccxt_device :=
  {| hdev := hdev c; wait_input_report := wait_input_report c;
     cmd_buffer := cmd_buffer c; buffer := buffer c;
     data_buffer := data_buffer c; buffer_recv_size := buffer_recv_size c;
     data_buffer_recv_size := data_buffer_recv_size c; target := target c;
     temp_cnct := temp_cnct c; fan_cnct := fan_cnct c;
     fan_label := fan_label c; firmware_ver := v;
     bootloader_ver := bootloader_ver c |}.

(** ** The state monad of the driver *)

Definition M (A : Type) : Type := ccxt_device -> A * ccxt_device.

Definition ret {A} (a : A) : M A := fun c => (a, c).
Definition bind {A B} (m : M A) (k : A -> M B) : M B :=
  fun c => let '(a, c') := m c in k a c'.
Definition get {A} (f : ccxt_device -> A) : M A := fun c => (f c, c).
Definition modify (f : ccxt_device -> ccxt_device) : M unit := fun c => (tt, f c).

Notation "x <~ m ;; k" := (bind m (fun x => k))
  (at level 200, m at level 99, right associativity).
Notation "m ;;; k" := (bind m (fun _ => k))
  (at level 200, right associativity).

(** ** Command encoder *)

(* prepare ccxt->cmd_buffer with command and return used size *)
Definition prepare_cmd (command : list Z) (command_len : Z) : M Z :=
  modify (fun c => with_cmd_buffer (memset (cmd_buffer c) 0x00 OUT_BUFFER_SIZE) c) ;;;
  modify (fun c => with_cmd_buffer (buf_set (cmd_buffer c) 0 0x00) c) ;;;
  modify (fun c => with_cmd_buffer (buf_set (cmd_buffer c) 1 0x08) c) ;;;
  modify (fun c => with_cmd_buffer
                     (memcpy (cmd_buffer c) CMD_HEADER_SIZE command command_len) c) ;;;
  ret (CMD_HEADER_SIZE + command_len).

(* prepare ccxt->cmd_buffer with command and single-valued endpoint and
   return used size *)
Definition prepare_endpoint_cmd (command : list Z) (command_len : Z)
    (endpoint : Z) : M Z :=
  r <~ prepare_cmd command command_len ;;
  modify (fun c => with_cmd_buffer (buf_set (cmd_buffer c) r endpoint) c) ;;;
  ret (r + 1).

(** The [_safe] macros pass [ARRAY_SIZE (cmd)]. *)
Definition ARRAY_SIZE {A} (arr : list A) : Z := Z.of_nat (length arr).
Definition prepare_cmd_safe (cmd : list Z) : M Z :=
  prepare_cmd cmd (ARRAY_SIZE cmd).
Definition prepare_endpoint_cmd_safe (cmd : list Z) (endpoint : Z) : M Z :=
  prepare_endpoint_cmd cmd (ARRAY_SIZE cmd) endpoint.

(** ** Transport exchange *)

(* converts response error in buffer to errno *)
Definition ccxt_get_errno : M Z :=
  status <~ get (fun c => buf_get (buffer c) 0) ;;
  ret (if status =? 0x00 then 0                    (* success *)
       else if status =? 0x01 then - EOPNOTSUPP    (* called invalid command *)
       else if status =? 0x10 then - EINVAL        (* invalid arguments *)
       else if (status =? 0x11) || (status =? 0x12) then - ENODATA
       else - EIO).

(** The raw-event callback: the report is copied only while a sender is
    waiting. *)
Definition ccxt_raw_event (data : list Z) (size : Z) : M Z :=
  done <~ get wait_input_report ;;
  (if negb done then
     modify (fun c => with_buffer
                        (memcpy (buffer c) 0 data (min IN_BUFFER_SIZE size))
                        size c) ;;;
     modify (with_wait_input_report true)
   else ret tt) ;;;
  ret 0.

(** The substrate.  [hid_hw_output_report] takes the next exchange of the
    script, logs the frame it is given and returns what the script says;
    a script that has run out is a device that accepts the frame and stays
    [silent].  [wait_for_completion_timeout] delivers the report of the
    exchange, if there is one, through [ccxt_raw_event], and tells whether
    the completion was signalled. *)
Definition silent : hid_exchange :=
  {| output_ret := OUT_BUFFER_SIZE; input_report := None |}.

Definition hid_hw_output_report (len : Z) : M Z := fun c =>
  let h := hdev c in
  let e := hd silent (script h) in
  (output_ret e,
   with_hdev {| script := tl (script h); in_flight := input_report e;
                output_log := output_log h
                              ++ [take (Z.to_nat len) (cmd_buffer c)] |} c).

Definition wait_for_completion_timeout : M bool :=
  report <~ get (fun c => in_flight (hdev c)) ;;
  modify (fun c => with_hdev {| script := script (hdev c); in_flight := None;
                                output_log := output_log (hdev c) |} c) ;;;
  match report with
  | Some data => ccxt_raw_event data (Z.of_nat (length data)) ;;;
                 get wait_input_report
  | None => get wait_input_report
  end.

(* send current ccxt->cmd_buffer, check for error in response, response in
   ccxt->buffer *)
Definition send_usb : M Z :=
  modify (with_wait_input_report false) ;;;       (* reinit_completion *)
  r <~ hid_hw_output_report OUT_BUFFER_SIZE ;;
  if r <? 0 then ret r else
  t <~ wait_for_completion_timeout ;;
  if negb t then ret (- ETIMEDOUT) else
  n <~ get buffer_recv_size ;;
  if negb (n =? IN_BUFFER_SIZE) then ret (- EPROTO) else
  ccxt_get_errno.

Definition set_hardware_mode : M Z :=
  prepare_cmd_safe cmd_hardware_mode ;;;
  send_usb.

Definition set_software_mode : M Z :=
  prepare_cmd_safe cmd_software_mode ;;;
  send_usb.

(* read firmware version *)
Definition get_fw_version : M Z :=
  prepare_cmd_safe cmd_get_firmware ;;;
  r <~ send_usb ;;
  if negb (r =? 0) then ret r else
  modify (fun c => with_firmware_ver
    {| major := buf_get (buffer c) 3;
       minor := buf_get (buffer c) 4;
       patch := Z.lor (buf_get (buffer c) 5)
                      (Z.shiftl (buf_get (buffer c) 6) 8) |} c) ;;;
  ret r.

(* read bootloader version *)
Definition get_bl_version : M Z := ret (-1).

(** ** Endpoint transactions *)

(* reads the data from the given endpoint and stores it in data_buffer *)
Definition read_data (endpoint : Z) : M Z :=
  prepare_endpoint_cmd_safe cmd_close_endpoint endpoint ;;;
  r <~ send_usb ;;
  if negb (r =? 0) then ret r else
  prepare_endpoint_cmd_safe cmd_open_endpoint endpoint ;;;
  r <~ send_usb ;;
  if negb (r =? 0) then ret r else
  prepare_endpoint_cmd_safe cmd_read endpoint ;;;
  r <~ send_usb ;;
  if negb (r =? 0) then ret r else
  (* copy result to data buffer *)
  modify (fun c => with_data_buffer
                     (memcpy (data_buffer c) 0 (buffer c) IN_BUFFER_SIZE) c) ;;;
  modify (fun c => with_data_buffer_recv_size (buffer_recv_size c) c) ;;;
  prepare_endpoint_cmd_safe cmd_close_endpoint endpoint ;;;
  send_usb.

Definition write_data (endpoint : Z) (data_type : list Z) (data_type_size : Z)
    (data : list Z) (data_size : Z) : M Z :=
  prepare_endpoint_cmd_safe cmd_close_endpoint endpoint ;;;
  r <~ send_usb ;;
  if negb (r =? 0) then ret r else
  prepare_endpoint_cmd_safe cmd_open_endpoint endpoint ;;;
  r <~ send_usb ;;
  if negb (r =? 0) then ret r else
  r <~ prepare_cmd_safe cmd_write ;;
  (* compute header offsets *)
  let writer_header_dst := r in
  let data_type_dst := writer_header_dst + WRITE_DATA_HEADER_SIZE in
  let data_dst := data_type_dst + data_type_size in
  modify (fun c => with_cmd_buffer
                     (buf_set (cmd_buffer c) writer_header_dst
                        (u8 (data_type_size + data_size))) c) ;;;
  modify (fun c => with_cmd_buffer
                     (memcpy (cmd_buffer c) data_type_dst data_type
                        data_type_size) c) ;;;
  modify (fun c => with_cmd_buffer
                     (memcpy (cmd_buffer c) data_dst data data_size) c) ;;;
  r <~ send_usb ;;
  if negb (r =? 0) then ret r else
  (* copy result to data buffer *)
  modify (fun c => with_data_buffer
                     (memcpy (data_buffer c) 0 (buffer c) IN_BUFFER_SIZE) c) ;;;
  prepare_endpoint_cmd_safe cmd_close_endpoint endpoint ;;;
  send_usb.

(** ** Response decoders *)

(** [for (channel = from; channel < to; channel++) body]. *)
Definition for_loop (from to : Z) (body : Z -> M unit) : M unit :=
  foldr (fun channel k => body channel ;;; k) (ret tt)
        (seqZ from (to - from)).

(** The body of the loop of [get_fan_cnct]. *)
Definition mark_fan (channel : Z) : M unit :=
  state <~ get (fun c => buf_get (data_buffer c) (FAN_DATA_OFFSET + channel)) ;;
  if negb (state =? FAN_STATE_OK) then ret tt (* continue *) else
  modify (fun c => with_fan_cnct (set_bit channel (fan_cnct c)) c) ;;;
  modify (fun c => with_target
                     (<[Z.to_nat channel := - ENODATA]> (target c)) c) ;;;
  modify (fun c => with_fan_label
                     (<[Z.to_nat channel :=
                          scnprintf_fan LABEL_LENGTH (channel + 1)]>
                        (fan_label c)) c).

(* read fan connection status and set labels *)
Definition get_fan_cnct : M Z :=
  r <~ read_data endpoint_get_fans ;;
  if negb (r =? 0) then ret r else
  (* The theoretical number of fans this controller supports *)
  num_fans <~ get (fun c => buf_get (data_buffer c) FAN_CNT_INDEX) ;;
  for_loop 0 (min num_fans NUM_FANS) mark_fan ;;;
  ret 0.

(* read temp sensor connection status *)
Definition get_temp_cnct : M Z :=
  r <~ read_data endpoint_get_temperatures ;;
  if negb (r =? 0) then ret r else
  num_sensors <~ get (fun c => buf_get (data_buffer c) TEMP_CNT_INDEX) ;;
  for_loop 0 (min num_sensors NUM_TEMP_SENSORS) (fun channel =>
    state <~ get (fun c => buf_get (data_buffer c) (TEMP_DATA_OFFSET + channel)) ;;
    (* the marking of temp_cnct is commented out in the source *)
    ret tt) ;;;
  ret (-1).

(** [(s16) v] for [v] in the range of [u16]. *)
Definition s16 (v : Z) : Z := if v <? 32768 then v else v - 65536.

(** A [long *val] parameter is the second component of the result: [None]
    when the function returns without storing to it. *)
Definition get_fan_rpm (channel : Z) : M (Z * option Z) :=
  r <~ read_data endpoint_fan_state ;;
  if negb (r =? 0) then ret (r, None) else
  num_fans <~ get (fun c => buf_get (data_buffer c) FAN_CNT_INDEX) ;;
  if channel >=? min num_fans NUM_FANS then ret (- EINVAL, None) else
  (* two bytes per value *)
  let data_index := FAN_DATA_OFFSET + channel * 2 in
  lo <~ get (fun c => buf_get (data_buffer c) data_index) ;;
  hi <~ get (fun c => buf_get (data_buffer c) (data_index + 1)) ;;
  ret (0, Some (s16 (Z.lor lo (Z.shiftl hi 8)))).

Definition get_fan_pwm (channel : Z) : M (Z * option Z) :=
  r <~ read_data endpoint_fan_pwm ;;
  if negb (r =? 0) then ret (r, None) else
  num_fans <~ get (fun c => buf_get (data_buffer c) FAN_CNT_INDEX) ;;
  if channel >=? min num_fans NUM_FANS then ret (- EINVAL, None) else
  let data_index := FAN_DATA_OFFSET + channel * 4 in
  (* validate channel id from response *)
  id <~ get (fun c => buf_get (data_buffer c) data_index) ;;
  if negb (id =? channel) then ret (- EIO, None) else
  pwm <~ get (fun c => buf_get (data_buffer c) (data_index + 2)) ;;
  ret (0, Some (DIV_ROUND_CLOSEST (pwm * 255) 100)).

(** ** Writers *)

Definition set_pwm (channel : Z) (val : Z) : M Z :=
  if (val <? 0) || (val >? 255) then ret (- EINVAL) else
  (* Corsair uses values from 0-100 *)
  let val := DIV_ROUND_CLOSEST (val * 100) 255 in
  (* {count, id, mode, val, 0x00} *)
  let speed_cmd := [1; u8 channel; 0; u8 val; 0x00] in
  r <~ write_data endpoint_fan_pwm data_type_set_speed
         (ARRAY_SIZE data_type_set_speed) speed_cmd (ARRAY_SIZE speed_cmd) ;;
  (if r =? 0 then
     modify (fun c => with_target
                        (<[Z.to_nat channel := - ENODATA]> (target c)) c)
   else ret tt) ;;;
  ret r.

Definition set_target (channel : Z) (val : Z) : M Z :=
  let val := clamp_val val 0 0xFFFF in
  modify (fun c => with_target (<[Z.to_nat channel := val]> (target c)) c) ;;;
  (* the device write is commented out in the source *)
  ret (-1).

(** ** Sensor facade *)

(** [enum hwmon_sensor_types] and the attribute numbers of the kernel's
    [hwmon.h] that the driver names.  An attribute is a [u32]; the numbers of
    different sensor types overlap, as in C. *)
Inductive hwmon_sensor_types :=
  | hwmon_chip | hwmon_temp | hwmon_in | hwmon_curr | hwmon_power
  | hwmon_energy | hwmon_humidity | hwmon_fan | hwmon_pwm | hwmon_intrusion.

Definition hwmon_temp_input : Z := 1.
Definition hwmon_temp_label : Z := 21.
Definition hwmon_fan_input : Z := 1.
Definition hwmon_fan_label : Z := 2.
Definition hwmon_fan_target : Z := 7.
Definition hwmon_pwm_input : Z := 0.
Definition hwmon_in_input : Z := 1.

Definition ccxt_read_string (type : hwmon_sensor_types) (attr : Z)
    (channel : Z) : M (Z * option string) :=
  match type with
  | hwmon_fan =>
      if attr =? hwmon_fan_label then
        str <~ get (fun c => default ""%string
                               (fan_label c !! Z.to_nat channel)) ;;
        ret (0, Some str)
      else ret (- EOPNOTSUPP, None)
  | _ => ret (- EOPNOTSUPP, None)
  end.

Definition ccxt_read (type : hwmon_sensor_types) (attr : Z) (channel : Z)
    : M (Z * option Z) :=
  match type with
  | hwmon_temp =>
      if attr =? hwmon_temp_input then
        let r := 0 in (* get_data(ccxt, CTL_GET_TMP, channel, true) *)
        if r <? 0 then ret (r, None) else ret (0, Some (s16 r * 10))
      else ret (- EOPNOTSUPP, None)
  | hwmon_fan =>
      if attr =? hwmon_fan_input then
        rv <~ get_fan_rpm channel ;;
        if fst rv <? 0 then ret (fst rv, snd rv) else ret (0, snd rv)
      else if attr =? hwmon_fan_target then
        (* how to read target values from the device is unknown *)
        (* driver returns last set value or 0 *)
        t <~ get (fun c => buf_get (target c) channel) ;;
        if t <? 0 then ret (- ENODATA, None) else ret (0, Some t)
      else ret (- EOPNOTSUPP, None)
  | hwmon_pwm =>
      if attr =? hwmon_pwm_input then
        rv <~ get_fan_pwm channel ;;
        if fst rv <? 0 then ret (fst rv, snd rv) else ret (0, snd rv)
      else ret (- EOPNOTSUPP, None)
  | hwmon_in =>
      if attr =? hwmon_in_input then
        let r := 0 in (* get_data(ccxt, CTL_GET_VOLT, channel, true) *)
        if r <? 0 then ret (r, None) else ret (0, Some r)
      else ret (- EOPNOTSUPP, None)
  | _ => ret (- EOPNOTSUPP, None)
  end.

Definition ccxt_write (type : hwmon_sensor_types) (attr : Z) (channel : Z)
    (val : Z) : M Z :=
  match type with
  | hwmon_pwm =>
      if attr =? hwmon_pwm_input then set_pwm channel val
      else ret (- EOPNOTSUPP)
  | hwmon_fan =>
      if attr =? hwmon_fan_target then set_target channel val
      else ret (- EOPNOTSUPP)
  | _ => ret (- EOPNOTSUPP)
  end.

(** The mode bits are written in octal in the source: 0444 and 0644. *)
Definition S_0444 : Z := 292.
Definition S_0644 : Z := 420.

Definition ccxt_is_visible (c : ccxt_device) (type : hwmon_sensor_types)
    (attr : Z) (channel : Z) : Z :=
  match type with
  | hwmon_temp =>
      if negb (test_bit channel (temp_cnct c)) then 0
      else if attr =? hwmon_temp_input then S_0444
      else if attr =? hwmon_temp_label then S_0444
      else 0
  | hwmon_fan =>
      if negb (test_bit channel (fan_cnct c)) then 0
      else if attr =? hwmon_fan_input then S_0444
      else if attr =? hwmon_fan_label then S_0444
      else if attr =? hwmon_fan_target then S_0644
      else 0
  | hwmon_pwm =>
      if negb (test_bit channel (fan_cnct c)) then 0
      else if attr =? hwmon_pwm_input then S_0644
      else 0
  | hwmon_in =>
      if attr =? hwmon_in_input then S_0444 else 0
  | _ => 0
  end.

(** ** Attach and detach *)

Definition ccxt_debugfs_init : M unit :=
  get_fw_version ;;;
  get_bl_version ;;;
  ret tt.

(** [ccxt_probe] from the point where the HID device has been opened. *)
Definition ccxt_probe : M Z :=
  (* required to be able to speak to the controller *)
  r <~ set_software_mode ;;
  if negb (r =? 0) then ret r else
  (* fan and temp connection status only updates when the device is
     powered on *)
  r <~ get_fan_cnct ;;
  if negb (r =? 0) then ret r else
  get_temp_cnct ;;;
  ccxt_debugfs_init ;;;
  ret 0.

Definition ccxt_remove : M unit :=
  set_hardware_mode ;;;
  ret tt.

(** The device structure as [ccxt_probe] sets it up: [devm_kzalloc] zeroes
    the structure, the three buffers come from [devm_kmalloc] with whatever
    they hold, and [init_completion] leaves the completion not done. *)
Definition ccxt_fresh (h : hid_device) (cmd buf dbuf : list Z) : ccxt_device :=
  {| hdev := h; wait_input_report := false;
     cmd_buffer := cmd; buffer := buf; data_buffer := dbuf;
     buffer_recv_size := 0; data_buffer_recv_size := 0;
     target := replicate (Z.to_nat NUM_FANS) 0;
     temp_cnct := 0; fan_cnct := 0;
     fan_label := replicate (Z.to_nat NUM_FANS) ""%string;
     firmware_ver := {| major := 0; minor := 0; patch := 0 |};
     bootloader_ver := [0; 0] |}.

(** What can run on the device structure: the driver's entry points, and an
    input report that arrives while nobody waits.  [call_probe] runs the
    attach sequence on the structure it is given.  The kernel's
    [ccxt_probe] allocates a new zeroed structure each time, which is
    [ccxt_fresh] followed by [call_probe]; a [call_probe] on a structure
    that has been used stands for no run of the driver, so the states
    reached this way are more than the driver's. *)
Inductive driver_call :=
  | call_probe
  | call_remove
  | call_read (type : hwmon_sensor_types) (attr channel : Z)
  | call_read_string (type : hwmon_sensor_types) (attr channel : Z)
  | call_write (type : hwmon_sensor_types) (attr channel val : Z)
  | call_raw_event (data : list Z).

Definition run_call (call : driver_call) (c : ccxt_device) : ccxt_device :=
  match call with
  | call_probe => snd (ccxt_probe c)
  | call_remove => snd (ccxt_remove c)
  | call_read type attr channel => snd (ccxt_read type attr channel c)
  | call_read_string type attr channel =>
      snd (ccxt_read_string type attr channel c)
  | call_write type attr channel val =>
      snd (ccxt_write type attr channel val c)
  | call_raw_event data =>
      snd (ccxt_raw_event data (Z.of_nat (length data)) c)
  end.

(** The channels [ccxt_info] registers for each sensor type; the hwmon core
    calls the driver with no other channel. *)
Definition registered_channels (type : hwmon_sensor_types) : Z :=
  match type with
  | hwmon_chip => 1
  | hwmon_temp => 4
  | hwmon_fan => 6
  | hwmon_pwm => 6
  | hwmon_in => 3
  | _ => 0
  end.

Definition call_in_range (call : driver_call) : Prop :=
  match call with
  | call_read type _ channel
  | call_read_string type _ channel
  | call_write type _ channel _ => 0 <= channel < registered_channels type
  | _ => True
  end.

Inductive reachable : ccxt_device -> Prop :=
  | reachable_fresh h cmd buf dbuf :
      length cmd = Z.to_nat OUT_BUFFER_SIZE ->
      length buf = Z.to_nat IN_BUFFER_SIZE ->
      length dbuf = Z.to_nat IN_BUFFER_SIZE ->
      reachable (ccxt_fresh h cmd buf dbuf)
  | reachable_call c call :
      reachable c -> call_in_range call -> reachable (run_call call c).

(** ** The exchange, read off the script

    What [send_usb] is to return for an exchange, stated on the substrate's
    side; [send_usb_refines] below relates the two. *)
Definition errno_of_status (status : Z) : Z :=
  if status =? 0x00 then 0
  else if status =? 0x01 then - EOPNOTSUPP
  else if status =? 0x10 then - EINVAL
  else if status =? 0x11 then - ENODATA
  else if status =? 0x12 then - ENODATA
  else - EIO.

Definition exchange_result (e : hid_exchange) : Z :=
  if output_ret e <? 0 then output_ret e
  else match input_report e with
       | None => - ETIMEDOUT
       | Some data =>
           if Z.of_nat (length data) =? IN_BUFFER_SIZE
           then errno_of_status (buf_get data 0)
           else - EPROTO
       end.

(** The [k]-th exchange still to come. *)
Definition exchange_at (c : ccxt_device) (k : nat) : hid_exchange :=
  nth k (script (hdev c)) silent.

(** [exchanged c frame c' r]: what one [send_usb] does once [frame] has been
    encoded into the command buffer of [c], ending in [c'] with result [r]:
    it consumes one exchange of the script, logs the frame, and touches
    nothing but the reply buffer. *)
Record exchanged (c : ccxt_device) (frame : list Z) (c' : ccxt_device)
    (r : Z) : Prop := {
  ex_result : r = exchange_result (exchange_at c 0);
  ex_script : script (hdev c') = tl (script (hdev c));
  ex_log : output_log (hdev c')
           = output_log (hdev c) ++ [take (Z.to_nat OUT_BUFFER_SIZE) frame];
  ex_cmd_buffer : cmd_buffer c' = frame;
  ex_buffer_len : length (buffer c') = Z.to_nat IN_BUFFER_SIZE;
  ex_data_buffer : data_buffer c' = data_buffer c;
  ex_data_size : data_buffer_recv_size c' = data_buffer_recv_size c;
  ex_target : target c' = target c;
  ex_fan_cnct : fan_cnct c' = fan_cnct c;
  ex_fan_label : fan_label c' = fan_label c;
  ex_reply : r = 0 ->
             input_report (exchange_at c 0) = Some (buffer c')
             /\ buffer_recv_size c' = IN_BUFFER_SIZE;
}.

(** What a read or write transaction from [c] returns and leaves in the
    data buffer, in terms of the results of the four exchanges to come: the
    first failing exchange among close, open and read/write is returned with
    the data buffer untouched; after three successes the data buffer holds
    the third reply and the result is that of the trailing close. *)
Definition transaction_law (c : ccxt_device) (out : Z * ccxt_device) : Prop :=
  let R k := exchange_result (exchange_at c k) in
  (R 0%nat <> 0 ->
   fst out = R 0%nat /\ data_buffer (snd out) = data_buffer c)
  /\ (R 0%nat = 0 -> R 1%nat <> 0 ->
      fst out = R 1%nat /\ data_buffer (snd out) = data_buffer c)
  /\ (R 0%nat = 0 -> R 1%nat = 0 -> R 2%nat <> 0 ->
      fst out = R 2%nat /\ data_buffer (snd out) = data_buffer c)
  /\ (R 0%nat = 0 -> R 1%nat = 0 -> R 2%nat = 0 ->
      fst out = R 3%nat
      /\ input_report (exchange_at c 2) = Some (data_buffer (snd out))).

(** ** Sample inputs

    A freshly attached device whose substrate follows the script [s], with
    recognisable garbage in the three [devm_kmalloc]ed buffers, and a
    full-size report that starts with [payload]. *)
Definition sample_device (s : list hid_exchange) : ccxt_device :=
  ccxt_fresh {| script := s; in_flight := None; output_log := [] |}
    (replicate 385 0xAA) (replicate 384 0xBB) (replicate 384 0xCC).

Definition report_of (payload : list Z) : hid_exchange :=
  {| output_ret := OUT_BUFFER_SIZE;
     input_report := Some (payload ++ replicate (384 - length payload) 0) |}.

(** [preserves f m]: running [m] leaves the observation [f] of the device
    structure as it was. *)
Definition preserves {A B} (f : ccxt_device -> B) (m : M A) : Prop :=
  forall c, f (snd (m c)) = f c.

(** The arrays as [ccxt_probe] and the struct declaration allocate them. *)
Record allocated (c : ccxt_device) : Prop := {
  alloc_cmd_buffer : length (cmd_buffer c) = Z.to_nat OUT_BUFFER_SIZE;
  alloc_buffer : length (buffer c) = Z.to_nat IN_BUFFER_SIZE;
  alloc_data_buffer : length (data_buffer c) = Z.to_nat IN_BUFFER_SIZE;
  alloc_target : length (target c) = Z.to_nat NUM_FANS;
  alloc_fan_label : length (fan_label c) = Z.to_nat NUM_FANS;
}.

(** The lengths of the five arrays, as one observation. *)
Definition shape (c : ccxt_device) : nat * nat * nat * nat * nat :=
  (length (cmd_buffer c), length (buffer c), length (data_buffer c),
   length (target c), length (fan_label c)).

(** The frame the encoder is meant to leave in [cmd_buffer]. *)
Definition frame_of (content : list Z) : list Z :=
  [0x00; 0x08] ++ content
  ++ replicate (Z.to_nat OUT_BUFFER_SIZE - 2 - length content) 0.

(** ** Checks and assertions used in the statements *)

(** Host scale to device scale and back, as [set_pwm] followed by
    [get_fan_pwm] computes it, and the checks that are run over all of
    0..255. *)
Definition round_trip (v : Z) : Z :=
  DIV_ROUND_CLOSEST (DIV_ROUND_CLOSEST (v * 100) 255 * 255) 100.

Definition round_trip_ok (v : Z) : bool :=
  let d := DIV_ROUND_CLOSEST (v * 100) 255 in
  (0 <=? d) && (d <=? 100)
  && (2 * Z.abs (255 * d - 100 * v) <=? 255)
  && (2 * Z.abs (100 * round_trip v - 255 * d) <=? 100)
  && (Z.abs (round_trip v - v) <=? 1).

Definition device_scale_ok (pwm : Z) : bool :=
  let val := DIV_ROUND_CLOSEST (pwm * 255) 100 in
  (2 * Z.abs (100 * val - 255 * pwm) <=? 100) && (0 <=? val) && (val <=? 650).

(** What [mark_fan] does to one channel's entries, and what it means for
    them to be left alone. *)
Definition marked (channel : Z) (c c' : ccxt_device) : Prop :=
  test_bit channel (fan_cnct c') = true
  /\ target c' !! Z.to_nat channel
     = (fun _ => - ENODATA) <$> target c !! Z.to_nat channel
  /\ fan_label c' !! Z.to_nat channel
     = (fun _ => scnprintf_fan LABEL_LENGTH (channel + 1))
         <$> fan_label c !! Z.to_nat channel.

Definition untouched (channel : Z) (c c' : ccxt_device) : Prop :=
  test_bit channel (fan_cnct c') = test_bit channel (fan_cnct c)
  /\ target c' !! Z.to_nat channel = target c !! Z.to_nat channel
  /\ fan_label c' !! Z.to_nat channel = fan_label c !! Z.to_nat channel.

(** [returns P m]: whatever the state, the value [m] returns satisfies
    [P]. *)
Definition returns {A} (P : A -> Prop) (m : M A) : Prop :=
  forall c, P (fst (m c)).

(** A result and its stored value agree: the result is never positive, and
    it is 0 exactly when a value was stored. *)
Definition value_iff_zero {V} (rv : Z * option V) : Prop :=
  fst rv <= 0 /\ (fst rv = 0 <-> is_Some (snd rv)).

(** How many exchanges a transaction from [c] runs: it stops after the
    first of close, open and read/write that fails, and otherwise runs the
    trailing close as the fourth. *)
Definition steps_run (c : ccxt_device) : nat :=
  if negb (exchange_result (exchange_at c 0) =? 0) then 1
  else if negb (exchange_result (exchange_at c 1) =? 0) then 2
  else if negb (exchange_result (exchange_at c 2) =? 0) then 3
  else 4.

(** [maintains I m]: running [m] from a state in [I] ends in a state in
    [I]. *)
Definition maintains {A} (I : ccxt_device -> Prop) (m : M A) : Prop :=
  forall c, I c -> I (snd (m c)).

(** What the driver caches about the fans, as one observation, and what
    holds of it in every state: a bit is set only for one of the six
    channels and then the label of the channel is "fan" and its 1-based
    number; a cached target is -ENODATA or a 16-bit value. *)
Definition cache (c : ccxt_device) : Z * list string * list Z :=
  (fan_cnct c, fan_label c, target c).

Definition cache_ok (c : ccxt_device) : Prop :=
  (forall channel, test_bit channel (fan_cnct c) = true ->
     0 <= channel < NUM_FANS
     /\ fan_label c !! Z.to_nat channel
        = Some ("fan" +:+ pretty (channel + 1))%string)
  /\ Forall (fun t => t = - ENODATA \/ 0 <= t <= 0xFFFF) (target c)
  /\ length (fan_label c) = Z.to_nat NUM_FANS.

(** The first result of a list that is not 0, and 0 when all are: what a
    sequence of steps returns when it stops at the first failure. *)
Fixpoint first_failure (results : list Z) : Z :=
  match results with
  | [] => 0
  | r :: rest => if r =? 0 then first_failure rest else r
  end.

(** [hoare P m Q]: from a state in [P], [m] returns a value and ends in a
    state related by [Q]. *)
Definition hoare {A} (P : ccxt_device -> Prop) (m : M A)
    (Q : A -> ccxt_device -> Prop) : Prop :=
  forall c, P c -> Q (fst (m c)) (snd (m c)).

(** A well-formed outgoing frame: 385 bytes that start with 0x00, 0x08. *)
Definition is_frame (f : list Z) : Prop :=
  length f = Z.to_nat OUT_BUFFER_SIZE /\ take 2 f = [0x00; 0x08].

(** The command buffer has its size and every frame sent so far was well
    formed; and the same with a well-formed frame in the command buffer. *)
Definition frames_ok (c : ccxt_device) : Prop :=
  length (cmd_buffer c) = Z.to_nat OUT_BUFFER_SIZE
  /\ Forall is_frame (output_log (hdev c)).

Definition frame_ready (c : ccxt_device) : Prop :=
  is_frame (cmd_buffer c) /\ Forall is_frame (output_log (hdev c)).

(** * Properties *)

(** ** Array lemmas *)

Lemma memset_whole (dst : list Z) (c n : Z) :
  length dst = Z.to_nat n -> memset dst c n = replicate (Z.to_nat n) c.
Proof.
  intros Hlen. unfold memset.
  rewrite <- (app_nil_r (replicate (Z.to_nat n) c)) at 1.
  apply list_inserts_0_l. by rewrite length_replicate.
Qed.

Lemma length_memset (dst : list Z) (c n : Z) :
  length (memset dst c n) = length dst.
Proof. apply length_inserts. Qed.

Lemma length_memcpy (dst : list Z) (off : Z) (src : list Z) (n : Z) :
  length (memcpy dst off src n) = length dst.
Proof. apply length_inserts. Qed.

Lemma length_buf_set (b : list Z) (i v : Z) : length (buf_set b i v) = length b.
Proof. apply length_insert. Qed.

Lemma list_inserts_prefix {A} (pre k rest : list A) :
  (length k <= length rest)%nat ->
  list_inserts (length pre) k (pre ++ rest)
  = pre ++ k ++ drop (length k) rest.
Proof.
  intros Hk.
  rewrite <- (Nat.add_0_r (length pre)), list_inserts_app_r.
  f_equal.
  rewrite <- (take_drop (length k) rest) at 1.
  apply list_inserts_0_r. rewrite length_take. lia.
Qed.

Lemma memcpy_spec (pre rest src : list Z) (off n : Z) :
  Z.to_nat off = length pre ->
  Z.to_nat n = length src ->
  (length src <= length rest)%nat ->
  memcpy (pre ++ rest) off src n = pre ++ src ++ drop (length src) rest.
Proof.
  intros Hoff Hn Hfit. unfold memcpy.
  rewrite Hoff, Hn, firstn_all. by apply list_inserts_prefix.
Qed.

Lemma buf_set_spec (pre rest : list Z) (i v : Z) :
  Z.to_nat i = length pre ->
  rest <> [] ->
  buf_set (pre ++ rest) i v = pre ++ v :: drop 1 rest.
Proof.
  intros Hi Hrest. unfold buf_set. rewrite Hi.
  destruct rest as [|x rest]; [done|].
  rewrite insert_app_r_alt by lia. by rewrite Nat.sub_diag.
Qed.

(** ** The encoder writes the frame *)

Lemma prepare_cmd_frame (command : list Z) (c : ccxt_device) :
  length (cmd_buffer c) = Z.to_nat OUT_BUFFER_SIZE ->
  (length command <= 383)%nat ->
  prepare_cmd_safe command c
  = (CMD_HEADER_SIZE + ARRAY_SIZE command,
     with_cmd_buffer (frame_of command) c).
Proof.
  intros Halloc Hfit.
  unfold prepare_cmd_safe, prepare_cmd, bind, modify, ret; cbn.
  f_equal. unfold with_cmd_buffer; cbn. f_equal.
  rewrite memset_whole by done.
  change (Z.to_nat OUT_BUFFER_SIZE) with (S (S 383)).
  cbn [replicate]. unfold buf_set; cbn [Z.to_nat list_insert insert].
  rewrite (memcpy_spec [0; 8] (replicate 383 0) command); cbn [length].
  - unfold frame_of. rewrite drop_replicate.
    change (Z.to_nat OUT_BUFFER_SIZE) with 385%nat.
    cbn [app]. repeat f_equal; lia.
  - done.
  - unfold ARRAY_SIZE. lia.
  - by rewrite length_replicate.
Qed.

Lemma prepare_endpoint_cmd_frame (command : list Z) (endpoint : Z)
    (c : ccxt_device) :
  length (cmd_buffer c) = Z.to_nat OUT_BUFFER_SIZE ->
  (length command <= 382)%nat ->
  prepare_endpoint_cmd_safe command endpoint c
  = (CMD_HEADER_SIZE + ARRAY_SIZE command + 1,
     with_cmd_buffer (frame_of (command ++ [endpoint])) c).
Proof.
  intros Halloc Hfit.
  unfold prepare_endpoint_cmd_safe, prepare_endpoint_cmd.
  unfold bind at 1.
  pose proof (prepare_cmd_frame command c Halloc) as Hcmd.
  unfold prepare_cmd_safe in Hcmd. rewrite Hcmd by lia.
  unfold bind, modify, ret; cbn.
  f_equal. unfold with_cmd_buffer; cbn. f_equal.
  unfold frame_of.
  change (Z.to_nat OUT_BUFFER_SIZE) with 385%nat.
  rewrite length_app; cbn [length].
  replace (385 - 2 - length command)%nat
    with (S (385 - 2 - (length command + 1)))%nat by lia.
  cbn [replicate].
  change (0 :: 8 :: command ++ ?r) with (([0; 8] ++ command) ++ r).
  rewrite (buf_set_spec ([0; 8] ++ command)); [|..].
  - cbn [drop]. by rewrite <- !app_assoc.
  - rewrite length_app; cbn [length]. unfold ARRAY_SIZE, CMD_HEADER_SIZE. lia.
  - done.
Qed.

(** ** Observations an operation leaves alone *)

Section PreservesRules.
Context {B : Type} (f : ccxt_device -> B).

Lemma preserves_ret {A} (a : A) : preserves f (ret a).
Proof. by intros c. Qed.

Lemma preserves_get {A} (g : ccxt_device -> A) : preserves f (get g).
Proof. by intros c. Qed.

Lemma preserves_modify (g : ccxt_device -> ccxt_device) :
  (forall c, f (g c) = f c) -> preserves f (modify g).
Proof. intros Hg c. apply Hg. Qed.

Lemma preserves_bind {A C} (m : M A) (k : A -> M C) :
  preserves f m -> (forall a, preserves f (k a)) -> preserves f (bind m k).
Proof.
  intros Hm Hk c. unfold bind.
  specialize (Hm c). destruct (m c) as [a c1]; cbn in Hm.
  rewrite <- Hm. apply Hk.
Qed.

Lemma preserves_if {A} (b : bool) (m1 m2 : M A) :
  preserves f m1 -> preserves f m2 -> preserves f (if b then m1 else m2).
Proof. by destruct b. Qed.

Lemma preserves_for_loop (from to : Z) (body : Z -> M unit) :
  (forall channel, preserves f (body channel)) ->
  preserves f (for_loop from to body).
Proof.
  intros Hbody. unfold for_loop.
  induction (seqZ from (to - from)) as [|channel l IH]; cbn.
  - apply preserves_ret.
  - apply preserves_bind; [apply Hbody | intros _; apply IH].
Qed.
End PreservesRules.

Ltac preserves_step :=
  lazymatch goal with
  | |- preserves _ (ret _) => apply preserves_ret
  | |- preserves _ (get _) => apply preserves_get
  | |- preserves _ (bind _ _) => apply preserves_bind; [|intros ?]
  | |- preserves _ (modify _) => apply preserves_modify; intros ?
  | |- preserves _ (for_loop _ _ _) => apply preserves_for_loop; intros ?
  | |- preserves _ (if _ then _ else _) => apply preserves_if
  | |- preserves _ (match ?x with _ => _ end) => destruct x
  end.

(** Structural descent; what is left are the field updates and the calls,
    which [tac] has to close. *)
Ltac preserves_with tac := cbv zeta; repeat preserves_step; tac.

Section Blind.
Context {B : Type} (f : ccxt_device -> B).

(** [f] does not look at the transport side of the structure. *)
Hypothesis f_hdev : forall v c, f (with_hdev v c) = f c.
Hypothesis f_wait : forall v c, f (with_wait_input_report v c) = f c.
Hypothesis f_cmd_buffer : forall v c, f (with_cmd_buffer v c) = f c.

Lemma prepare_cmd_preserves command command_len :
  preserves f (prepare_cmd command command_len).
Proof. unfold prepare_cmd. preserves_with auto. Qed.

Lemma prepare_endpoint_cmd_preserves command command_len endpoint :
  preserves f (prepare_endpoint_cmd command command_len endpoint).
Proof.
  unfold prepare_endpoint_cmd.
  preserves_with ltac:(auto using prepare_cmd_preserves).
Qed.

Lemma hid_hw_output_report_preserves len :
  preserves f (hid_hw_output_report len).
Proof. intros c. apply f_hdev. Qed.

Hypothesis f_buffer : forall v n c, f (with_buffer v n c) = f c.

Lemma ccxt_raw_event_preserves data size :
  preserves f (ccxt_raw_event data size).
Proof. unfold ccxt_raw_event. preserves_with auto. Qed.

Lemma wait_for_completion_timeout_preserves :
  preserves f wait_for_completion_timeout.
Proof.
  unfold wait_for_completion_timeout.
  preserves_with ltac:(auto using ccxt_raw_event_preserves).
Qed.

Lemma send_usb_preserves : preserves f send_usb.
Proof.
  unfold send_usb, ccxt_get_errno.
  preserves_with ltac:(auto using hid_hw_output_report_preserves,
                         wait_for_completion_timeout_preserves).
Qed.

Local Hint Resolve prepare_cmd_preserves prepare_endpoint_cmd_preserves
  send_usb_preserves : core.

Lemma set_hardware_mode_preserves : preserves f set_hardware_mode.
Proof.
  unfold set_hardware_mode, prepare_cmd_safe. preserves_with auto.
Qed.

Lemma set_software_mode_preserves : preserves f set_software_mode.
Proof.
  unfold set_software_mode, prepare_cmd_safe. preserves_with auto.
Qed.

(** ... nor at the data buffer or the version fields. *)
Hypothesis f_data_buffer : forall v c, f (with_data_buffer v c) = f c.
Hypothesis f_data_buffer_recv_size :
  forall v c, f (with_data_buffer_recv_size v c) = f c.
Hypothesis f_firmware_ver : forall v c, f (with_firmware_ver v c) = f c.

Lemma get_fw_version_preserves : preserves f get_fw_version.
Proof. unfold get_fw_version, prepare_cmd_safe. preserves_with auto. Qed.

Lemma read_data_preserves endpoint : preserves f (read_data endpoint).
Proof.
  unfold read_data, prepare_endpoint_cmd_safe. preserves_with auto.
Qed.

Lemma write_data_preserves endpoint data_type data_type_size data data_size :
  preserves f (write_data endpoint data_type data_type_size data data_size).
Proof.
  unfold write_data, prepare_endpoint_cmd_safe, prepare_cmd_safe.
  preserves_with auto.
Qed.

Local Hint Resolve read_data_preserves write_data_preserves
  get_fw_version_preserves set_hardware_mode_preserves
  set_software_mode_preserves ccxt_raw_event_preserves : core.

Lemma get_temp_cnct_preserves : preserves f get_temp_cnct.
Proof. unfold get_temp_cnct. preserves_with auto. Qed.

Lemma get_fan_rpm_preserves channel : preserves f (get_fan_rpm channel).
Proof. unfold get_fan_rpm. preserves_with auto. Qed.

Lemma get_fan_pwm_preserves channel : preserves f (get_fan_pwm channel).
Proof. unfold get_fan_pwm. preserves_with auto. Qed.

Lemma ccxt_read_string_preserves type attr channel :
  preserves f (ccxt_read_string type attr channel).
Proof. unfold ccxt_read_string. preserves_with auto. Qed.

Lemma ccxt_read_preserves type attr channel :
  preserves f (ccxt_read type attr channel).
Proof.
  unfold ccxt_read.
  preserves_with ltac:(auto using get_fan_rpm_preserves,
                         get_fan_pwm_preserves).
Qed.

(** ... nor at what the fan inventory and the writers record. *)
Hypothesis f_target : forall v c, f (with_target v c) = f c.
Hypothesis f_fan_cnct : forall v c, f (with_fan_cnct v c) = f c.
Hypothesis f_fan_label : forall v c, f (with_fan_label v c) = f c.

Lemma get_fan_cnct_preserves : preserves f get_fan_cnct.
Proof. unfold get_fan_cnct, mark_fan. preserves_with auto. Qed.

Lemma set_pwm_preserves channel val : preserves f (set_pwm channel val).
Proof. unfold set_pwm. preserves_with auto. Qed.

Lemma set_target_preserves channel val :
  preserves f (set_target channel val).
Proof. unfold set_target. preserves_with auto. Qed.

Lemma ccxt_write_preserves type attr channel val :
  preserves f (ccxt_write type attr channel val).
Proof.
  unfold ccxt_write.
  preserves_with ltac:(auto using set_pwm_preserves, set_target_preserves).
Qed.

Lemma ccxt_probe_preserves : preserves f ccxt_probe.
Proof.
  unfold ccxt_probe, ccxt_debugfs_init, get_bl_version.
  preserves_with ltac:(auto using get_fan_cnct_preserves,
                         get_temp_cnct_preserves).
Qed.

Lemma ccxt_remove_preserves : preserves f ccxt_remove.
Proof. unfold ccxt_remove. preserves_with auto. Qed.

Lemma run_call_preserves call c : f (run_call call c) = f c.
Proof.
  destruct call; cbn.
  - apply ccxt_probe_preserves.
  - apply ccxt_remove_preserves.
  - apply ccxt_read_preserves.
  - apply ccxt_read_string_preserves.
  - apply ccxt_write_preserves.
  - apply ccxt_raw_event_preserves.
Qed.
End Blind.

(** ** The arrays keep their lengths *)

Lemma allocated_shape (c : ccxt_device) :
  allocated c <-> shape c = (385, 384, 384, 6, 6)%nat.
Proof.
  unfold shape. split.
  - intros [-> -> -> -> ->]. reflexivity.
  - intros [= H1 H2 H3 H4 H5]. by split.
Qed.

Create HintDb shape.

Ltac shape_leaf :=
  intros; unfold shape, with_hdev, with_wait_input_report, with_cmd_buffer,
    with_buffer, with_data_buffer, with_data_buffer_recv_size, with_target,
    with_fan_cnct, with_fan_label, with_firmware_ver;
  cbn [cmd_buffer buffer data_buffer target fan_label];
  rewrite ?length_memset, ?length_memcpy, ?length_buf_set, ?length_insert;
  reflexivity.

Ltac shape_tac := preserves_with ltac:(first [shape_leaf | auto with shape]).

Lemma prepare_cmd_shape command command_len :
  preserves shape (prepare_cmd command command_len).
Proof. unfold prepare_cmd. shape_tac. Qed.
#[local] Hint Resolve prepare_cmd_shape : shape.

Lemma prepare_endpoint_cmd_shape command command_len endpoint :
  preserves shape (prepare_endpoint_cmd command command_len endpoint).
Proof. unfold prepare_endpoint_cmd. shape_tac. Qed.
#[local] Hint Resolve prepare_endpoint_cmd_shape : shape.

Lemma ccxt_raw_event_shape data size :
  preserves shape (ccxt_raw_event data size).
Proof. unfold ccxt_raw_event. shape_tac. Qed.
#[local] Hint Resolve ccxt_raw_event_shape : shape.

Lemma hid_hw_output_report_shape len :
  preserves shape (hid_hw_output_report len).
Proof. by intros c. Qed.
#[local] Hint Resolve hid_hw_output_report_shape : shape.

Lemma send_usb_shape : preserves shape send_usb.
Proof.
  unfold send_usb, wait_for_completion_timeout, ccxt_get_errno. shape_tac.
Qed.
#[local] Hint Resolve send_usb_shape : shape.

Lemma read_data_shape endpoint : preserves shape (read_data endpoint).
Proof. unfold read_data, prepare_endpoint_cmd_safe. shape_tac. Qed.
#[local] Hint Resolve read_data_shape : shape.

Lemma write_data_shape endpoint data_type data_type_size data data_size :
  preserves shape
    (write_data endpoint data_type data_type_size data data_size).
Proof.
  unfold write_data, prepare_endpoint_cmd_safe, prepare_cmd_safe. shape_tac.
Qed.
#[local] Hint Resolve write_data_shape : shape.

Lemma get_fan_cnct_shape : preserves shape get_fan_cnct.
Proof. unfold get_fan_cnct, mark_fan. shape_tac. Qed.

Lemma get_temp_cnct_shape : preserves shape get_temp_cnct.
Proof. unfold get_temp_cnct. shape_tac. Qed.

Lemma get_fan_rpm_shape channel : preserves shape (get_fan_rpm channel).
Proof. unfold get_fan_rpm. shape_tac. Qed.

Lemma get_fan_pwm_shape channel : preserves shape (get_fan_pwm channel).
Proof. unfold get_fan_pwm. shape_tac. Qed.

Lemma set_pwm_shape channel val : preserves shape (set_pwm channel val).
Proof. unfold set_pwm. shape_tac. Qed.

Lemma set_target_shape channel val : preserves shape (set_target channel val).
Proof. unfold set_target. shape_tac. Qed.
#[local] Hint Resolve get_fan_cnct_shape get_temp_cnct_shape get_fan_rpm_shape
  get_fan_pwm_shape set_pwm_shape set_target_shape : shape.

Lemma ccxt_probe_shape : preserves shape ccxt_probe.
Proof.
  unfold ccxt_probe, ccxt_debugfs_init, get_fw_version, get_bl_version,
    set_software_mode, prepare_cmd_safe.
  shape_tac.
Qed.

Lemma ccxt_remove_shape : preserves shape ccxt_remove.
Proof.
  unfold ccxt_remove, set_hardware_mode, prepare_cmd_safe. shape_tac.
Qed.

Lemma ccxt_read_shape type attr channel :
  preserves shape (ccxt_read type attr channel).
Proof. unfold ccxt_read. shape_tac. Qed.

Lemma ccxt_read_string_shape type attr channel :
  preserves shape (ccxt_read_string type attr channel).
Proof. unfold ccxt_read_string. shape_tac. Qed.

Lemma ccxt_write_shape type attr channel val :
  preserves shape (ccxt_write type attr channel val).
Proof. unfold ccxt_write. shape_tac. Qed.

Lemma run_call_shape (call : driver_call) (c : ccxt_device) :
  shape (run_call call c) = shape c.
Proof.
  destruct call; cbn.
  - apply ccxt_probe_shape.
  - apply ccxt_remove_shape.
  - apply ccxt_read_shape.
  - apply ccxt_read_string_shape.
  - apply ccxt_write_shape.
  - apply ccxt_raw_event_shape.
Qed.

(** Every state the driver can be in has its arrays at the sizes they were
    allocated with: the length hypotheses of the theorems below hold of it. *)
Lemma reachable_allocated (c : ccxt_device) : reachable c -> allocated c.
Proof.
  intros Hreach. apply allocated_shape.
  induction Hreach as [h cmd buf dbuf Hcmd Hbuf Hdbuf | c call _ IH _].
  - unfold shape; cbn. by rewrite Hcmd, Hbuf, Hdbuf.
  - by rewrite run_call_shape.
Qed.

(** ** The transport exchange against the script *)

Lemma memcpy_whole (dst src : list Z) (n : Z) :
  length dst = Z.to_nat n -> length src = Z.to_nat n ->
  memcpy dst 0 src n = src.
Proof.
  intros Hdst Hsrc. unfold memcpy.
  rewrite <- Hsrc, firstn_all; change (Z.to_nat 0) with 0%nat.
  rewrite <- (app_nil_r src) at 1.
  apply list_inserts_0_l. congruence.
Qed.

Lemma send_usb_spec (c : ccxt_device) :
  length (buffer c) = Z.to_nat IN_BUFFER_SIZE ->
  let e := exchange_at c 0 in
  let out := send_usb c in
  fst out = exchange_result e
  /\ script (hdev (snd out)) = tl (script (hdev c))
  /\ output_log (hdev (snd out))
     = output_log (hdev c) ++ [take (Z.to_nat OUT_BUFFER_SIZE) (cmd_buffer c)]
  /\ length (buffer (snd out)) = Z.to_nat IN_BUFFER_SIZE
  /\ (fst out = 0 ->
      input_report e = Some (buffer (snd out))
      /\ buffer_recv_size (snd out) = IN_BUFFER_SIZE).
Proof.
  intros Hbuf e out. subst e out.
  unfold exchange_at, exchange_result.
  replace (nth 0 (script (hdev c)) silent) with (hd silent (script (hdev c)))
    by (by destruct (script (hdev c))).
  set (e := hd silent (script (hdev c))).
  unfold send_usb, bind, modify, hid_hw_output_report; cbn.
  fold e.
  destruct (output_ret e <? 0) eqn:Hret.
  { apply Z.ltb_lt in Hret. cbn. repeat split; try done; lia. }
  unfold wait_for_completion_timeout, bind, get, modify; cbn.
  destruct (input_report e) as [data|] eqn:Hrep; cbn.
  2:{ repeat split; try done. }
  destruct (Z.of_nat (length data) =? IN_BUFFER_SIZE) eqn:Hlen; cbn.
  2:{ rewrite length_memcpy. repeat split; try done. }
  apply Z.eqb_eq in Hlen. rewrite Hlen.
  assert (Hdata : length data = Z.to_nat IN_BUFFER_SIZE) by lia.
  change (min IN_BUFFER_SIZE IN_BUFFER_SIZE) with IN_BUFFER_SIZE.
  rewrite memcpy_whole by done.
  repeat split; try done.
  unfold errno_of_status.
  repeat (case_match; try done; try lia).
Qed.

(** * The claims *)

(** C1.  For a command template that fits the frame, [prepare_cmd] leaves in
    [cmd_buffer] a frame of exactly 385 bytes: [0x00, 0x08], then the
    template, then zeros; it returns [2 + len].  [prepare_endpoint_cmd] puts
    the endpoint byte at position [2 + len], zeros after it, and returns
    [2 + len + 1].  Nothing else of the device structure changes. *)
Theorem C1_encoder_frame (command : list Z) (endpoint : Z) (c : ccxt_device) :
  length (cmd_buffer c) = Z.to_nat OUT_BUFFER_SIZE ->
  (length command <= 382)%nat ->
  let len := Z.of_nat (length command) in
  let plain := prepare_cmd_safe command c in
  let selected := prepare_endpoint_cmd_safe command endpoint c in
  (fst plain = 2 + len
   /\ length (cmd_buffer (snd plain)) = 385%nat
   /\ cmd_buffer (snd plain)
      = [0x00; 0x08] ++ command ++ replicate (383 - length command) 0
   /\ snd plain = with_cmd_buffer (cmd_buffer (snd plain)) c)
  /\ (fst selected = 2 + len + 1
      /\ length (cmd_buffer (snd selected)) = 385%nat
      /\ cmd_buffer (snd selected)
         = [0x00; 0x08] ++ command ++ [endpoint]
           ++ replicate (382 - length command) 0
      /\ snd selected = with_cmd_buffer (cmd_buffer (snd selected)) c).
Proof.
  intros Halloc Hfit len plain selected. subst len plain selected.
  rewrite prepare_cmd_frame, prepare_endpoint_cmd_frame by (done || lia).
  cbn [fst snd]. unfold frame_of, ARRAY_SIZE, CMD_HEADER_SIZE.
  change (Z.to_nat OUT_BUFFER_SIZE) with 385%nat.
  repeat split; cbn;
    rewrite <- ?app_assoc, ?length_app; cbn;
    rewrite ?length_app, ?length_replicate; cbn;
    first [done | lia | idtac].
  by replace (383 - (length command + 1))%nat
    with (382 - length command)%nat by lia.
Qed.

Lemma C1_encoder_frame_witness :
  let c := sample_device [] in
  length (cmd_buffer c) = Z.to_nat OUT_BUFFER_SIZE
  /\ (length cmd_close_endpoint <= 382)%nat
  /\ fst (prepare_endpoint_cmd_safe cmd_close_endpoint endpoint_get_fans c) = 6
  /\ cmd_buffer
       (snd (prepare_endpoint_cmd_safe cmd_close_endpoint endpoint_get_fans c))
     = [0x00; 0x08; 0x05; 0x01; 0x01; 0x1a] ++ replicate 379 0.
Proof.
  assert (Hlen : (length cmd_close_endpoint <= 382)%nat) by (cbn; lia).
  pose proof (C1_encoder_frame cmd_close_endpoint endpoint_get_fans
                (sample_device []) eq_refl Hlen) as [_ (Hret & _ & Hframe & _)].
  cbv zeta. split; [reflexivity|]. split; [exact Hlen|].
  split; [exact Hret | exact Hframe].
Defined.

(** C2.  When the output report is accepted and a report of exactly 384
    bytes is captured, [send_usb] returns what the first byte of the report
    stands for: 0x00 gives 0, 0x01 gives -EOPNOTSUPP, 0x10 gives -EINVAL,
    0x11 and 0x12 give -ENODATA, anything else gives -EIO. *)
Theorem C2_status_mapping (c : ccxt_device) (e : hid_exchange)
    (rest : list hid_exchange) (data : list Z) :
  length (buffer c) = Z.to_nat IN_BUFFER_SIZE ->
  script (hdev c) = e :: rest ->
  0 <= output_ret e ->
  input_report e = Some data ->
  Z.of_nat (length data) = IN_BUFFER_SIZE ->
  let status := buf_get data 0 in
  let r := fst (send_usb c) in
  buffer_recv_size (snd (send_usb c)) = 384
  /\ (status = 0x00 -> r = 0)
  /\ (status = 0x01 -> r = - EOPNOTSUPP)
  /\ (status = 0x10 -> r = - EINVAL)
  /\ (status = 0x11 \/ status = 0x12 -> r = - ENODATA)
  /\ (status <> 0x00 -> status <> 0x01 -> status <> 0x10 ->
      status <> 0x11 -> status <> 0x12 -> r = - EIO).
Proof.
  intros Hbuf Hscript Hret Hrep Hlen status r. subst status r.
  destruct (send_usb_spec c Hbuf) as (Hres & _ & _ & _ & Hok).
  assert (Hat : exchange_at c 0 = e) by (unfold exchange_at; by rewrite Hscript).
  rewrite Hat in Hres, Hok.
  unfold exchange_result in Hres.
  rewrite (proj2 (Z.ltb_ge _ _) Hret), Hrep, (proj2 (Z.eqb_eq _ _) Hlen) in Hres.
  rewrite Hres. unfold errno_of_status.
  split.
  { unfold send_usb, bind, modify, hid_hw_output_report; cbn.
    rewrite Hscript; cbn. rewrite (proj2 (Z.ltb_ge _ _) Hret).
    unfold wait_for_completion_timeout, bind, get, modify; cbn.
    rewrite Hrep; cbn. rewrite Hlen. by cbn. }
  repeat split.
  - by intros ->.
  - by intros ->.
  - by intros ->.
  - by intros [-> | ->].
  - intros H0 H1 H2 H3 H4.
    by rewrite !(proj2 (Z.eqb_neq _ _)) by done.
Qed.

Lemma C2_status_mapping_witness :
  let e := report_of [0x11] in
  let c := sample_device [e] in
  length (buffer c) = Z.to_nat IN_BUFFER_SIZE
  /\ script (hdev c) = [e]
  /\ 0 <= output_ret e
  /\ input_report e = Some (0x11 :: replicate 383 0)
  /\ Z.of_nat (length (0x11 :: replicate 383 0)) = IN_BUFFER_SIZE
  /\ fst (send_usb c) = - ENODATA.
Proof.
  assert (Hret : 0 <= output_ret (report_of [0x11])) by (by vm_compute).
  pose proof (C2_status_mapping (sample_device [report_of [0x11]])
                (report_of [0x11]) [] (0x11 :: replicate 383 0)
                eq_refl eq_refl Hret eq_refl eq_refl)
    as (_ & _ & _ & _ & Hnodata & _).
  cbv zeta. do 2 (split; [reflexivity|]). split; [exact Hret|].
  do 2 (split; [reflexivity|]). exact (Hnodata (or_introl eq_refl)).
Defined.

(** C3.  When the output report is accepted and a report is captured whose
    length is not 384, [send_usb] returns -EPROTO, whatever the report
    holds; the recorded length is the length of the report. *)
Theorem C3_wrong_length_is_eproto (c : ccxt_device) (e : hid_exchange)
    (rest : list hid_exchange) (data : list Z) :
  script (hdev c) = e :: rest ->
  0 <= output_ret e ->
  input_report e = Some data ->
  Z.of_nat (length data) <> IN_BUFFER_SIZE ->
  fst (send_usb c) = - EPROTO
  /\ buffer_recv_size (snd (send_usb c)) = Z.of_nat (length data).
Proof.
  intros Hscript Hret Hrep Hlen.
  unfold send_usb, bind, modify, hid_hw_output_report; cbn.
  rewrite Hscript; cbn. rewrite (proj2 (Z.ltb_ge _ _) Hret).
  unfold wait_for_completion_timeout, bind, get, modify; cbn.
  rewrite Hrep; cbn. rewrite (proj2 (Z.eqb_neq _ _) Hlen). by cbn.
Qed.

Lemma C3_wrong_length_is_eproto_witness :
  let e := {| output_ret := 385; input_report := Some [0x00; 0x01; 0x02] |} in
  let c := sample_device [e] in
  script (hdev c) = [e]
  /\ 0 <= output_ret e
  /\ Z.of_nat (length [0x00; 0x01; 0x02]) <> IN_BUFFER_SIZE
  /\ fst (send_usb c) = - EPROTO.
Proof.
  assert (Hret : 0 <= 385) by lia.
  assert (Hlen : Z.of_nat (length [0x00; 0x01; 0x02]) <> IN_BUFFER_SIZE)
    by (by vm_compute).
  pose proof (C3_wrong_length_is_eproto
                (sample_device [{| output_ret := 385;
                                   input_report := Some [0x00; 0x01; 0x02] |}])
                _ [] _ eq_refl Hret eq_refl Hlen) as [Hres _].
  cbv zeta. split; [reflexivity|]. split; [exact Hret|].
  split; [exact Hlen | exact Hres].
Defined.

(** ** Rescaling between the host and the device scale *)

Lemma round_trip_ok_all : forallb round_trip_ok (seqZ 0 256) = true.
Proof. by vm_compute. Qed.

Lemma round_trip_ok_byte (v : Z) : 0 <= v <= 255 -> round_trip_ok v = true.
Proof.
  intros Hv.
  apply (proj1 (forallb_forall _ _) round_trip_ok_all).
  apply list_elem_of_In, elem_of_seqZ. lia.
Qed.

(** ** The target cache and the temperature bitmap *)

Lemma buf_get_insert (l : list Z) (i v : Z) :
  0 <= i -> (Z.to_nat i < length l)%nat ->
  buf_get (<[Z.to_nat i := v]> l) i = v.
Proof. intros Hi Hlt. unfold buf_get. by rewrite list_lookup_insert_eq. Qed.

(** C9.  [set_target] clamps the value to 0..0xFFFF, stores the clamped
    value in [target] at the channel, exchanges nothing with the device and
    returns -1; reading [fan*_target] afterwards succeeds with the clamped
    value. *)
Theorem C9_set_target_stub (channel val : Z) (c : ccxt_device) :
  length (target c) = Z.to_nat NUM_FANS ->
  0 <= channel < NUM_FANS ->
  let clamped := clamp_val val 0 0xFFFF in
  let out := set_target channel val c in
  fst out = -1
  /\ 0 <= clamped <= 0xFFFF
  /\ (0 <= val <= 0xFFFF -> clamped = val)
  /\ (val < 0 -> clamped = 0)
  /\ (0xFFFF < val -> clamped = 0xFFFF)
  /\ target (snd out) = <[Z.to_nat channel := clamped]> (target c)
  /\ hdev (snd out) = hdev c
  /\ ccxt_read hwmon_fan hwmon_fan_target channel (snd out)
     = ((0, Some clamped), snd out).
Proof.
  intros Hlen Hch clamped out. subst out.
  assert (Hrange : 0 <= clamped <= 0xFFFF).
  { subst clamped. unfold clamp_val. repeat case_match; lia. }
  split; [done|]. split; [done|].
  split; [|split; [|split]].
  - intros Hval. subst clamped. unfold clamp_val. repeat case_match; lia.
  - intros Hval. subst clamped. unfold clamp_val. repeat case_match; lia.
  - intros Hval. subst clamped. unfold clamp_val. repeat case_match; lia.
  - split; [done|]. split; [done|].
    unfold ccxt_read, set_target, bind, modify, get, ret; cbn.
    fold clamped.
    rewrite buf_get_insert by (unfold NUM_FANS in *; lia).
    by rewrite (proj2 (Z.ltb_ge _ _) (proj1 Hrange)).
Qed.

Lemma C9_set_target_stub_witness :
  let c := sample_device [] in
  length (target c) = Z.to_nat NUM_FANS
  /\ 0 <= 2 < NUM_FANS
  /\ fst (set_target 2 70000 c) = -1
  /\ ccxt_read hwmon_fan hwmon_fan_target 2 (snd (set_target 2 70000 c))
     = ((0, Some 65535), snd (set_target 2 70000 c)).
Proof.
  assert (Hch : 0 <= 2 < NUM_FANS) by (by vm_compute).
  pose proof (C9_set_target_stub 2 70000 (sample_device []) eq_refl Hch)
    as (Hret & _ & _ & _ & _ & _ & _ & Hread).
  cbv zeta. split; [reflexivity|]. split; [exact Hch|].
  split; [exact Hret | exact Hread].
Defined.

Lemma get_temp_cnct_fails (c : ccxt_device) : fst (get_temp_cnct c) <> 0.
Proof.
  unfold get_temp_cnct, bind.
  destruct (read_data endpoint_get_temperatures c) as [r c1].
  destruct (r =? 0) eqn:Hr; cbn.
  - unfold get. by destruct (for_loop _ _ _ c1).
  - by apply Z.eqb_neq.
Qed.

Lemma reachable_temp_cnct (c : ccxt_device) : reachable c -> temp_cnct c = 0.
Proof.
  induction 1 as [h cmd buf dbuf _ _ _ | c call _ IH _]; [done|].
  by rewrite (run_call_preserves temp_cnct).
Qed.

(** C10.  Nothing the driver runs writes [temp_cnct]: it is zero in every
    reachable state, so [ccxt_is_visible] answers 0 for every temperature
    attribute and channel.  [get_temp_cnct] itself never returns 0 and
    leaves the bitmap as it was. *)
Theorem C10_temperature_hidden (c : ccxt_device) :
  reachable c ->
  temp_cnct c = 0
  /\ (forall attr channel, ccxt_is_visible c hwmon_temp attr channel = 0)
  /\ fst (get_temp_cnct c) <> 0
  /\ temp_cnct (snd (get_temp_cnct c)) = 0.
Proof.
  intros Hreach.
  pose proof (reachable_temp_cnct c Hreach) as Hzero.
  split; [done|]. split; [|split].
  - intros attr channel. unfold ccxt_is_visible, test_bit.
    by rewrite Hzero, Z.bits_0.
  - apply get_temp_cnct_fails.
  - by rewrite (get_temp_cnct_preserves temp_cnct).
Qed.

(** ** Endpoint transactions against the script *)

Lemma bind_run {A C} (m : M A) (k : A -> M C) (c : ccxt_device) :
  bind m k c = k (fst (m c)) (snd (m c)).
Proof. unfold bind. by destruct (m c). Qed.

Lemma send_usb_exchanged (frame : list Z) (c : ccxt_device) :
  length (buffer c) = Z.to_nat IN_BUFFER_SIZE ->
  let out := send_usb (with_cmd_buffer frame c) in
  exchanged c frame (snd out) (fst out).
Proof.
  intros Hbuf out. subst out.
  destruct (send_usb_spec (with_cmd_buffer frame c) Hbuf)
    as (Hres & Hscript & Hlog & Hlen & Hok).
  split; try done.
  - by rewrite (send_usb_preserves cmd_buffer).
  - by rewrite (send_usb_preserves data_buffer).
  - by rewrite (send_usb_preserves data_buffer_recv_size).
  - by rewrite (send_usb_preserves target).
  - by rewrite (send_usb_preserves fan_cnct).
  - by rewrite (send_usb_preserves fan_label).
Qed.

Lemma exchange_at_tl (c c' : ccxt_device) (k : nat) :
  script (hdev c') = tl (script (hdev c)) ->
  exchange_at c' k = exchange_at c (S k).
Proof.
  unfold exchange_at. intros ->.
  destruct (script (hdev c)); [by destruct k | done].
Qed.

(** The encoders write [cmd_buffer] and nothing else. *)
Lemma prepare_endpoint_cmd_safe_only (cmd : list Z) (endpoint : Z)
    (c : ccxt_device) :
  snd (prepare_endpoint_cmd_safe cmd endpoint c)
  = with_cmd_buffer
      (cmd_buffer (snd (prepare_endpoint_cmd_safe cmd endpoint c))) c.
Proof. reflexivity. Qed.

(** One exchange of a transaction: name the result and the state after it,
    and record what [send_usb_exchanged] says about them. *)
Ltac run_exchange Hbuf r c' X :=
  rewrite bind_run, prepare_endpoint_cmd_safe_only;
  rewrite bind_run;
  lazymatch goal with
  | |- context [send_usb (with_cmd_buffer ?frame ?c)] =>
      pose proof (send_usb_exchanged frame c Hbuf) as X;
      cbv zeta in X;
      destruct (send_usb (with_cmd_buffer frame c)) as [r c'];
      cbn [fst snd] in X |- *
  end.

Ltac close_law :=
  unfold transaction_law, ret; cbv zeta; cbn [fst snd];
  repeat split; intros; solve [congruence | lia].

Lemma read_data_law (endpoint : Z) (c : ccxt_device) :
  length (buffer c) = Z.to_nat IN_BUFFER_SIZE ->
  length (data_buffer c) = Z.to_nat IN_BUFFER_SIZE ->
  transaction_law c (read_data endpoint c).
Proof.
  intros Hbuf Hdbuf. unfold read_data.
  run_exchange Hbuf r1 c1 X1.
  pose proof (ex_result _ _ _ _ X1) as R1.
  pose proof (ex_data_buffer _ _ _ _ X1) as D1.
  destruct (Z.eqb_spec r1 0) as [Hr1 | Hr1]; cbn [negb]; [|close_law].
  run_exchange (ex_buffer_len _ _ _ _ X1) r2 c2 X2.
  pose proof (ex_result _ _ _ _ X2) as R2.
  rewrite (exchange_at_tl c c1) in R2 by apply X1.
  pose proof (ex_data_buffer _ _ _ _ X2) as D2.
  destruct (Z.eqb_spec r2 0) as [Hr2 | Hr2]; cbn [negb]; [|close_law].
  run_exchange (ex_buffer_len _ _ _ _ X2) r3 c3 X3.
  pose proof (ex_result _ _ _ _ X3) as R3.
  rewrite (exchange_at_tl c1 c2), (exchange_at_tl c c1) in R3
    by (apply X1 || apply X2).
  pose proof (ex_data_buffer _ _ _ _ X3) as D3.
  destruct (Z.eqb_spec r3 0) as [Hr3 | Hr3]; cbn [negb]; [|close_law].
  destruct (ex_reply _ _ _ _ X3 Hr3) as [Hrep3 Hsize3].
  rewrite (exchange_at_tl c1 c2), (exchange_at_tl c c1) in Hrep3
    by (apply X1 || apply X2).
  do 2 rewrite bind_run; cbn [modify fst snd].
  set (c3' := with_data_buffer_recv_size _ _).
  rewrite bind_run, prepare_endpoint_cmd_safe_only.
  lazymatch goal with
  | |- context [send_usb (with_cmd_buffer ?frame c3')] =>
      pose proof (send_usb_exchanged frame c3' (ex_buffer_len _ _ _ _ X3)) as X4;
      cbv zeta in X4;
      destruct (send_usb (with_cmd_buffer frame c3')) as [r4 c4]
  end.
  cbn [fst snd] in X4 |- *.
  pose proof (ex_result _ _ _ _ X4) as R4.
  change (exchange_at c3' 0) with (exchange_at c3 0) in R4.
  rewrite (exchange_at_tl c2 c3), (exchange_at_tl c1 c2), (exchange_at_tl c c1)
    in R4 by (apply X1 || apply X2 || apply X3).
  pose proof (ex_data_buffer _ _ _ _ X4) as D4.
  change (data_buffer c3')
    with (memcpy (data_buffer c3) 0 (buffer c3) IN_BUFFER_SIZE) in D4.
  rewrite memcpy_whole in D4
    by (rewrite ?D3, ?D2, ?D1; done || apply X3).
  close_law.
Qed.

(** The frame of the write step: the header, the write command, the four
    bytes of sub-header that start with the length of tag and payload, the
    tag and the payload, zeros after them. *)
Lemma write_frame (data_type data : list Z) (c : ccxt_device) :
  length (cmd_buffer c) = Z.to_nat OUT_BUFFER_SIZE ->
  (length data_type + length data <= 377)%nat ->
  let r := fst (prepare_cmd_safe cmd_write c) in
  let c1 := snd (prepare_cmd_safe cmd_write c) in
  memcpy
    (memcpy
       (buf_set (cmd_buffer c1) r
          (u8 (ARRAY_SIZE data_type + ARRAY_SIZE data)))
       (r + WRITE_DATA_HEADER_SIZE) data_type (ARRAY_SIZE data_type))
    (r + WRITE_DATA_HEADER_SIZE + ARRAY_SIZE data_type) data (ARRAY_SIZE data)
  = frame_of (cmd_write
              ++ [u8 (ARRAY_SIZE data_type + ARRAY_SIZE data); 0; 0; 0]
              ++ data_type ++ data).
Proof.
  intros Halloc Hfit r c1. subst r c1.
  rewrite prepare_cmd_frame by (done || (cbn; lia)).
  cbn [fst snd]. unfold with_cmd_buffer; cbn [cmd_buffer].
  set (v := u8 _).
  unfold frame_of, cmd_write, ARRAY_SIZE, CMD_HEADER_SIZE,
    WRITE_DATA_HEADER_SIZE; cbn [length app].
  change (Z.to_nat OUT_BUFFER_SIZE - 2 - 2)%nat with 381%nat.
  change (replicate 381 0) with (0 :: 0 :: 0 :: 0 :: replicate 377 0).
  change (2 + Z.of_nat 2) with 4.
  unfold buf_set; cbn [Z.to_nat Pos.to_nat Pos.iter_op Init.Nat.add
                        list_insert insert].
  change (4 + 4) with 8.
  rewrite (memcpy_spec [0; 8; 6; 1; v; 0; 0; 0] (replicate 377 0) data_type)
    by (rewrite ?length_replicate; cbn; lia).
  rewrite drop_replicate.
  rewrite (app_assoc _ data_type).
  rewrite (memcpy_spec ([0; 8; 6; 1; v; 0; 0; 0] ++ data_type) _ data)
    by (rewrite ?length_app, ?length_replicate; cbn; lia).
  rewrite drop_replicate, length_app.
  change (Z.to_nat OUT_BUFFER_SIZE) with 385%nat.
  rewrite <- !app_assoc. cbn [app].
  by replace (377 - length data_type - length data)%nat
    with (385 - 2 - S (S (S (S (S (S (length data_type + length data)))))))%nat
    by lia.
Qed.

Lemma length_frame_of (content : list Z) :
  (length content <= 383)%nat -> length (frame_of content) = 385%nat.
Proof.
  intros Hfit. unfold frame_of. cbn [app length].
  rewrite length_app, length_replicate.
  change (Z.to_nat OUT_BUFFER_SIZE) with 385%nat. lia.
Qed.

Lemma take_frame_of (content : list Z) :
  (length content <= 383)%nat ->
  take (Z.to_nat OUT_BUFFER_SIZE) (frame_of content) = frame_of content.
Proof.
  intros Hfit. apply take_ge. rewrite length_frame_of by done.
  change (Z.to_nat OUT_BUFFER_SIZE) with 385%nat. lia.
Qed.

Lemma write_data_law (endpoint : Z) (data_type data : list Z)
    (c : ccxt_device) :
  length (cmd_buffer c) = Z.to_nat OUT_BUFFER_SIZE ->
  length (buffer c) = Z.to_nat IN_BUFFER_SIZE ->
  length (data_buffer c) = Z.to_nat IN_BUFFER_SIZE ->
  (length data_type + length data <= 377)%nat ->
  let out := write_data endpoint data_type (ARRAY_SIZE data_type)
               data (ARRAY_SIZE data) c in
  transaction_law c out
  /\ (exchange_result (exchange_at c 0) = 0 ->
      exchange_result (exchange_at c 1) = 0 ->
      exists tail,
        output_log (hdev (snd out))
        = output_log (hdev c)
          ++ [frame_of (cmd_close_endpoint ++ [endpoint]);
              frame_of (cmd_open_endpoint ++ [endpoint]);
              frame_of (cmd_write
                        ++ [u8 (ARRAY_SIZE data_type + ARRAY_SIZE data);
                            0; 0; 0]
                        ++ data_type ++ data)]
          ++ tail).
Proof.
  intros Hcmd Hbuf Hdbuf Hfit out. subst out. unfold write_data.
  run_exchange Hbuf r1 c1 X1.
  rewrite prepare_endpoint_cmd_frame in X1 by (done || (cbn; lia)).
  cbn [snd with_cmd_buffer cmd_buffer] in X1.
  pose proof (ex_result _ _ _ _ X1) as R1.
  pose proof (ex_data_buffer _ _ _ _ X1) as D1.
  pose proof (ex_log _ _ _ _ X1) as L1.
  rewrite take_frame_of in L1 by (cbn; lia).
  assert (Hcmd1 : length (cmd_buffer c1) = Z.to_nat OUT_BUFFER_SIZE).
  { rewrite (ex_cmd_buffer _ _ _ _ X1). apply length_frame_of. cbn; lia. }
  destruct (Z.eqb_spec r1 0) as [Hr1 | Hr1]; cbn [negb];
    [|split; [close_law | intros; congruence]].
  run_exchange (ex_buffer_len _ _ _ _ X1) r2 c2 X2.
  rewrite prepare_endpoint_cmd_frame in X2 by (done || (cbn; lia)).
  cbn [snd with_cmd_buffer cmd_buffer] in X2.
  pose proof (ex_result _ _ _ _ X2) as R2.
  rewrite (exchange_at_tl c c1) in R2 by apply X1.
  pose proof (ex_data_buffer _ _ _ _ X2) as D2.
  pose proof (ex_log _ _ _ _ X2) as L2.
  rewrite take_frame_of in L2 by (cbn; lia).
  assert (Hcmd2 : length (cmd_buffer c2) = Z.to_nat OUT_BUFFER_SIZE).
  { rewrite (ex_cmd_buffer _ _ _ _ X2). apply length_frame_of. cbn; lia. }
  destruct (Z.eqb_spec r2 0) as [Hr2 | Hr2]; cbn [negb];
    [|split; [close_law | intros; congruence]].
  rewrite bind_run. cbv zeta.
  do 3 (rewrite bind_run; cbn [modify fst snd]).
  rewrite bind_run.
  pose proof (write_frame data_type data c2 Hcmd2 Hfit) as HF; cbv zeta in HF.
  lazymatch type of HF with
  | ?F3 = _ =>
      lazymatch goal with
      | |- context [send_usb ?st] => change st with (with_cmd_buffer F3 c2)
      end
  end.
  rewrite HF. clear HF.
  set (f3 := frame_of _).
  pose proof (send_usb_exchanged f3 c2 (ex_buffer_len _ _ _ _ X2)) as X3.
  cbv zeta in X3.
  destruct (send_usb (with_cmd_buffer f3 c2)) as [r3 c3].
  cbn [fst snd] in X3 |- *.
  pose proof (ex_result _ _ _ _ X3) as R3.
  rewrite (exchange_at_tl c1 c2), (exchange_at_tl c c1) in R3
    by (apply X1 || apply X2).
  pose proof (ex_data_buffer _ _ _ _ X3) as D3.
  pose proof (ex_log _ _ _ _ X3) as L3.
  unfold f3 in L3.
  rewrite take_frame_of in L3
    by (rewrite !length_app; cbn [length cmd_write]; lia).
  destruct (Z.eqb_spec r3 0) as [Hr3 | Hr3]; cbn [negb].
  2:{ split; [close_law|]. intros _ _. exists []. cbn [ret snd].
      rewrite L3, L2, L1, <- !app_assoc. by cbn. }
  destruct (ex_reply _ _ _ _ X3 Hr3) as [Hrep3 Hsize3].
  rewrite (exchange_at_tl c1 c2), (exchange_at_tl c c1) in Hrep3
    by (apply X1 || apply X2).
  rewrite bind_run; cbn [modify fst snd].
  set (c3' := with_data_buffer _ _).
  rewrite bind_run, prepare_endpoint_cmd_safe_only.
  lazymatch goal with
  | |- context [send_usb (with_cmd_buffer ?frame c3')] =>
      pose proof (send_usb_exchanged frame c3' (ex_buffer_len _ _ _ _ X3)) as X4;
      cbv zeta in X4;
      destruct (send_usb (with_cmd_buffer frame c3')) as [r4 c4]
  end.
  cbn [fst snd] in X4 |- *.
  pose proof (ex_result _ _ _ _ X4) as R4.
  change (exchange_at c3' 0) with (exchange_at c3 0) in R4.
  rewrite (exchange_at_tl c2 c3), (exchange_at_tl c1 c2), (exchange_at_tl c c1)
    in R4 by (apply X1 || apply X2 || apply X3).
  pose proof (ex_data_buffer _ _ _ _ X4) as D4.
  change (data_buffer c3')
    with (memcpy (data_buffer c3) 0 (buffer c3) IN_BUFFER_SIZE) in D4.
  rewrite memcpy_whole in D4
    by (rewrite ?D3, ?D2, ?D1; done || apply X3).
  split; [close_law|]. intros _ _.
  eexists. rewrite (ex_log _ _ _ _ X4).
  change (output_log (hdev c3')) with (output_log (hdev c3)).
  rewrite L3, L2, L1, <- !app_assoc. by cbn.
Qed.

(** ** Fan inventory *)

Lemma test_bit_set_bit (nr channel bitmap : Z) :
  0 <= nr ->
  test_bit channel (set_bit nr bitmap)
  = (nr =? channel) || test_bit channel bitmap.
Proof.
  intros Hnr. unfold test_bit, set_bit.
  rewrite Z.lor_spec, Z.shiftl_1_l, Z.pow2_bits_eqb by done.
  apply orb_comm.
Qed.

Lemma mark_fan_data_buffer (channel : Z) :
  preserves data_buffer (mark_fan channel).
Proof. unfold mark_fan. preserves_with ltac:(try reflexivity). Qed.

Lemma list_lookup_insert_fmap {A} (l : list A) (i : nat) (x : A) :
  <[i := x]> l !! i = (fun _ => x) <$> l !! i.
Proof.
  destruct (decide (i < length l)%nat) as [Hlt | Hge].
  - rewrite list_lookup_insert_eq by done.
    destruct (lookup_lt_is_Some_2 l i Hlt) as [y ->]. done.
  - rewrite list_insert_ge by lia.
    by rewrite (lookup_ge_None_2 l i) by lia.
Qed.

Lemma mark_fan_spec (a channel : Z) (c : ccxt_device) :
  0 <= a -> 0 <= channel ->
  let c' := snd (mark_fan a c) in
  (a = channel /\ buf_get (data_buffer c) (FAN_DATA_OFFSET + a) = FAN_STATE_OK ->
   marked channel c c')
  /\ (a <> channel
      \/ buf_get (data_buffer c) (FAN_DATA_OFFSET + a) <> FAN_STATE_OK ->
      untouched channel c c').
Proof.
  intros Ha Hch c'. subst c'.
  unfold mark_fan. rewrite bind_run; cbn [get fst snd].
  destruct (Z.eqb_spec (buf_get (data_buffer c) (FAN_DATA_OFFSET + a))
              FAN_STATE_OK) as [Hok | Hbad]; cbn [negb].
  - unfold bind, modify; cbn [fst snd].
    split.
    + intros [<- _]. unfold marked; cbn.
      rewrite test_bit_set_bit, Z.eqb_refl by done.
      by rewrite !list_lookup_insert_fmap.
    + intros [Hne | Hne]; [|done].
      unfold untouched; cbn.
      rewrite test_bit_set_bit by done.
      rewrite (proj2 (Z.eqb_neq _ _) Hne).
      by rewrite !list_lookup_insert_ne by lia.
  - split; [intros [_ Hok]; done | by intros _].
Qed.

Lemma mark_fans_spec (l : list Z) (channel : Z) (c : ccxt_device) :
  Forall (fun a => 0 <= a) l -> 0 <= channel ->
  let c' := snd (foldr (fun a k => mark_fan a ;;; k) (ret tt) l c) in
  data_buffer c' = data_buffer c
  /\ (channel ∈ l ->
      buf_get (data_buffer c) (FAN_DATA_OFFSET + channel) = FAN_STATE_OK ->
      marked channel c c')
  /\ (channel ∉ l
      \/ buf_get (data_buffer c) (FAN_DATA_OFFSET + channel) <> FAN_STATE_OK ->
      untouched channel c c').
Proof.
  intros Hl Hch. revert c.
  induction Hl as [|a l Ha Hl IH]; intros c; cbn [foldr].
  { cbn. split; [done|]. split; [by intros ?%elem_of_nil | by intros _]. }
  rewrite bind_run. set (c1 := snd (mark_fan a c)).
  destruct (IH c1) as (Hdata & Hmark & Hkeep).
  pose proof (mark_fan_data_buffer a c) as Hdata1. fold c1 in Hdata1.
  destruct (mark_fan_spec a channel c Ha Hch) as [Hmark1 Hkeep1].
  fold c1 in Hmark1, Hkeep1.
  rewrite Hdata1 in Hmark, Hkeep.
  split; [congruence|]. split.
  - intros Hin Hok.
    destruct (decide (channel ∈ l)) as [Hinl | Hnotin].
    + destruct (Hmark Hinl Hok) as (Hbit & Htarget & Hlabel).
      destruct (decide (a = channel)) as [-> | Hne].
      * destruct (Hmark1 (conj eq_refl Hok)) as (_ & Htarget1 & Hlabel1).
        split; [done|].
        rewrite Htarget, Htarget1, Hlabel, Hlabel1.
        by destruct (target c !! _), (fan_label c !! _).
      * destruct (Hkeep1 (or_introl Hne)) as (_ & Htarget1 & Hlabel1).
        split; [done|]. by rewrite Htarget, Htarget1, Hlabel, Hlabel1.
    + apply elem_of_cons in Hin as [-> | Hinl]; [|done].
      destruct (Hmark1 (conj eq_refl Hok)) as (Hbit1 & Htarget1 & Hlabel1).
      destruct (Hkeep (or_introl Hnotin)) as (Hbit & Htarget & Hlabel).
      split; [congruence|]. by rewrite Htarget, Htarget1, Hlabel, Hlabel1.
  - intros Hout.
    assert (Hout1 : a <> channel
                    \/ buf_get (data_buffer c) (FAN_DATA_OFFSET + a)
                       <> FAN_STATE_OK).
    { destruct Hout as [Hnotin | Hbad].
      - left. intros ->. apply Hnotin. by left.
      - destruct (decide (a = channel)) as [-> | Hne]; [by right | by left]. }
    assert (Hout2 : channel ∉ l
                    \/ buf_get (data_buffer c) (FAN_DATA_OFFSET + channel)
                       <> FAN_STATE_OK).
    { destruct Hout as [Hnotin | Hbad]; [left | by right].
      intros Hin. apply Hnotin. by right. }
    destruct (Hkeep1 Hout1) as (Hbit1 & Htarget1 & Hlabel1).
    destruct (Hkeep Hout2) as (Hbit & Htarget & Hlabel).
    split; [congruence|]. split; congruence.
Qed.

Lemma read_data_ok (endpoint : Z) (c : ccxt_device) :
  length (buffer c) = Z.to_nat IN_BUFFER_SIZE ->
  length (data_buffer c) = Z.to_nat IN_BUFFER_SIZE ->
  fst (read_data endpoint c) = 0 ->
  input_report (exchange_at c 2)
  = Some (data_buffer (snd (read_data endpoint c))).
Proof.
  intros Hbuf Hdbuf Hok.
  destruct (read_data_law endpoint c Hbuf Hdbuf) as (H0 & H1 & H2 & H3).
  destruct (decide (exchange_result (exchange_at c 0) = 0)) as [E0|E0];
    [|destruct (H0 E0); congruence].
  destruct (decide (exchange_result (exchange_at c 1) = 0)) as [E1|E1];
    [|destruct (H1 E0 E1); congruence].
  destruct (decide (exchange_result (exchange_at c 2) = 0)) as [E2|E2];
    [|destruct (H2 E0 E1 E2); congruence].
  by destruct (H3 E0 E1 E2).
Qed.

Lemma scnprintf_fan_label (channel : Z) :
  0 <= channel < NUM_FANS ->
  scnprintf_fan LABEL_LENGTH (channel + 1)
  = ("fan" +:+ pretty (channel + 1))%string.
Proof.
  unfold NUM_FANS. intros Hch.
  assert (Hcases : channel = 0 \/ channel = 1 \/ channel = 2 \/ channel = 3
                   \/ channel = 4 \/ channel = 5) by lia.
  by destruct Hcases as [-> | [-> | [-> | [-> | [-> | ->]]]]].
Qed.

Lemma get_fan_cnct_run (c : ccxt_device) :
  get_fan_cnct c
  = let rd := read_data endpoint_get_fans c in
    if fst rd =? 0
    then (0, snd (for_loop 0
                    (min (buf_get (data_buffer (snd rd)) FAN_CNT_INDEX)
                         NUM_FANS)
                    mark_fan (snd rd)))
    else rd.
Proof.
  unfold get_fan_cnct. rewrite bind_run. cbv zeta.
  destruct (read_data endpoint_get_fans c) as [r c1]; cbn [fst snd].
  destruct (r =? 0); cbn [negb]; [|done].
  by rewrite !bind_run.
Qed.

Lemma mark_fans_data_buffer (from to : Z) :
  preserves data_buffer (for_loop from to mark_fan).
Proof. apply preserves_for_loop, mark_fan_data_buffer. Qed.

(** C5.  [get_fan_cnct] sets the connectivity bit of a channel only if the
    transaction succeeded, the channel is below [min (count, 6)] and its
    state byte at offset [6 + channel] is exactly 0x07; at or beyond
    [min (count, 6)] the bit, the cached target and the label of a channel
    are left as they were; for a channel it marks, the target becomes
    -ENODATA and the label "fan" followed by the 1-based channel number.
    The payload decoded is the reply to the read exchange. *)
Theorem C5_fan_inventory (c : ccxt_device) (channel : Z) :
  length (buffer c) = Z.to_nat IN_BUFFER_SIZE ->
  length (data_buffer c) = Z.to_nat IN_BUFFER_SIZE ->
  length (target c) = Z.to_nat NUM_FANS ->
  length (fan_label c) = Z.to_nat NUM_FANS ->
  0 <= channel ->
  let out := get_fan_cnct c in
  let c' := snd out in
  let payload := data_buffer c' in
  let n := min (buf_get payload FAN_CNT_INDEX) NUM_FANS in
  let state := buf_get payload (FAN_DATA_OFFSET + channel) in
  (test_bit channel (fan_cnct c') = true ->
   test_bit channel (fan_cnct c) = true
   \/ (fst out = 0 /\ channel < n /\ state = 0x07))
  /\ (n <= channel ->
      test_bit channel (fan_cnct c') = test_bit channel (fan_cnct c)
      /\ target c' !! Z.to_nat channel = target c !! Z.to_nat channel
      /\ fan_label c' !! Z.to_nat channel = fan_label c !! Z.to_nat channel)
  /\ (fst out = 0 -> channel < n -> state = 0x07 ->
      test_bit channel (fan_cnct c') = true
      /\ target c' !! Z.to_nat channel = Some (- ENODATA)
      /\ fan_label c' !! Z.to_nat channel
         = Some ("fan" +:+ pretty (channel + 1))%string)
  /\ (fst out = 0 -> input_report (exchange_at c 2) = Some payload).
Proof.
  intros Hbuf Hdbuf Htarget Hlabel Hch out c' payload n state.
  subst state n payload c' out.
  rewrite get_fan_cnct_run. cbv zeta.
  pose proof (read_data_ok endpoint_get_fans c Hbuf Hdbuf) as Hpayload.
  pose proof (read_data_preserves target ltac:(done) ltac:(done) ltac:(done)
                ltac:(done) ltac:(done) ltac:(done)
                endpoint_get_fans c) as Ht.
  pose proof (read_data_preserves fan_cnct ltac:(done) ltac:(done) ltac:(done)
                ltac:(done) ltac:(done) ltac:(done)
                endpoint_get_fans c) as Hc.
  pose proof (read_data_preserves fan_label ltac:(done) ltac:(done)
                ltac:(done) ltac:(done) ltac:(done) ltac:(done)
                endpoint_get_fans c) as Hl.
  destruct (read_data endpoint_get_fans c) as [r c1]; cbn [fst snd] in *.
  destruct (Z.eqb_spec r 0) as [-> | Hr]; cbn [fst snd].
  2:{ rewrite Ht, Hc, Hl. split; [by left|]. repeat split; done. }
  set (n := min (buf_get (data_buffer c1) FAN_CNT_INDEX) NUM_FANS).
  assert (Hn : n <= NUM_FANS) by (subst n; unfold min; case_match; lia).
  pose proof (mark_fans_data_buffer 0 n c1) as Hdata.
  unfold for_loop in *.
  destruct (mark_fans_spec (seqZ 0 (n - 0)) channel c1) as (_ & Hmark & Hkeep);
    [apply Forall_forall; intros a ?%elem_of_seqZ; lia | done |].
  set (c' := snd (foldr (fun a k => mark_fan a ;;; k) (ret tt)
                    (seqZ 0 (n - 0)) c1)) in *.
  rewrite Hdata. fold n.
  rewrite elem_of_seqZ in Hmark, Hkeep.
  rewrite <- Ht, <- Hc, <- Hl.
  split; [|split; [|split]].
  - intros Hbit.
    destruct (decide (channel < n)) as [Hlt | Hge].
    + destruct (decide (buf_get (data_buffer c1) (FAN_DATA_OFFSET + channel)
                        = 0x07)) as [Hok | Hbad].
      * by right.
      * left. destruct (Hkeep (or_intror Hbad)) as [<- _]. done.
    + left. destruct Hkeep as [<- _]; [left; lia | done].
  - intros Hge. apply Hkeep. left. lia.
  - intros _ Hlt Hok.
    destruct Hmark as (Hbit & Htgt & Hlbl); [lia | done |].
    split; [done|].
    assert (Hin : (Z.to_nat channel < 6)%nat) by (unfold NUM_FANS in Hn; lia).
    rewrite Htgt, Hlbl, Ht, Hl.
    destruct (lookup_lt_is_Some_2 (target c) (Z.to_nat channel)) as [t ->];
      [rewrite Htarget; apply Hin|].
    destruct (lookup_lt_is_Some_2 (fan_label c) (Z.to_nat channel)) as [l ->];
      [rewrite Hlabel; apply Hin|].
    cbn. by rewrite scnprintf_fan_label by (unfold NUM_FANS in *; lia).
  - intros _. by apply Hpayload.
Qed.

Lemma C5_fan_inventory_witness :
  let c := sample_device [report_of [0]; report_of [0];
                          report_of [0; 0; 0; 0; 0; 3; 0x07; 0x00; 0x07];
                          report_of [0]] in
  let c' := snd (get_fan_cnct c) in
  length (buffer c) = Z.to_nat IN_BUFFER_SIZE
  /\ length (data_buffer c) = Z.to_nat IN_BUFFER_SIZE
  /\ length (target c) = Z.to_nat NUM_FANS
  /\ length (fan_label c) = Z.to_nat NUM_FANS
  /\ 0 <= 2
  /\ test_bit 2 (fan_cnct c') = true
  /\ target c' !! 2%nat = Some (- ENODATA)
  /\ fan_label c' !! 2%nat = Some "fan3"%string.
Proof.
  assert (Hch : 0 <= 2) by lia.
  pose proof (C5_fan_inventory
                (sample_device [report_of [0]; report_of [0];
                                report_of [0; 0; 0; 0; 0; 3; 0x07; 0x00; 0x07];
                                report_of [0]])
                2 eq_refl eq_refl eq_refl eq_refl Hch)
    as (_ & _ & Hmarked & _).
  cbv zeta in Hmarked. cbv zeta.
  do 4 (split; [reflexivity|]). split; [exact Hch|].
  apply Hmarked; by vm_compute.
Defined.

(** ** Fan PWM *)

Lemma get_fan_pwm_run (channel : Z) (c : ccxt_device) :
  get_fan_pwm channel c
  = let rd := read_data endpoint_fan_pwm c in
    let d := data_buffer (snd rd) in
    if fst rd =? 0
    then (if channel >=? min (buf_get d FAN_CNT_INDEX) NUM_FANS
          then (- EINVAL, None)
          else if buf_get d (FAN_DATA_OFFSET + channel * 4) =? channel
               then (0, Some (DIV_ROUND_CLOSEST
                                (buf_get d (FAN_DATA_OFFSET + channel * 4 + 2)
                                 * 255) 100))
               else (- EIO, None),
          snd rd)
    else ((fst rd, None), snd rd).
Proof.
  unfold get_fan_pwm. rewrite bind_run. cbv zeta.
  destruct (read_data endpoint_fan_pwm c) as [r c1]; cbn [fst snd].
  destruct (r =? 0); cbn [negb]; [|done].
  rewrite bind_run; cbn [get fst snd].
  destruct (channel >=? _); [done|].
  rewrite bind_run; cbn [get fst snd].
  destruct (_ =? channel); cbn [negb]; [|done].
  by rewrite bind_run.
Qed.

Lemma device_scale_ok_all : forallb device_scale_ok (seqZ 0 256) = true.
Proof. by vm_compute. Qed.

(** C6.  After a successful read transaction on the fan-pwm endpoint, for a
    channel below [min (count, 6)]: if the byte at offset [6 + channel * 4]
    of the data buffer is not the channel, [get_fan_pwm] returns -EIO and
    stores no value; otherwise it returns 0 and stores
    [DIV_ROUND_CLOSEST (pwm * 255, 100)] for the byte [pwm] at offset
    [6 + channel * 4 + 2], which is [pwm * 255 / 100] rounded to the nearest
    integer. *)
Theorem C6_fan_pwm_decode (c : ccxt_device) (channel : Z) :
  length (buffer c) = Z.to_nat IN_BUFFER_SIZE ->
  length (data_buffer c) = Z.to_nat IN_BUFFER_SIZE ->
  let rd := read_data endpoint_fan_pwm c in
  let d := data_buffer (snd rd) in
  let out := get_fan_pwm channel c in
  let id := buf_get d (FAN_DATA_OFFSET + channel * 4) in
  let pwm := buf_get d (FAN_DATA_OFFSET + channel * 4 + 2) in
  fst rd = 0 ->
  0 <= channel < min (buf_get d FAN_CNT_INDEX) NUM_FANS ->
  input_report (exchange_at c 2) = Some d
  /\ snd out = snd rd
  /\ (id <> channel -> fst out = (- EIO, None))
  /\ (id = channel ->
      fst out = (0, Some (DIV_ROUND_CLOSEST (pwm * 255) 100))
      /\ (0 <= pwm <= 255 ->
          2 * Z.abs (100 * DIV_ROUND_CLOSEST (pwm * 255) 100 - 255 * pwm)
          <= 100)).
Proof.
  intros Hbuf Hdbuf rd d out id pwm Hok Hch.
  subst out. rewrite get_fan_pwm_run. cbv zeta. fold rd. fold d.
  rewrite Hok. cbn [Z.eqb fst snd].
  replace (channel >=? min (buf_get d FAN_CNT_INDEX) NUM_FANS) with false
    by (symmetry; rewrite Z.geb_leb; apply Z.leb_gt; lia).
  fold id. fold pwm.
  split; [by apply read_data_ok|]. split; [done|]. split.
  - intros Hid. by rewrite (proj2 (Z.eqb_neq _ _) Hid).
  - intros Hid. rewrite (proj2 (Z.eqb_eq _ _) Hid). split; [done|].
    intros Hpwm.
    assert (Hin : In pwm (seqZ 0 256))
      by (apply list_elem_of_In, elem_of_seqZ; lia).
    pose proof (proj1 (forallb_forall _ _) device_scale_ok_all pwm Hin) as H.
    unfold device_scale_ok in H. cbv zeta in H.
    rewrite !andb_true_iff, !Z.leb_le in H. lia.
Qed.

Lemma C6_fan_pwm_decode_witness :
  let c := sample_device [report_of [0]; report_of [0];
                          report_of [0; 0; 0; 0; 0; 3;
                                     0; 0; 10; 0;  1; 0; 50; 0];
                          report_of [0]] in
  let rd := read_data endpoint_fan_pwm c in
  length (buffer c) = Z.to_nat IN_BUFFER_SIZE
  /\ length (data_buffer c) = Z.to_nat IN_BUFFER_SIZE
  /\ fst rd = 0
  /\ 0 <= 1 < min (buf_get (data_buffer (snd rd)) FAN_CNT_INDEX) NUM_FANS
  /\ fst (get_fan_pwm 1 c) = (0, Some 128).
Proof.
  set (c := sample_device [report_of [0]; report_of [0];
                           report_of [0; 0; 0; 0; 0; 3;
                                      0; 0; 10; 0;  1; 0; 50; 0];
                           report_of [0]]).
  assert (Hok : fst (read_data endpoint_fan_pwm c) = 0) by (by vm_compute).
  assert (Hch : 0 <= 1 < min (buf_get (data_buffer
                                          (snd (read_data endpoint_fan_pwm c)))
                                 FAN_CNT_INDEX) NUM_FANS)
    by (by vm_compute).
  pose proof (C6_fan_pwm_decode c 1 eq_refl eq_refl Hok Hch)
    as (_ & _ & _ & Hval).
  cbv zeta. do 2 (split; [reflexivity|]).
  split; [exact Hok|]. split; [exact Hch|].
  apply Hval. by vm_compute.
Defined.

(** ** The trailing close *)

(** C7, as the code has it.  In a read or a write transaction the first
    failing exchange among close, open and read/write is returned and the
    data buffer keeps its content; after three successes the data buffer
    holds the third reply, and the value returned is the result of the
    trailing close exchange, whatever it is. *)
Theorem C7_transaction_result (endpoint : Z) (data_type data : list Z)
    (c : ccxt_device) :
  length (cmd_buffer c) = Z.to_nat OUT_BUFFER_SIZE ->
  length (buffer c) = Z.to_nat IN_BUFFER_SIZE ->
  length (data_buffer c) = Z.to_nat IN_BUFFER_SIZE ->
  (length data_type + length data <= 377)%nat ->
  transaction_law c (read_data endpoint c)
  /\ transaction_law c
       (write_data endpoint data_type (ARRAY_SIZE data_type)
          data (ARRAY_SIZE data) c).
Proof.
  intros Hcmd Hbuf Hdbuf Hfit. split.
  - by apply read_data_law.
  - by apply write_data_law.
Qed.

Lemma C7_transaction_result_witness :
  let c := sample_device [report_of [0]; report_of [0];
                          report_of [0; 0; 0; 0; 0; 3; 0x07; 0x00; 0x07];
                          report_of [0x01]] in
  length (cmd_buffer c) = Z.to_nat OUT_BUFFER_SIZE
  /\ length (buffer c) = Z.to_nat IN_BUFFER_SIZE
  /\ length (data_buffer c) = Z.to_nat IN_BUFFER_SIZE
  /\ (length data_type_set_speed + length [1; 2; 0; 50; 0] <= 377)%nat
  /\ fst (read_data endpoint_get_fans c) = - EOPNOTSUPP.
Proof.
  set (c := sample_device [report_of [0]; report_of [0];
                           report_of [0; 0; 0; 0; 0; 3; 0x07; 0x00; 0x07];
                           report_of [0x01]]).
  assert (Hfit : (length data_type_set_speed + length [1; 2; 0; 50; 0]
                  <= 377)%nat) by (cbn; lia).
  pose proof (C7_transaction_result endpoint_get_fans data_type_set_speed
                [1; 2; 0; 50; 0] c eq_refl eq_refl eq_refl Hfit)
    as [(_ & _ & _ & Hclose) _].
  cbv zeta. do 3 (split; [reflexivity|]). split; [exact Hfit|].
  destruct Hclose as [Hret _]; [by vm_compute ..|]. exact Hret.
Defined.

(** C7 as stated fails: with close, open and read answered by status 0x00
    and no answer to the trailing close, [read_data] has copied the reply
    into the data buffer and returns -ETIMEDOUT, not 0; [write_data] does
    the same. *)
Lemma C7_trailing_close_is_returned :
  let c := sample_device [report_of [0]; report_of [0];
                          report_of [0; 0; 0; 0; 0; 3; 0x07; 0x00; 0x07];
                          {| output_ret := 385; input_report := None |}] in
  let rd := read_data endpoint_get_fans c in
  let wr := write_data endpoint_fan_pwm data_type_set_speed 2
              [1; 2; 0; 50; 0] 5 c in
  exchange_result (exchange_at c 0) = 0
  /\ exchange_result (exchange_at c 1) = 0
  /\ exchange_result (exchange_at c 2) = 0
  /\ take 9 (data_buffer (snd rd)) = [0; 0; 0; 0; 0; 3; 0x07; 0x00; 0x07]
  /\ fst rd = - ETIMEDOUT
  /\ fst rd <> 0
  /\ fst wr = - ETIMEDOUT
  /\ fst wr <> 0.
Proof. by vm_compute. Qed.

(** ** Setting the PWM *)

Lemma set_pwm_run (channel val : Z) (c : ccxt_device) :
  0 <= val <= 255 ->
  set_pwm channel val c
  = let scaled := DIV_ROUND_CLOSEST (val * 100) 255 in
    let wr := write_data endpoint_fan_pwm data_type_set_speed 2
                [1; u8 channel; 0; u8 scaled; 0x00] 5 c in
    (fst wr,
     if fst wr =? 0
     then with_target (<[Z.to_nat channel := - ENODATA]> (target (snd wr)))
            (snd wr)
     else snd wr).
Proof.
  intros Hval. unfold set_pwm.
  replace ((val <? 0) || (val >? 255)) with false
    by (symmetry; rewrite Z.gtb_ltb; apply orb_false_iff;
        split; apply Z.ltb_ge; lia).
  cbv zeta. rewrite bind_run.
  change (ARRAY_SIZE data_type_set_speed) with 2.
  change (ARRAY_SIZE [1; u8 channel; 0;
                      u8 (DIV_ROUND_CLOSEST (val * 100) 255); 0]) with 5.
  destruct (write_data _ _ _ _ _ c) as [r c1]; cbn [fst snd].
  rewrite bind_run. by destruct (r =? 0).
Qed.

(** C8.  Outside 0..255 [set_pwm] returns -EINVAL and leaves the device
    structure, the substrate included, as it was.  Inside, it scales the
    value to 0..100 with [DIV_ROUND_CLOSEST (val * 100, 255)], which rounds
    to the nearest integer, and runs the write transaction on the fan-pwm
    endpoint with the tag [{0x07, 0x00}] and the payload
    [{1, channel, 0, scaled, 0}]: once close and open have succeeded, the
    third frame sent carries the write command, the sub-header starting
    with 7, the tag and the payload.  It returns what the transaction
    returns, and sets the cached target of the channel to -ENODATA exactly
    when that is 0; a target read then answers -ENODATA. *)
Theorem C8_set_pwm (channel val : Z) (c : ccxt_device) :
  length (cmd_buffer c) = Z.to_nat OUT_BUFFER_SIZE ->
  length (buffer c) = Z.to_nat IN_BUFFER_SIZE ->
  length (data_buffer c) = Z.to_nat IN_BUFFER_SIZE ->
  length (target c) = Z.to_nat NUM_FANS ->
  0 <= channel < NUM_FANS ->
  let out := set_pwm channel val c in
  (val < 0 \/ 255 < val -> out = (- EINVAL, c))
  /\ (0 <= val <= 255 ->
      let scaled := DIV_ROUND_CLOSEST (val * 100) 255 in
      let payload := [1; channel; 0; scaled; 0x00] in
      let wr := write_data endpoint_fan_pwm data_type_set_speed 2
                  payload 5 c in
      0 <= scaled <= 100
      /\ 2 * Z.abs (255 * scaled - 100 * val) <= 255
      /\ fst out = fst wr
      /\ transaction_law c wr
      /\ (exchange_result (exchange_at c 0) = 0 ->
          exchange_result (exchange_at c 1) = 0 ->
          exists tail,
            output_log (hdev (snd out))
            = output_log (hdev c)
              ++ [frame_of (cmd_close_endpoint ++ [endpoint_fan_pwm]);
                  frame_of (cmd_open_endpoint ++ [endpoint_fan_pwm]);
                  frame_of (cmd_write ++ [7; 0; 0; 0]
                            ++ data_type_set_speed ++ payload)]
              ++ tail)
      /\ (fst wr = 0 ->
          target (snd out) = <[Z.to_nat channel := - ENODATA]> (target c)
          /\ ccxt_read hwmon_fan hwmon_fan_target channel (snd out)
             = ((- ENODATA, None), snd out))
      /\ (fst wr <> 0 -> snd out = snd wr /\ target (snd out) = target c)).
Proof.
  intros Hcmd Hbuf Hdbuf Htarget Hch out. subst out. split.
  { intros Hval. unfold set_pwm.
    replace ((val <? 0) || (val >? 255)) with true; [done|].
    symmetry. rewrite Z.gtb_ltb. apply orb_true_iff.
    destruct Hval; [left | right]; apply Z.ltb_lt; lia. }
  intros Hval scaled payload wr.
  assert (Hscaled : 0 <= scaled <= 100
                    /\ 2 * Z.abs (255 * scaled - 100 * val) <= 255).
  { pose proof (round_trip_ok_byte val Hval) as Hok.
    unfold round_trip_ok in Hok. fold scaled in Hok.
    rewrite !andb_true_iff, !Z.leb_le in Hok. lia. }
  destruct Hscaled as [Hscaled Hnear].
  rewrite set_pwm_run by done. cbv zeta. fold scaled.
  replace (u8 channel) with channel
    by (unfold u8, NUM_FANS in *; rewrite Z.mod_small; lia).
  replace (u8 scaled) with scaled by (unfold u8; rewrite Z.mod_small; lia).
  fold payload. fold wr. cbn [fst snd].
  assert (Hfit : (length data_type_set_speed + length payload <= 377)%nat)
    by (cbn; lia).
  destruct (write_data_law endpoint_fan_pwm data_type_set_speed payload c
              Hcmd Hbuf Hdbuf Hfit) as [Hlaw Hlog].
  change (write_data endpoint_fan_pwm data_type_set_speed
            (ARRAY_SIZE data_type_set_speed) payload (ARRAY_SIZE payload) c)
    with wr in Hlaw, Hlog.
  change (u8 (ARRAY_SIZE data_type_set_speed + ARRAY_SIZE payload))
    with 7 in Hlog.
  pose proof (write_data_preserves target ltac:(done) ltac:(done) ltac:(done)
                ltac:(done) ltac:(done)
                endpoint_fan_pwm data_type_set_speed 2 payload 5 c) as Ht.
  fold wr in Ht. clearbody wr.
  split; [done|]. split; [done|]. split; [done|]. split; [done|].
  split; [|split].
  - intros E0 E1. destruct (Hlog E0 E1) as [tail Htail].
    exists tail. rewrite <- Htail. by destruct (fst wr =? 0).
  - intros Hok. rewrite Hok. cbn [Z.eqb snd].
    unfold ccxt_read, bind, get, ret; cbn.
    rewrite Ht, buf_get_insert by (unfold NUM_FANS in *; lia).
    done.
  - intros Hfail. rewrite (proj2 (Z.eqb_neq _ _) Hfail). done.
Qed.

Lemma C8_set_pwm_witness :
  let c := sample_device [report_of [0]; report_of [0]; report_of [0];
                          report_of [0]] in
  length (cmd_buffer c) = Z.to_nat OUT_BUFFER_SIZE
  /\ length (buffer c) = Z.to_nat IN_BUFFER_SIZE
  /\ length (data_buffer c) = Z.to_nat IN_BUFFER_SIZE
  /\ length (target c) = Z.to_nat NUM_FANS
  /\ 0 <= 2 < NUM_FANS
  /\ 0 <= 128 <= 255
  /\ DIV_ROUND_CLOSEST (128 * 100) 255 = 50
  /\ fst (set_pwm 2 128 c) = 0
  /\ target (snd (set_pwm 2 128 c)) = [0; 0; - ENODATA; 0; 0; 0].
Proof.
  set (c := sample_device [report_of [0]; report_of [0]; report_of [0];
                           report_of [0]]).
  assert (Hch : 0 <= 2 < NUM_FANS) by (by vm_compute).
  assert (Hval : 0 <= 128 <= 255) by lia.
  pose proof (C8_set_pwm 2 128 c eq_refl eq_refl eq_refl eq_refl Hch)
    as [_ Hin].
  destruct (Hin Hval) as (_ & _ & Hret & _ & _ & Hok & _).
  cbv zeta. do 4 (split; [reflexivity|]).
  split; [exact Hch|]. split; [exact Hval|]. split; [reflexivity|].
  split.
  - rewrite Hret. by vm_compute.
  - destruct Hok as [Htarget _]; [by vm_compute|]. exact Htarget.
Defined.

(** ** The PWM round trip through [set_pwm] and [get_fan_pwm] *)

(** The frames [set_pwm] sends once close and open have succeeded; the
    device-scale value is byte 13 of the third. *)
Lemma set_pwm_frames (channel val : Z) (c : ccxt_device) :
  length (cmd_buffer c) = Z.to_nat OUT_BUFFER_SIZE ->
  length (buffer c) = Z.to_nat IN_BUFFER_SIZE ->
  length (data_buffer c) = Z.to_nat IN_BUFFER_SIZE ->
  0 <= channel < NUM_FANS ->
  0 <= val <= 255 ->
  exchange_result (exchange_at c 0) = 0 ->
  exchange_result (exchange_at c 1) = 0 ->
  let scaled := DIV_ROUND_CLOSEST (val * 100) 255 in
  exists tail,
    output_log (hdev (snd (set_pwm channel val c)))
    = output_log (hdev c)
      ++ [frame_of (cmd_close_endpoint ++ [endpoint_fan_pwm]);
          frame_of (cmd_open_endpoint ++ [endpoint_fan_pwm]);
          frame_of (cmd_write ++ [7; 0; 0; 0] ++ data_type_set_speed
                    ++ [1; channel; 0; scaled; 0x00])]
      ++ tail.
Proof.
  intros Hcmd Hbuf Hdbuf Hch Hval E0 E1 scaled.
  assert (Hscaled : 0 <= scaled <= 100).
  { pose proof (round_trip_ok_byte val Hval) as Hok.
    unfold round_trip_ok in Hok. fold scaled in Hok.
    rewrite !andb_true_iff, !Z.leb_le in Hok. lia. }
  rewrite set_pwm_run by done. cbv zeta. fold scaled.
  replace (u8 channel) with channel
    by (unfold u8, NUM_FANS in *; rewrite Z.mod_small; lia).
  replace (u8 scaled) with scaled by (unfold u8; rewrite Z.mod_small; lia).
  set (payload := [1; channel; 0; scaled; 0x00]).
  assert (Hfit : (length data_type_set_speed + length payload <= 377)%nat)
    by (cbn; lia).
  destruct (write_data_law endpoint_fan_pwm data_type_set_speed payload c
              Hcmd Hbuf Hdbuf Hfit) as [_ Hlog].
  cbv zeta in Hlog.
  change (u8 (ARRAY_SIZE data_type_set_speed + ARRAY_SIZE payload))
    with 7 in Hlog.
  change (ARRAY_SIZE data_type_set_speed) with 2 in Hlog.
  change (ARRAY_SIZE payload) with 5 in Hlog.
  destruct (Hlog E0 E1) as [tail Htail].
  exists tail. rewrite <- Htail. cbn [snd].
  by destruct (fst _ =? 0).
Qed.

(** C4.  The round trip through the code.  For [v] in 0..255, once close
    and open have succeeded [set_pwm] sends a write frame whose speed byte
    [d] (byte 13 of the frame: header, write command, sub-header, tag, then
    count, id and mode come before it) is [DIV_ROUND_CLOSEST (v * 100,
    255)], which is [v * 100 / 255] rounded to the nearest integer and lies
    in 0..100.  When a later read of the fan-pwm endpoint succeeds and
    reports this [d] for the channel, [get_fan_pwm] returns 0 with the
    value [DIV_ROUND_CLOSEST (d * 255, 100)], which is [d * 255 / 100]
    rounded to the nearest integer and is within 1 of [v].  The boundary
    values 0, 1, 127, 128, 254 and 255 come back as 0, 0, 128, 128, 255
    and 255. *)
Theorem C4_pwm_round_trip (c c' : ccxt_device) (channel v : Z) :
  length (cmd_buffer c) = Z.to_nat OUT_BUFFER_SIZE ->
  length (buffer c) = Z.to_nat IN_BUFFER_SIZE ->
  length (data_buffer c) = Z.to_nat IN_BUFFER_SIZE ->
  0 <= channel < NUM_FANS ->
  0 <= v <= 255 ->
  exchange_result (exchange_at c 0) = 0 ->
  exchange_result (exchange_at c 1) = 0 ->
  let sent := drop (length (output_log (hdev c)))
                (output_log (hdev (snd (set_pwm channel v c)))) in
  let d := buf_get (nth 2 sent []) 13 in
  let rd := read_data endpoint_fan_pwm c' in
  let data := data_buffer (snd rd) in
  d = DIV_ROUND_CLOSEST (v * 100) 255
  /\ 0 <= d <= 100
  /\ 2 * Z.abs (255 * d - 100 * v) <= 255
  /\ (fst rd = 0 ->
      channel < min (buf_get data FAN_CNT_INDEX) NUM_FANS ->
      buf_get data (FAN_DATA_OFFSET + channel * 4) = channel ->
      buf_get data (FAN_DATA_OFFSET + channel * 4 + 2) = d ->
      exists back,
        fst (get_fan_pwm channel c') = (0, Some back)
        /\ back = DIV_ROUND_CLOSEST (d * 255) 100
        /\ 2 * Z.abs (100 * back - 255 * d) <= 100
        /\ v - 1 <= back <= v + 1)
  /\ map round_trip [0; 1; 127; 128; 254; 255] = [0; 0; 128; 128; 255; 255].
Proof.
  intros Hcmd Hbuf Hdbuf Hch Hv E0 E1 sent d rd data.
  destruct (set_pwm_frames channel v c Hcmd Hbuf Hdbuf Hch Hv E0 E1)
    as [tail Hsent].
  assert (Hd : d = DIV_ROUND_CLOSEST (v * 100) 255).
  { subst d sent. rewrite Hsent, drop_app_length. done. }
  pose proof (round_trip_ok_byte v Hv) as Hok.
  unfold round_trip_ok, round_trip in Hok. rewrite <- Hd in Hok.
  rewrite !andb_true_iff, !Z.leb_le in Hok.
  destruct Hok as ((((Hd0 & Hd100) & Hnear) & Hback) & Hwithin).
  split; [done|]. split; [done|]. split; [done|]. split; [|done].
  intros Hrd Hcount Hid Hpwm.
  exists (DIV_ROUND_CLOSEST (d * 255) 100).
  split; [|split; [done | split; [done | lia]]].
  rewrite get_fan_pwm_run. cbv zeta. fold rd. fold data.
  rewrite Hrd. cbn [Z.eqb fst snd].
  replace (channel >=? min (buf_get data FAN_CNT_INDEX) NUM_FANS) with false
    by (symmetry; rewrite Z.geb_leb; apply Z.leb_gt; lia).
  by rewrite Hid, Z.eqb_refl, Hpwm.
Qed.

Lemma C4_pwm_round_trip_witness :
  let c := sample_device [report_of [0]; report_of [0]; report_of [0];
                          report_of [0]] in
  let c' := sample_device [report_of [0]; report_of [0];
                           report_of [0; 0; 0; 0; 0; 3;
                                      0; 0; 10; 0;  1; 0; 50; 0];
                           report_of [0]] in
  0 <= 1 < NUM_FANS
  /\ 0 <= 127 <= 255
  /\ buf_get (nth 2 (output_log (hdev (snd (set_pwm 1 127 c)))) []) 13 = 50
  /\ fst (read_data endpoint_fan_pwm c') = 0
  /\ fst (get_fan_pwm 1 c') = (0, Some 128).
Proof.
  set (c := sample_device [report_of [0]; report_of [0]; report_of [0];
                           report_of [0]]).
  set (c' := sample_device [report_of [0]; report_of [0];
                            report_of [0; 0; 0; 0; 0; 3;
                                       0; 0; 10; 0;  1; 0; 50; 0];
                            report_of [0]]).
  assert (Hch : 0 <= 1 < NUM_FANS) by (by vm_compute).
  assert (Hv : 0 <= 127 <= 255) by lia.
  assert (Hrd : fst (read_data endpoint_fan_pwm c') = 0)
    by (vm_compute; reflexivity).
  destruct (C4_pwm_round_trip c c' 1 127 eq_refl eq_refl eq_refl Hch Hv
              eq_refl eq_refl) as (Hd & _ & _ & Hback & _).
  cbv zeta in Hd, Hback.
  destruct Hback as (back & Hres & Hval & _);
    [exact Hrd | vm_compute; reflexivity | vm_compute; reflexivity
    | vm_compute; reflexivity |].
  split; [exact Hch|]. split; [exact Hv|].
  split; [vm_compute; reflexivity|]. split; [exact Hrd|].
  rewrite Hres, Hval. vm_compute. reflexivity.
Defined.

Lemma C10_temperature_hidden_witness :
  let c := run_call (call_write hwmon_fan hwmon_fan_target 1 1200)
             (run_call call_probe
                (sample_device
                   [report_of [0]; report_of [0]; report_of [0];
                    report_of [0; 0; 0; 0; 0; 3; 0x07; 0x00; 0x07];
                    report_of [0]])) in
  reachable c
  /\ ccxt_is_visible c hwmon_temp hwmon_temp_input 0 = 0
  /\ ccxt_is_visible c hwmon_fan hwmon_fan_input 0 = S_0444.
Proof.
  set (c0 := sample_device _).
  assert (Hreach : reachable
                     (run_call (call_write hwmon_fan hwmon_fan_target 1 1200)
                        (run_call call_probe c0))).
  { apply reachable_call; [apply reachable_call|].
    - by apply reachable_fresh.
    - exact I.
    - by vm_compute. }
  pose proof (C10_temperature_hidden _ Hreach) as (_ & Hhidden & _).
  cbv zeta. split; [exact Hreach|]. split; [apply Hhidden | by vm_compute].
Defined.

(** * Further properties of the driver *)

(** ** The exchange: timeouts, send errors and the capture of reports *)

Lemma exchange_at_0 (c : ccxt_device) :
  exchange_at c 0 = hd silent (script (hdev c)).
Proof. unfold exchange_at. by destruct (script (hdev c)). Qed.

(** X1.  When the frame is accepted and no report arrives within the wait,
    [send_usb] returns -ETIMEDOUT; the reply buffer and its recorded length
    are what they were, one exchange of the script is consumed and the
    frame is in the log. *)
Theorem X1_send_usb_timeout (c : ccxt_device) :
  0 <= output_ret (exchange_at c 0) ->
  input_report (exchange_at c 0) = None ->
  let out := send_usb c in
  fst out = - ETIMEDOUT
  /\ buffer (snd out) = buffer c
  /\ buffer_recv_size (snd out) = buffer_recv_size c
  /\ script (hdev (snd out)) = tl (script (hdev c))
  /\ output_log (hdev (snd out))
     = output_log (hdev c) ++ [take (Z.to_nat OUT_BUFFER_SIZE) (cmd_buffer c)].
Proof.
  rewrite exchange_at_0. intros Hret Hrep out. subst out.
  unfold send_usb, bind, modify, hid_hw_output_report; cbn.
  rewrite (proj2 (Z.ltb_ge _ _) Hret).
  unfold wait_for_completion_timeout, bind, get, modify; cbn.
  by rewrite Hrep.
Qed.

Lemma X1_send_usb_timeout_witness :
  let c := sample_device [] in
  0 <= output_ret (exchange_at c 0)
  /\ input_report (exchange_at c 0) = None
  /\ fst (send_usb c) = - ETIMEDOUT
  /\ buffer (snd (send_usb c)) = replicate 384 0xBB.
Proof.
  assert (Hret : 0 <= output_ret (exchange_at (sample_device []) 0))
    by (by vm_compute).
  pose proof (X1_send_usb_timeout (sample_device []) Hret eq_refl)
    as (Hres & Hbuf & _).
  cbv zeta. split; [exact Hret|]. split; [reflexivity|].
  split; [exact Hres | exact Hbuf].
Defined.

(** X2.  When [hid_hw_output_report] fails, [send_usb] returns its negative
    value at once: it does not wait, so a report that would have arrived is
    not captured, and the reply buffer and its recorded length are what
    they were. *)
Theorem X2_send_usb_output_error (c : ccxt_device) :
  output_ret (exchange_at c 0) < 0 ->
  let out := send_usb c in
  fst out = output_ret (exchange_at c 0)
  /\ buffer (snd out) = buffer c
  /\ buffer_recv_size (snd out) = buffer_recv_size c
  /\ wait_input_report (snd out) = false
  /\ script (hdev (snd out)) = tl (script (hdev c)).
Proof.
  rewrite exchange_at_0. intros Hret out. subst out.
  unfold send_usb, bind, modify, hid_hw_output_report; cbn.
  by rewrite (proj2 (Z.ltb_lt _ _) Hret).
Qed.

Lemma X2_send_usb_output_error_witness :
  let e := {| output_ret := -32; input_report := Some (replicate 384 0) |} in
  let c := sample_device [e] in
  output_ret (exchange_at c 0) < 0
  /\ fst (send_usb c) = -32
  /\ buffer (snd (send_usb c)) = replicate 384 0xBB.
Proof.
  set (c := sample_device [{| output_ret := -32;
                              input_report := Some (replicate 384 0) |}]).
  assert (Hret : output_ret (exchange_at c 0) < 0) by (by vm_compute).
  pose proof (X2_send_usb_output_error c Hret) as (Hres & Hbuf & _).
  cbv zeta. split; [exact Hret|]. split; [exact Hres | exact Hbuf].
Defined.

(** X3.  While a sender waits (the completion is not done), a report of
    [size] bytes is captured: its first [min (384, size)] bytes overwrite
    the start of the reply buffer, the bytes of the buffer after them stay,
    the recorded length is [size] (also beyond 384) and the completion is
    done.  The buffer keeps its length. *)
Theorem X3_raw_event_captures (data : list Z) (c : ccxt_device) :
  wait_input_report c = false ->
  length (buffer c) = Z.to_nat IN_BUFFER_SIZE ->
  let size := Z.of_nat (length data) in
  let n := Z.to_nat (min IN_BUFFER_SIZE size) in
  let out := ccxt_raw_event data size c in
  fst out = 0
  /\ buffer (snd out) = take n data ++ drop n (buffer c)
  /\ length (buffer (snd out)) = Z.to_nat IN_BUFFER_SIZE
  /\ buffer_recv_size (snd out) = size
  /\ wait_input_report (snd out) = true.
Proof.
  intros Hwait Hbuf size n out. subst out.
  unfold ccxt_raw_event, bind, get, modify, ret; cbn.
  rewrite Hwait; cbn.
  assert (Hn : (n <= 384)%nat).
  { subst n size. unfold min, IN_BUFFER_SIZE. case_match; lia. }
  assert (Hmemcpy : memcpy (buffer c) 0 data (min IN_BUFFER_SIZE size)
                    = take n data ++ drop n (buffer c)).
  { unfold memcpy. fold n. change (Z.to_nat 0) with (length (@nil Z)).
    rewrite <- (app_nil_l (buffer c)) at 1.
    rewrite list_inserts_prefix.
    - cbn [app]. do 2 f_equal. rewrite length_take.
      subst n size. unfold min, IN_BUFFER_SIZE. case_match; lia.
    - rewrite length_take, Hbuf. change (Z.to_nat IN_BUFFER_SIZE) with 384%nat.
      lia. }
  rewrite Hmemcpy. repeat split.
  rewrite length_app, length_take, length_drop, Hbuf.
  change (Z.to_nat IN_BUFFER_SIZE) with 384%nat.
  subst n size. unfold min, IN_BUFFER_SIZE in *. case_match; lia.
Qed.

Lemma X3_raw_event_captures_witness :
  let c := sample_device [] in
  wait_input_report c = false
  /\ length (buffer c) = Z.to_nat IN_BUFFER_SIZE
  /\ buffer (snd (ccxt_raw_event [1; 2; 3] 3 c))
     = [1; 2; 3] ++ replicate 381 0xBB
  /\ buffer_recv_size (snd (ccxt_raw_event [1; 2; 3] 3 c)) = 3.
Proof.
  pose proof (X3_raw_event_captures [1; 2; 3] (sample_device [])
                eq_refl eq_refl) as (_ & Hbuf & _ & Hsize & _).
  cbv zeta. do 2 (split; [reflexivity|]).
  split; [exact Hbuf | exact Hsize].
Defined.

(** X4.  A report that arrives when no sender waits is dropped: the device
    structure is unchanged.  A captured report ends the wait, so of two
    reports in a row the second is always dropped. *)
Theorem X4_raw_event_drops (data1 data2 : list Z) (size1 size2 : Z)
    (c : ccxt_device) :
  (wait_input_report c = true -> ccxt_raw_event data1 size1 c = (0, c))
  /\ ccxt_raw_event data2 size2 (snd (ccxt_raw_event data1 size1 c))
     = (0, snd (ccxt_raw_event data1 size1 c)).
Proof.
  split.
  - intros Hdone. unfold ccxt_raw_event, bind, get, modify, ret; cbn.
    by rewrite Hdone.
  - unfold ccxt_raw_event, bind, get, modify, ret; cbn.
    destruct (wait_input_report c) eqn:Hdone; cbn; by rewrite ?Hdone.
Qed.

(** ** Results are errno values *)

Lemma returns_ret {A} (P : A -> Prop) (a : A) : P a -> returns P (ret a).
Proof. by intros Ha c. Qed.

Lemma returns_bind {A C} (Q : A -> Prop) (P : C -> Prop) (m : M A)
    (k : A -> M C) :
  returns Q m -> (forall a, Q a -> returns P (k a)) -> returns P (bind m k).
Proof.
  intros Hm Hk c. rewrite bind_run. apply Hk, Hm.
Qed.

Lemma returns_any {A} (m : M A) : returns (fun _ => True) m.
Proof. by intros c. Qed.

Lemma returns_seq {A C} (P : C -> Prop) (m : M A) (k : A -> M C) :
  (forall a, returns P (k a)) -> returns P (bind m k).
Proof. intros Hk. apply (returns_bind (fun _ => True)); auto using returns_any. Qed.

Lemma ccxt_get_errno_nonpos : returns (fun r => r <= 0) ccxt_get_errno.
Proof.
  intros c. unfold ccxt_get_errno, bind, get, ret; cbn.
  repeat case_match; by vm_compute.
Qed.

Lemma send_usb_nonpos : returns (fun r => r <= 0) send_usb.
Proof.
  unfold send_usb.
  apply returns_seq; intros _. apply returns_seq; intros r.
  destruct (Z.ltb_spec r 0); [apply returns_ret; lia|].
  apply returns_seq; intros t.
  destruct t; cbn [negb]; [|by apply returns_ret].
  apply returns_seq; intros n.
  destruct (negb _); [by apply returns_ret | apply ccxt_get_errno_nonpos].
Qed.

(** After [send_usb]: leave with the result if it is not 0, go on if it is. *)
Ltac after_send_usb r :=
  apply (returns_bind (fun r => r <= 0)); [apply send_usb_nonpos|];
  intros r ?; destruct (Z.eqb_spec r 0); cbn [negb];
  [|apply returns_ret; lia].

Lemma read_data_nonpos (endpoint : Z) :
  returns (fun r => r <= 0) (read_data endpoint).
Proof.
  unfold read_data.
  apply returns_seq; intros _. after_send_usb r1.
  apply returns_seq; intros _. after_send_usb r2.
  apply returns_seq; intros _. after_send_usb r3.
  do 3 (apply returns_seq; intros _). apply send_usb_nonpos.
Qed.

Lemma write_data_nonpos (endpoint : Z) (data_type : list Z)
    (data_type_size : Z) (data : list Z) (data_size : Z) :
  returns (fun r => r <= 0)
    (write_data endpoint data_type data_type_size data data_size).
Proof.
  unfold write_data.
  apply returns_seq; intros _. after_send_usb r1.
  apply returns_seq; intros _. after_send_usb r2.
  apply returns_seq; intros r. cbv zeta.
  do 3 (apply returns_seq; intros _). after_send_usb r3.
  do 2 (apply returns_seq; intros _). apply send_usb_nonpos.
Qed.

(** X5.  The transport and the transactions return 0 or a negative errno,
    never a positive value: a positive return of [hid_hw_output_report]
    (the byte count) is not passed on. *)
Theorem X5_results_nonpositive (endpoint : Z) (data_type data : list Z)
    (data_type_size data_size : Z) (c : ccxt_device) :
  fst (send_usb c) <= 0
  /\ fst (read_data endpoint c) <= 0
  /\ fst (write_data endpoint data_type data_type_size data data_size c) <= 0
  /\ fst (set_software_mode c) <= 0
  /\ fst (set_hardware_mode c) <= 0.
Proof.
  split; [apply send_usb_nonpos|].
  split; [apply read_data_nonpos|].
  split; [apply write_data_nonpos|].
  split.
  - revert c. change (returns (fun r => r <= 0) set_software_mode).
    unfold set_software_mode. apply returns_seq; intros _.
    apply send_usb_nonpos.
  - revert c. change (returns (fun r => r <= 0) set_hardware_mode).
    unfold set_hardware_mode. apply returns_seq; intros _.
    apply send_usb_nonpos.
Qed.

Lemma get_fan_rpm_value (channel : Z) :
  returns value_iff_zero (get_fan_rpm channel).
Proof.
  unfold get_fan_rpm.
  apply (returns_bind (fun r => r <= 0)); [apply read_data_nonpos|].
  intros r Hr. destruct (Z.eqb_spec r 0); cbn [negb].
  2:{ apply returns_ret. split; [done|]. cbn. split; [done|].
      by intros [? [=]]. }
  apply returns_seq; intros n.
  destruct (channel >=? _).
  { apply returns_ret. split; [by vm_compute|]. cbn.
    split; [by vm_compute | by intros [? [=]]]. }
  cbv zeta. do 2 (apply returns_seq; intros ?).
  apply returns_ret. split; [done|]. cbn. by split.
Qed.

Lemma get_fan_pwm_value (channel : Z) :
  returns value_iff_zero (get_fan_pwm channel).
Proof.
  unfold get_fan_pwm.
  apply (returns_bind (fun r => r <= 0)); [apply read_data_nonpos|].
  intros r Hr. destruct (Z.eqb_spec r 0); cbn [negb].
  2:{ apply returns_ret. split; [done|]. cbn. split; [done|].
      by intros [? [=]]. }
  apply returns_seq; intros n.
  destruct (channel >=? _).
  { apply returns_ret. split; [by vm_compute|]. cbn.
    split; [by vm_compute | by intros [? [=]]]. }
  cbv zeta. apply returns_seq; intros id.
  destruct (negb _).
  { apply returns_ret. split; [by vm_compute|]. cbn.
    split; [by vm_compute | by intros [? [=]]]. }
  apply returns_seq; intros pwm.
  apply returns_ret. split; [done|]. cbn. by split.
Qed.

(** X6.  [ccxt_read] returns 0 exactly when it stores a value, and a
    negative errno otherwise, for every sensor type, attribute and channel
    and in every state. *)
Theorem X6_read_value_iff_zero (type : hwmon_sensor_types) (attr channel : Z)
    (c : ccxt_device) :
  let rv := fst (ccxt_read type attr channel c) in
  fst rv <= 0 /\ (fst rv = 0 <-> is_Some (snd rv)).
Proof.
  cbv zeta. revert c.
  change (returns value_iff_zero (ccxt_read type attr channel)).
  assert (Hnone : forall e : Z, e < 0 ->
            returns value_iff_zero (ret (e, @None Z))).
  { intros e He. apply returns_ret. split; [cbn; lia|]. cbn.
    split; [lia | by intros [? [=]]]. }
  assert (Hsome : forall v : Z,
            returns value_iff_zero (ret (0, Some v))).
  { intros v. apply returns_ret. split; [done|]. cbn. by split. }
  assert (Hpass : forall rv : Z * option Z, value_iff_zero rv ->
            returns value_iff_zero
              (if fst rv <? 0 then ret (fst rv, snd rv) else ret (0, snd rv))).
  { intros [r v] [Hr Hv]; cbn in *.
    destruct (Z.ltb_spec r 0); apply returns_ret.
    - by split.
    - assert (r = 0) as -> by lia. by split. }
  unfold ccxt_read.
  destruct type; try (apply Hnone; by vm_compute).
  - destruct (attr =? hwmon_temp_input); [|apply Hnone; by vm_compute].
    cbv zeta. cbn [Z.ltb Z.compare]. apply Hsome.
  - destruct (attr =? hwmon_in_input); [|apply Hnone; by vm_compute].
    cbv zeta. cbn [Z.ltb Z.compare]. apply Hsome.
  - destruct (attr =? hwmon_fan_input).
    { apply (returns_bind value_iff_zero); [apply get_fan_rpm_value|].
      intros rv Hrv. by apply Hpass. }
    destruct (attr =? hwmon_fan_target); [|apply Hnone; by vm_compute].
    apply returns_seq; intros t.
    destruct (Z.ltb_spec t 0); [apply Hnone; by vm_compute | apply Hsome].
  - destruct (attr =? hwmon_pwm_input); [|apply Hnone; by vm_compute].
    apply (returns_bind value_iff_zero); [apply get_fan_pwm_value|].
    intros rv Hrv. by apply Hpass.
Qed.

(** ** The frames of a transaction *)

Lemma tl_drop {A} (l : list A) (k : nat) : tl (drop k l) = drop (S k) l.
Proof.
  revert l. induction k as [|k IH]; intros [|x l]; cbn; try done.
  all: first [by rewrite drop_0 | apply IH | idtac].
Qed.

(** X7.  [read_data] sends, in this order, the frames close, open, read and
    close for the endpoint, and stops sending after the first of the first
    three that fails: it consumes as many exchanges as it sends frames.
    The recorded length of the data buffer becomes 384 when the first three
    succeed and is unchanged otherwise. *)
Theorem X7_read_data_frames (endpoint : Z) (c : ccxt_device) :
  length (cmd_buffer c) = Z.to_nat OUT_BUFFER_SIZE ->
  length (buffer c) = Z.to_nat IN_BUFFER_SIZE ->
  let c' := snd (read_data endpoint c) in
  output_log (hdev c')
  = output_log (hdev c)
    ++ take (steps_run c)
         [frame_of (cmd_close_endpoint ++ [endpoint]);
          frame_of (cmd_open_endpoint ++ [endpoint]);
          frame_of (cmd_read ++ [endpoint]);
          frame_of (cmd_close_endpoint ++ [endpoint])]
  /\ script (hdev c') = drop (steps_run c) (script (hdev c))
  /\ data_buffer_recv_size c'
     = (if decide (steps_run c = 4%nat) then IN_BUFFER_SIZE
        else data_buffer_recv_size c).
Proof.
  intros Hcmd Hbuf c'. subst c'. unfold read_data, steps_run.
  run_exchange Hbuf r1 c1 X1.
  rewrite prepare_endpoint_cmd_frame in X1 by (done || (cbn; lia)).
  cbn [snd with_cmd_buffer cmd_buffer] in X1.
  pose proof (ex_result _ _ _ _ X1) as R1.
  pose proof (ex_log _ _ _ _ X1) as L1.
  rewrite take_frame_of in L1 by (cbn; lia).
  pose proof (ex_script _ _ _ _ X1) as S1.
  pose proof (ex_data_size _ _ _ _ X1) as Z1.
  assert (Hcmd1 : length (cmd_buffer c1) = Z.to_nat OUT_BUFFER_SIZE).
  { rewrite (ex_cmd_buffer _ _ _ _ X1). apply length_frame_of. cbn; lia. }
  rewrite <- R1.
  destruct (Z.eqb_spec r1 0) as [Hr1 | Hr1]; cbn [negb].
  2:{ cbn [ret snd]. rewrite L1, S1. by destruct (script (hdev c)). }
  run_exchange (ex_buffer_len _ _ _ _ X1) r2 c2 X2.
  rewrite prepare_endpoint_cmd_frame in X2 by (done || (cbn; lia)).
  cbn [snd with_cmd_buffer cmd_buffer] in X2.
  pose proof (ex_result _ _ _ _ X2) as R2.
  rewrite (exchange_at_tl c c1) in R2 by done.
  pose proof (ex_log _ _ _ _ X2) as L2.
  rewrite take_frame_of in L2 by (cbn; lia).
  pose proof (ex_script _ _ _ _ X2) as S2.
  pose proof (ex_data_size _ _ _ _ X2) as Z2.
  assert (Hcmd2 : length (cmd_buffer c2) = Z.to_nat OUT_BUFFER_SIZE).
  { rewrite (ex_cmd_buffer _ _ _ _ X2). apply length_frame_of. cbn; lia. }
  rewrite <- R2.
  destruct (Z.eqb_spec r2 0) as [Hr2 | Hr2]; cbn [negb].
  2:{ cbn [ret snd]. rewrite L2, L1, S2, S1, Z2, Z1, <- app_assoc.
      rewrite <- (drop_0 (script (hdev c))) at 1. by rewrite !tl_drop. }
  run_exchange (ex_buffer_len _ _ _ _ X2) r3 c3 X3.
  rewrite prepare_endpoint_cmd_frame in X3 by (done || (cbn; lia)).
  cbn [snd with_cmd_buffer cmd_buffer] in X3.
  pose proof (ex_result _ _ _ _ X3) as R3.
  rewrite (exchange_at_tl c1 c2), (exchange_at_tl c c1) in R3 by done.
  pose proof (ex_log _ _ _ _ X3) as L3.
  rewrite take_frame_of in L3 by (cbn; lia).
  pose proof (ex_script _ _ _ _ X3) as S3.
  pose proof (ex_data_size _ _ _ _ X3) as Z3.
  assert (Hcmd3 : length (cmd_buffer c3) = Z.to_nat OUT_BUFFER_SIZE).
  { rewrite (ex_cmd_buffer _ _ _ _ X3). apply length_frame_of. cbn; lia. }
  rewrite <- R3.
  destruct (Z.eqb_spec r3 0) as [Hr3 | Hr3]; cbn [negb].
  2:{ cbn [ret snd]. rewrite L3, L2, L1, S3, S2, S1, Z3, Z2, Z1, <- !app_assoc.
      rewrite <- (drop_0 (script (hdev c))) at 1. by rewrite !tl_drop. }
  destruct (ex_reply _ _ _ _ X3 Hr3) as [_ Hsize3].
  do 2 rewrite bind_run; cbn [modify fst snd].
  set (c3' := with_data_buffer_recv_size _ _).
  rewrite bind_run, prepare_endpoint_cmd_frame by (done || (cbn; lia)).
  cbn [snd].
  lazymatch goal with
  | |- context [send_usb (with_cmd_buffer ?frame c3')] =>
      pose proof (send_usb_exchanged frame c3' (ex_buffer_len _ _ _ _ X3)) as X4;
      cbv zeta in X4;
      destruct (send_usb (with_cmd_buffer frame c3')) as [r4 c4]
  end.
  cbn [fst snd] in X4 |- *.
  rewrite (ex_log _ _ _ _ X4), (ex_script _ _ _ _ X4), (ex_data_size _ _ _ _ X4).
  rewrite take_frame_of by (cbn; lia).
  change (output_log (hdev c3')) with (output_log (hdev c3)).
  change (script (hdev c3')) with (script (hdev c3)).
  change (data_buffer_recv_size c3') with (buffer_recv_size c3).
  rewrite L3, L2, L1, S3, S2, S1, Hsize3, <- !app_assoc.
  rewrite <- (drop_0 (script (hdev c))) at 1. by rewrite !tl_drop.
Qed.

Lemma X7_read_data_frames_witness :
  let c := sample_device [report_of [0]; report_of [0x01]; report_of [0]] in
  let c' := snd (read_data endpoint_fan_state c) in
  length (cmd_buffer c) = Z.to_nat OUT_BUFFER_SIZE
  /\ length (buffer c) = Z.to_nat IN_BUFFER_SIZE
  /\ output_log (hdev c')
     = [frame_of (cmd_close_endpoint ++ [endpoint_fan_state]);
        frame_of (cmd_open_endpoint ++ [endpoint_fan_state])]
  /\ script (hdev c') = [report_of [0]].
Proof.
  pose proof (X7_read_data_frames endpoint_fan_state
                (sample_device [report_of [0]; report_of [0x01];
                                report_of [0]])
                eq_refl eq_refl) as (Hlog & Hscript & _).
  cbv zeta. do 2 (split; [reflexivity|]).
  split; [exact Hlog | exact Hscript].
Defined.

(** X8.  [write_data], for any tag and payload that fit the frame, sends
    close, open, the write frame and close, and stops after the first of
    the first three that fails.  The write frame is the header, the write
    command, a four-byte sub-header whose first byte is the length of tag
    plus payload and whose other bytes are zero, the tag, the payload, and
    zeros.  Unlike [read_data] it leaves the recorded length of the data
    buffer as it was. *)
Theorem X8_write_data_frames (endpoint : Z) (data_type data : list Z)
    (c : ccxt_device) :
  length (cmd_buffer c) = Z.to_nat OUT_BUFFER_SIZE ->
  length (buffer c) = Z.to_nat IN_BUFFER_SIZE ->
  (length data_type + length data <= 377)%nat ->
  let c' := snd (write_data endpoint data_type (ARRAY_SIZE data_type)
                   data (ARRAY_SIZE data) c) in
  output_log (hdev c')
  = output_log (hdev c)
    ++ take (steps_run c)
         [frame_of (cmd_close_endpoint ++ [endpoint]);
          frame_of (cmd_open_endpoint ++ [endpoint]);
          frame_of (cmd_write
                    ++ [u8 (ARRAY_SIZE data_type + ARRAY_SIZE data); 0; 0; 0]
                    ++ data_type ++ data);
          frame_of (cmd_close_endpoint ++ [endpoint])]
  /\ script (hdev c') = drop (steps_run c) (script (hdev c))
  /\ data_buffer_recv_size c' = data_buffer_recv_size c.
Proof.
  intros Hcmd Hbuf Hfit c'. subst c'. unfold write_data, steps_run.
  run_exchange Hbuf r1 c1 X1.
  rewrite prepare_endpoint_cmd_frame in X1 by (done || (cbn; lia)).
  cbn [snd with_cmd_buffer cmd_buffer] in X1.
  pose proof (ex_result _ _ _ _ X1) as R1.
  pose proof (ex_log _ _ _ _ X1) as L1.
  rewrite take_frame_of in L1 by (cbn; lia).
  pose proof (ex_script _ _ _ _ X1) as S1.
  pose proof (ex_data_size _ _ _ _ X1) as Z1.
  assert (Hcmd1 : length (cmd_buffer c1) = Z.to_nat OUT_BUFFER_SIZE).
  { rewrite (ex_cmd_buffer _ _ _ _ X1). apply length_frame_of. cbn; lia. }
  rewrite <- R1.
  destruct (Z.eqb_spec r1 0) as [Hr1 | Hr1]; cbn [negb].
  2:{ cbn [ret snd]. rewrite L1, S1. by destruct (script (hdev c)). }
  run_exchange (ex_buffer_len _ _ _ _ X1) r2 c2 X2.
  rewrite prepare_endpoint_cmd_frame in X2 by (done || (cbn; lia)).
  cbn [snd with_cmd_buffer cmd_buffer] in X2.
  pose proof (ex_result _ _ _ _ X2) as R2.
  rewrite (exchange_at_tl c c1) in R2 by done.
  pose proof (ex_log _ _ _ _ X2) as L2.
  rewrite take_frame_of in L2 by (cbn; lia).
  pose proof (ex_script _ _ _ _ X2) as S2.
  pose proof (ex_data_size _ _ _ _ X2) as Z2.
  assert (Hcmd2 : length (cmd_buffer c2) = Z.to_nat OUT_BUFFER_SIZE).
  { rewrite (ex_cmd_buffer _ _ _ _ X2). apply length_frame_of. cbn; lia. }
  rewrite <- R2.
  destruct (Z.eqb_spec r2 0) as [Hr2 | Hr2]; cbn [negb].
  2:{ cbn [ret snd]. rewrite L2, L1, S2, S1, Z2, Z1, <- app_assoc.
      rewrite <- (drop_0 (script (hdev c))) at 1. by rewrite !tl_drop. }
  rewrite bind_run. cbv zeta.
  do 3 (rewrite bind_run; cbn [modify fst snd]).
  rewrite bind_run.
  pose proof (write_frame data_type data c2 Hcmd2 Hfit) as HF; cbv zeta in HF.
  lazymatch type of HF with
  | ?F3 = _ =>
      lazymatch goal with
      | |- context [send_usb ?st] => change st with (with_cmd_buffer F3 c2)
      end
  end.
  rewrite HF. clear HF.
  lazymatch goal with
  | |- context [send_usb (with_cmd_buffer ?frame c2)] =>
      pose proof (send_usb_exchanged frame c2 (ex_buffer_len _ _ _ _ X2)) as X3;
      cbv zeta in X3;
      destruct (send_usb (with_cmd_buffer frame c2)) as [r3 c3]
  end.
  cbn [fst snd] in X3 |- *.
  pose proof (ex_result _ _ _ _ X3) as R3.
  rewrite (exchange_at_tl c1 c2), (exchange_at_tl c c1) in R3 by done.
  pose proof (ex_log _ _ _ _ X3) as L3.
  rewrite take_frame_of in L3
    by (rewrite !length_app; cbn [length cmd_write]; lia).
  pose proof (ex_script _ _ _ _ X3) as S3.
  pose proof (ex_data_size _ _ _ _ X3) as Z3.
  rewrite <- R3.
  destruct (Z.eqb_spec r3 0) as [Hr3 | Hr3]; cbn [negb].
  2:{ cbn [ret snd]. rewrite L3, L2, L1, S3, S2, S1, Z3, Z2, Z1, <- !app_assoc.
      rewrite <- (drop_0 (script (hdev c))) at 1. by rewrite !tl_drop. }
  rewrite bind_run; cbn [modify fst snd].
  set (c3' := with_data_buffer _ _).
  assert (Hcmd3 : length (cmd_buffer c3') = Z.to_nat OUT_BUFFER_SIZE).
  { change (cmd_buffer c3') with (cmd_buffer c3).
    rewrite (ex_cmd_buffer _ _ _ _ X3). apply length_frame_of.
    rewrite !length_app; cbn [length cmd_write]; lia. }
  rewrite bind_run, prepare_endpoint_cmd_frame by (done || (cbn; lia)).
  cbn [snd].
  lazymatch goal with
  | |- context [send_usb (with_cmd_buffer ?frame c3')] =>
      pose proof (send_usb_exchanged frame c3' (ex_buffer_len _ _ _ _ X3)) as X4;
      cbv zeta in X4;
      destruct (send_usb (with_cmd_buffer frame c3')) as [r4 c4]
  end.
  cbn [fst snd] in X4 |- *.
  rewrite (ex_log _ _ _ _ X4), (ex_script _ _ _ _ X4), (ex_data_size _ _ _ _ X4).
  rewrite take_frame_of by (cbn; lia).
  change (output_log (hdev c3')) with (output_log (hdev c3)).
  change (script (hdev c3')) with (script (hdev c3)).
  change (data_buffer_recv_size c3') with (data_buffer_recv_size c3).
  rewrite L3, L2, L1, S3, S2, S1, Z3, Z2, Z1, <- !app_assoc.
  rewrite <- (drop_0 (script (hdev c))) at 1. by rewrite !tl_drop.
Qed.

Lemma X8_write_data_frames_witness :
  let c := sample_device [report_of [0]; report_of [0]; report_of [0x10]] in
  let c' := snd (write_data endpoint_fan_pwm [0x07; 0x00] 2
                   [2; 0; 0; 30; 0; 1; 0; 40; 0] 9 c) in
  length (cmd_buffer c) = Z.to_nat OUT_BUFFER_SIZE
  /\ length (buffer c) = Z.to_nat IN_BUFFER_SIZE
  /\ (length [0x07; 0x00] + length [2; 0; 0; 30; 0; 1; 0; 40; 0] <= 377)%nat
  /\ output_log (hdev c') !! 2%nat
     = Some ([0x00; 0x08; 0x06; 0x01; 11; 0; 0; 0; 0x07; 0x00;
              2; 0; 0; 30; 0; 1; 0; 40; 0] ++ replicate 366 0)
  /\ length (output_log (hdev c')) = 3%nat.
Proof.
  assert (Hfit : (length [0x07; 0x00] + length [2; 0; 0; 30; 0; 1; 0; 40; 0]
                  <= 377)%nat) by (cbn; lia).
  pose proof (X8_write_data_frames endpoint_fan_pwm [0x07; 0x00]
                [2; 0; 0; 30; 0; 1; 0; 40; 0]
                (sample_device [report_of [0]; report_of [0];
                                report_of [0x10]])
                eq_refl eq_refl Hfit) as (Hlog & _).
  cbv zeta in Hlog. cbv zeta. do 2 (split; [reflexivity|]).
  split; [exact Hfit|].
  change (ARRAY_SIZE [0x07; 0x00]) with 2 in Hlog.
  change (ARRAY_SIZE [2; 0; 0; 30; 0; 1; 0; 40; 0]) with 9 in Hlog.
  rewrite Hlog. split; by vm_compute.
Defined.

(** ** Fan tachometer and the decoders' error paths *)

Lemma le16_value (lo hi : Z) :
  0 <= lo < 256 -> 0 <= hi < 256 ->
  Z.lor lo (Z.shiftl hi 8) = lo + 256 * hi.
Proof.
  intros Hlo Hhi. symmetry.
  rewrite Z.shiftl_mul_pow2 by lia.
  rewrite (Z.mul_comm 256). change 256 with (2 ^ 8).
  apply Z.add_nocarry_lor, Z.bits_inj'. intros n Hn.
  rewrite Z.land_spec, Z.bits_0.
  destruct (Z.lt_ge_cases n 8) as [Hlt | Hge].
  - rewrite (Z.mul_pow2_bits_low hi 8 n) by done. apply andb_false_r.
  - rewrite (proj1 (Z.bounded_iff_bits_nonneg 8 lo ltac:(lia) ltac:(lia)));
      [done | change (2 ^ 8) with 256; lia | done].
Qed.

Lemma get_fan_rpm_run (channel : Z) (c : ccxt_device) :
  get_fan_rpm channel c
  = let rd := read_data endpoint_fan_state c in
    let d := data_buffer (snd rd) in
    if fst rd =? 0
    then (if channel >=? min (buf_get d FAN_CNT_INDEX) NUM_FANS
          then (- EINVAL, None)
          else (0, Some (s16 (Z.lor
                                (buf_get d (FAN_DATA_OFFSET + channel * 2))
                                (Z.shiftl
                                   (buf_get d (FAN_DATA_OFFSET + channel * 2
                                               + 1)) 8)))),
          snd rd)
    else ((fst rd, None), snd rd).
Proof.
  unfold get_fan_rpm. rewrite bind_run. cbv zeta.
  destruct (read_data endpoint_fan_state c) as [r c1]; cbn [fst snd].
  destruct (r =? 0); cbn [negb]; [|done].
  rewrite bind_run; cbn [get fst snd].
  destruct (channel >=? _); [done|].
  by rewrite !bind_run.
Qed.

(** X9.  [get_fan_rpm]: a failed read transaction is returned as it is and
    no value is stored; after a successful one, a channel at or beyond
    [min (count, 6)] gives -EINVAL and no value, and a channel below it
    gives 0 and the signed 16-bit little-endian value of the two bytes at
    offset [6 + channel * 2]: [lo + 256 * hi], less 65536 when [hi] is 128
    or more, so a value in -32768..32767. *)
Theorem X9_fan_rpm_decode (c : ccxt_device) (channel : Z) :
  0 <= channel ->
  let rd := read_data endpoint_fan_state c in
  let d := data_buffer (snd rd) in
  let out := get_fan_rpm channel c in
  let lo := buf_get d (FAN_DATA_OFFSET + channel * 2) in
  let hi := buf_get d (FAN_DATA_OFFSET + channel * 2 + 1) in
  snd out = snd rd
  /\ (fst rd <> 0 -> fst out = (fst rd, None))
  /\ (fst rd = 0 -> min (buf_get d FAN_CNT_INDEX) NUM_FANS <= channel ->
      fst out = (- EINVAL, None))
  /\ (fst rd = 0 -> channel < min (buf_get d FAN_CNT_INDEX) NUM_FANS ->
      0 <= lo < 256 -> 0 <= hi < 256 ->
      exists v,
        fst out = (0, Some v)
        /\ v = lo + 256 * hi - (if hi <? 128 then 0 else 65536)
        /\ -32768 <= v <= 32767).
Proof.
  intros Hch rd d out lo hi. subst out.
  rewrite get_fan_rpm_run. cbv zeta. fold rd. fold d. fold lo. fold hi.
  split; [by destruct (fst rd =? 0)|]. split; [|split].
  - intros Hfail. by rewrite (proj2 (Z.eqb_neq _ _) Hfail).
  - intros -> Hge. cbn [Z.eqb fst].
    by rewrite (proj2 (Z.geb_le _ _) Hge).
  - intros -> Hlt Hlo Hhi. cbn [Z.eqb fst].
    replace (channel >=? min (buf_get d FAN_CNT_INDEX) NUM_FANS) with false
      by (symmetry; rewrite Z.geb_leb; apply Z.leb_gt; lia).
    eexists. split; [reflexivity|].
    rewrite le16_value by done. unfold s16.
    destruct (Z.ltb_spec hi 128), (Z.ltb_spec (lo + 256 * hi) 32768);
      cbv beta iota; clearbody lo hi; lia.
Qed.

Lemma X9_fan_rpm_decode_witness :
  let c := sample_device [report_of [0]; report_of [0];
                          report_of [0; 0; 0; 0; 0; 3;
                                     0xB0; 0x04; 0xFF; 0xFF; 0x00; 0x00];
                          report_of [0]] in
  0 <= 1
  /\ fst (get_fan_rpm 0 c) = (0, Some 1200)
  /\ snd (get_fan_rpm 1 c) = snd (read_data endpoint_fan_state c)
  /\ fst (get_fan_rpm 1 c) = (0, Some (-1)).
Proof.
  set (c := sample_device _).
  assert (Hch : 0 <= 1) by lia.
  pose proof (X9_fan_rpm_decode c 1 Hch) as (Hstate & _).
  cbv zeta. split; [exact Hch|]. split; [by vm_compute|].
  split; [exact Hstate | by vm_compute].
Defined.

(** X10.  Tachometer round trip: when the device reports a speed [v] in
    -32768..32767 as two bytes, low byte first, in two's complement,
    [get_fan_rpm] gives back [v]. *)
Theorem X10_fan_rpm_round_trip (c : ccxt_device) (channel v : Z) :
  let rd := read_data endpoint_fan_state c in
  let d := data_buffer (snd rd) in
  fst rd = 0 ->
  0 <= channel < min (buf_get d FAN_CNT_INDEX) NUM_FANS ->
  -32768 <= v <= 32767 ->
  buf_get d (FAN_DATA_OFFSET + channel * 2) = v mod 256 ->
  buf_get d (FAN_DATA_OFFSET + channel * 2 + 1) = (v / 256) mod 256 ->
  fst (get_fan_rpm channel c) = (0, Some v).
Proof.
  intros rd d Hok Hch Hv Hlo Hhi.
  rewrite get_fan_rpm_run. cbv zeta. fold rd. fold d.
  rewrite Hok. cbn [Z.eqb fst].
  replace (channel >=? min (buf_get d FAN_CNT_INDEX) NUM_FANS) with false
    by (symmetry; rewrite Z.geb_leb; apply Z.leb_gt; lia).
  rewrite Hlo, Hhi.
  rewrite le16_value by (apply Z.mod_pos_bound; lia).
  do 2 f_equal. unfold s16.
  pose proof (Z.div_mod v 256 ltac:(lia)) as Hdiv.
  pose proof (Z.mod_pos_bound v 256 ltac:(lia)) as Hmod.
  set (q := v / 256) in *. set (r := v mod 256) in *.
  assert (Hq : -128 <= q <= 127) by lia.
  assert (Hqm : q mod 256 = if q <? 0 then q + 256 else q).
  { destruct (Z.ltb_spec q 0).
    - rewrite <- (Z_mod_plus_full q 1 256). apply Z.mod_small. lia.
    - apply Z.mod_small. lia. }
  rewrite Hqm. clear Hqm Hlo Hhi. clearbody q r.
  destruct (Z.ltb_spec q 0); cbv beta iota;
    match goal with |- context [?a <? 32768] => destruct (Z.ltb_spec a 32768) end;
    lia.
Qed.

Lemma X10_fan_rpm_round_trip_witness :
  let c := sample_device [report_of [0]; report_of [0];
                          report_of [0; 0; 0; 0; 0; 3;
                                     0xB0; 0x04; 0xFE; 0xFF; 0x00; 0x00];
                          report_of [0]] in
  let d := data_buffer (snd (read_data endpoint_fan_state c)) in
  fst (read_data endpoint_fan_state c) = 0
  /\ 0 <= 1 < min (buf_get d FAN_CNT_INDEX) NUM_FANS
  /\ -32768 <= -2 <= 32767
  /\ buf_get d (FAN_DATA_OFFSET + 1 * 2) = (-2) mod 256
  /\ buf_get d (FAN_DATA_OFFSET + 1 * 2 + 1) = ((-2) / 256) mod 256
  /\ fst (get_fan_rpm 1 c) = (0, Some (-2)).
Proof.
  set (c := sample_device _).
  assert (Hok : fst (read_data endpoint_fan_state c) = 0) by (by vm_compute).
  assert (Hch : 0 <= 1 < min (buf_get (data_buffer
                                          (snd (read_data endpoint_fan_state c)))
                                 FAN_CNT_INDEX) NUM_FANS)
    by (vm_compute; split; [discriminate | reflexivity]).
  assert (Hv : -32768 <= -2 <= 32767) by lia.
  assert (Hlo : buf_get (data_buffer (snd (read_data endpoint_fan_state c)))
                  (FAN_DATA_OFFSET + 1 * 2) = (-2) mod 256)
    by (by vm_compute).
  assert (Hhi : buf_get (data_buffer (snd (read_data endpoint_fan_state c)))
                  (FAN_DATA_OFFSET + 1 * 2 + 1) = ((-2) / 256) mod 256)
    by (by vm_compute).
  pose proof (X10_fan_rpm_round_trip c 1 (-2) Hok Hch Hv Hlo Hhi) as Hres.
  cbv zeta. repeat (split; [assumption|]). exact Hres.
Defined.

(** X11.  [get_fan_pwm] off the decoding path: a failed read transaction is
    returned as it is, and a channel at or beyond [min (count, 6)] gives
    -EINVAL; in both cases no value is stored, and the state is that left
    by the transaction. *)
Theorem X11_fan_pwm_errors (c : ccxt_device) (channel : Z) :
  let rd := read_data endpoint_fan_pwm c in
  let d := data_buffer (snd rd) in
  let out := get_fan_pwm channel c in
  snd out = snd rd
  /\ (fst rd <> 0 -> fst out = (fst rd, None))
  /\ (fst rd = 0 -> min (buf_get d FAN_CNT_INDEX) NUM_FANS <= channel ->
      fst out = (- EINVAL, None)).
Proof.
  intros rd d out. subst out.
  rewrite get_fan_pwm_run. cbv zeta. fold rd. fold d.
  split; [by destruct (fst rd =? 0)|]. split.
  - intros Hfail. by rewrite (proj2 (Z.eqb_neq _ _) Hfail).
  - intros -> Hge. cbn [Z.eqb fst].
    by rewrite (proj2 (Z.geb_le _ _) Hge).
Qed.

(** ** Firmware version and the mode switches *)

(** A command without endpoint: encode, exchange. *)
Lemma command_exchange (cmd : list Z) (c : ccxt_device) :
  length (cmd_buffer c) = Z.to_nat OUT_BUFFER_SIZE ->
  length (buffer c) = Z.to_nat IN_BUFFER_SIZE ->
  (length cmd <= 383)%nat ->
  let out := send_usb (snd (prepare_cmd_safe cmd c)) in
  exchanged c (frame_of cmd) (snd out) (fst out).
Proof.
  intros Hcmd Hbuf Hfit.
  rewrite prepare_cmd_frame by done. cbn [snd].
  by apply send_usb_exchanged.
Qed.

(** X12.  [get_fw_version] sends the get-firmware frame and returns the
    result of that one exchange.  When it is 0 the version is read from the
    reply: major and minor are bytes 3 and 4, the patch level is bytes 5 and
    6, low byte first, a value in 0..65535.  When it is not 0 the stored
    version is left as it was. *)
Theorem X12_get_fw_version (c : ccxt_device) :
  length (cmd_buffer c) = Z.to_nat OUT_BUFFER_SIZE ->
  length (buffer c) = Z.to_nat IN_BUFFER_SIZE ->
  let e := exchange_at c 0 in
  let out := get_fw_version c in
  fst out = exchange_result e
  /\ output_log (hdev (snd out))
     = output_log (hdev c) ++ [frame_of cmd_get_firmware]
  /\ (fst out <> 0 -> firmware_ver (snd out) = firmware_ver c)
  /\ (fst out = 0 ->
      exists data,
        input_report e = Some data
        /\ major (firmware_ver (snd out)) = buf_get data 3
        /\ minor (firmware_ver (snd out)) = buf_get data 4
        /\ (0 <= buf_get data 5 < 256 -> 0 <= buf_get data 6 < 256 ->
            patch (firmware_ver (snd out))
            = buf_get data 5 + 256 * buf_get data 6
            /\ 0 <= patch (firmware_ver (snd out)) <= 65535)).
Proof.
  intros Hcmd Hbuf e out. subst e out. unfold get_fw_version.
  rewrite bind_run.
  pose proof (command_exchange cmd_get_firmware c Hcmd Hbuf ltac:(cbn; lia))
    as X. cbv zeta in X.
  pose proof (send_usb_preserves firmware_ver ltac:(done) ltac:(done)
                ltac:(done) (snd (prepare_cmd_safe cmd_get_firmware c))) as Hfw.
  change (firmware_ver (snd (prepare_cmd_safe cmd_get_firmware c)))
    with (firmware_ver c) in Hfw.
  rewrite bind_run.
  destruct (send_usb (snd (prepare_cmd_safe cmd_get_firmware c))) as [r c1].
  cbn [fst snd] in X, Hfw |- *.
  pose proof (ex_log _ _ _ _ X) as Hlog.
  rewrite take_frame_of in Hlog by (cbn; lia).
  destruct (Z.eqb_spec r 0) as [-> | Hr]; cbn [negb].
  - rewrite bind_run; cbn [modify ret fst snd].
    destruct (ex_reply _ _ _ _ X eq_refl) as [Hrep _].
    split; [apply X|]. split; [done|]. split; [done|].
    intros _. exists (buffer c1). split; [done|].
    cbn. split; [done|]. split; [done|].
    intros H5 H6. rewrite le16_value by done. lia.
  - cbn [ret fst snd]. split; [apply X|]. split; [done|]. split; [done|].
    by intros ->.
Qed.

Lemma X12_get_fw_version_witness :
  let c := sample_device [report_of [0; 0x02; 0x13; 2; 10; 0xDB; 0x00]] in
  length (cmd_buffer c) = Z.to_nat OUT_BUFFER_SIZE
  /\ length (buffer c) = Z.to_nat IN_BUFFER_SIZE
  /\ fst (get_fw_version c) = 0
  /\ firmware_ver (snd (get_fw_version c))
     = {| major := 2; minor := 10; patch := 219 |}
  /\ output_log (hdev (snd (get_fw_version c)))
     = [[0x00; 0x08; 0x02; 0x13] ++ replicate 381 0].
Proof.
  set (c := sample_device _).
  pose proof (X12_get_fw_version c eq_refl eq_refl) as (Hres & Hlog & _).
  cbv zeta. do 2 (split; [reflexivity|]).
  split; [rewrite Hres; by vm_compute|].
  split; [by vm_compute | exact Hlog].
Defined.

(** X13.  The two mode switches each run one exchange and return its
    result: [set_software_mode] sends the frame of [{1, 3, 0, 2}],
    [set_hardware_mode] the frame of [{1, 3, 0, 1}].  [ccxt_remove] sends
    the hardware-mode frame and nothing else, whatever the device answers,
    and leaves the cached targets, bits and labels alone. *)
Theorem X13_mode_switches (c : ccxt_device) :
  length (cmd_buffer c) = Z.to_nat OUT_BUFFER_SIZE ->
  length (buffer c) = Z.to_nat IN_BUFFER_SIZE ->
  let sw := set_software_mode c in
  let hw := set_hardware_mode c in
  (fst sw = exchange_result (exchange_at c 0)
   /\ output_log (hdev (snd sw))
      = output_log (hdev c) ++ [frame_of [0x01; 0x03; 0x00; 0x02]])
  /\ (fst hw = exchange_result (exchange_at c 0)
      /\ output_log (hdev (snd hw))
         = output_log (hdev c) ++ [frame_of [0x01; 0x03; 0x00; 0x01]])
  /\ snd (ccxt_remove c) = snd hw
  /\ script (hdev (snd hw)) = tl (script (hdev c))
  /\ (target (snd hw), fan_cnct (snd hw), fan_label (snd hw))
     = (target c, fan_cnct c, fan_label c).
Proof.
  intros Hcmd Hbuf sw hw. subst sw hw.
  unfold ccxt_remove, set_software_mode, set_hardware_mode.
  rewrite !bind_run.
  pose proof (command_exchange cmd_software_mode c Hcmd Hbuf ltac:(cbn; lia))
    as Xs.
  pose proof (command_exchange cmd_hardware_mode c Hcmd Hbuf ltac:(cbn; lia))
    as Xh.
  cbv zeta in Xs, Xh.
  pose proof (ex_log _ _ _ _ Xs) as Ls.
  pose proof (ex_log _ _ _ _ Xh) as Lh.
  rewrite take_frame_of in Ls, Lh by (cbn; lia).
  split; [split; [apply Xs | exact Ls]|].
  split; [split; [apply Xh | exact Lh]|].
  split; [done|]. split; [apply Xh|].
  by rewrite (ex_target _ _ _ _ Xh), (ex_fan_cnct _ _ _ _ Xh),
    (ex_fan_label _ _ _ _ Xh).
Qed.

Lemma X13_mode_switches_witness :
  let c := sample_device [report_of [0x01]] in
  length (cmd_buffer c) = Z.to_nat OUT_BUFFER_SIZE
  /\ length (buffer c) = Z.to_nat IN_BUFFER_SIZE
  /\ fst (set_software_mode c) = - EOPNOTSUPP
  /\ output_log (hdev (snd (ccxt_remove c)))
     = [[0x00; 0x08; 0x01; 0x03; 0x00; 0x01] ++ replicate 379 0].
Proof.
  set (c := sample_device _).
  pose proof (X13_mode_switches c eq_refl eq_refl)
    as ([Hsw _] & [_ Hlog] & Hrm & _).
  cbv zeta. do 2 (split; [reflexivity|]).
  split; [rewrite Hsw; by vm_compute|].
  rewrite Hrm. exact Hlog.
Defined.

(** ** The facade off the device *)

(** X14.  The facade answers without touching the device structure or the
    device in these cases: [ccxt_write] of anything but a PWM input or a fan
    target, and [ccxt_read_string] of anything but a fan label, give
    -EOPNOTSUPP; [ccxt_read] of a temperature or voltage input gives the
    value 0 (the device is not asked), and of anything else but a fan
    input, a fan target or a PWM input gives -EOPNOTSUPP. *)
Theorem X14_facade_off_device (type : hwmon_sensor_types)
    (attr channel val : Z) (c : ccxt_device) :
  (~ (type = hwmon_pwm /\ attr = hwmon_pwm_input) ->
   ~ (type = hwmon_fan /\ attr = hwmon_fan_target) ->
   ccxt_write type attr channel val c = (- EOPNOTSUPP, c))
  /\ (~ (type = hwmon_fan /\ attr = hwmon_fan_label) ->
      ccxt_read_string type attr channel c = ((- EOPNOTSUPP, None), c))
  /\ ((type = hwmon_temp /\ attr = hwmon_temp_input)
      \/ (type = hwmon_in /\ attr = hwmon_in_input) ->
      ccxt_read type attr channel c = ((0, Some 0), c))
  /\ (~ (type = hwmon_temp /\ attr = hwmon_temp_input) ->
      ~ (type = hwmon_in /\ attr = hwmon_in_input) ->
      ~ (type = hwmon_fan /\ attr = hwmon_fan_input) ->
      ~ (type = hwmon_fan /\ attr = hwmon_fan_target) ->
      ~ (type = hwmon_pwm /\ attr = hwmon_pwm_input) ->
      ccxt_read type attr channel c = ((- EOPNOTSUPP, None), c)).
Proof.
  split; [|split; [|split]].
  - intros Hpwm Hfan. unfold ccxt_write.
    destruct type; try done.
    + destruct (Z.eqb_spec attr hwmon_fan_target); [|done].
      by destruct Hfan.
    + destruct (Z.eqb_spec attr hwmon_pwm_input); [|done].
      by destruct Hpwm.
  - intros Hlabel. unfold ccxt_read_string.
    destruct type; try done.
    destruct (Z.eqb_spec attr hwmon_fan_label); [|done].
    by destruct Hlabel.
  - intros [[-> ->] | [-> ->]]; done.
  - intros Htemp Hin Hrpm Htarget Hpwm. unfold ccxt_read.
    destruct type; try done.
    + destruct (Z.eqb_spec attr hwmon_temp_input); [by destruct Htemp | done].
    + destruct (Z.eqb_spec attr hwmon_in_input); [by destruct Hin | done].
    + destruct (Z.eqb_spec attr hwmon_fan_input); [by destruct Hrpm|].
      destruct (Z.eqb_spec attr hwmon_fan_target); [by destruct Htarget|done].
    + destruct (Z.eqb_spec attr hwmon_pwm_input); [by destruct Hpwm | done].
Qed.

(** ** What the cache holds in every state *)

Lemma maintains_ret {A} I (a : A) : maintains I (ret a).
Proof. by intros c. Qed.

Lemma maintains_bind {A C} I (m : M A) (k : A -> M C) :
  maintains I m -> (forall a, maintains I (k a)) -> maintains I (bind m k).
Proof. intros Hm Hk c Hc. rewrite bind_run. by apply Hk, Hm. Qed.

Lemma maintains_if {A} I (b : bool) (m1 m2 : M A) :
  maintains I m1 -> maintains I m2 -> maintains I (if b then m1 else m2).
Proof. by destruct b. Qed.

Lemma maintains_modify I (g : ccxt_device -> ccxt_device) :
  (forall c, I c -> I (g c)) -> maintains I (modify g).
Proof. intros Hg c. apply Hg. Qed.

Lemma maintains_for_loop I (from to : Z) (body : Z -> M unit) :
  (forall channel, from <= channel < to -> maintains I (body channel)) ->
  maintains I (for_loop from to body).
Proof.
  intros Hbody. unfold for_loop.
  assert (Hin : Forall (fun channel => from <= channel < to)
                  (seqZ from (to - from)))
    by (apply Forall_forall; intros a ?%elem_of_seqZ; lia).
  induction Hin as [|channel l Hch _ IH]; cbn.
  - apply maintains_ret.
  - apply maintains_bind; [by apply Hbody | intros _; apply IH].
Qed.

Lemma cache_ok_same (c c' : ccxt_device) :
  cache c' = cache c -> cache_ok c -> cache_ok c'.
Proof.
  unfold cache, cache_ok. intros [= Hbits Hlabel Htarget].
  by rewrite Hbits, Hlabel, Htarget.
Qed.

Lemma maintains_cache {A} (m : M A) :
  preserves cache m -> maintains cache_ok m.
Proof. intros Hm c. apply cache_ok_same, Hm. Qed.

Lemma mark_fan_cache_ok (channel : Z) :
  0 <= channel < NUM_FANS -> maintains cache_ok (mark_fan channel).
Proof.
  intros Hch c (Hbits & Htargets & Hlen). unfold mark_fan.
  rewrite bind_run; cbn [get fst snd].
  destruct (negb _); [done|].
  unfold bind, modify; cbn [fst snd].
  split; [|split]; cbn.
  - intros ch. rewrite test_bit_set_bit by lia.
    destruct (Z.eqb_spec channel ch) as [<- | Hne]; cbn [orb].
    + intros _. split; [done|].
      rewrite list_lookup_insert_eq by (rewrite Hlen; unfold NUM_FANS in *; lia).
      by rewrite scnprintf_fan_label.
    + intros Hbit. destruct (Hbits ch Hbit) as [Hrange Hlabel].
      split; [done|]. rewrite list_lookup_insert_ne by lia. done.
  - apply Forall_insert; [done | by left].
  - by rewrite length_insert.
Qed.

Lemma get_fan_cnct_cache_ok : maintains cache_ok get_fan_cnct.
Proof.
  unfold get_fan_cnct.
  apply maintains_bind; [by apply maintains_cache, read_data_preserves|].
  intros r. apply maintains_if; [apply maintains_ret|].
  apply maintains_bind; [by intros c|]. intros n.
  apply maintains_bind; [|intros _; apply maintains_ret].
  apply maintains_for_loop. intros channel Hch.
  apply mark_fan_cache_ok.
  unfold min in Hch. destruct (n <? NUM_FANS) eqn:Hn; [|lia].
  apply Z.ltb_lt in Hn. lia.
Qed.

Lemma set_pwm_cache_ok (channel val : Z) :
  maintains cache_ok (set_pwm channel val).
Proof.
  unfold set_pwm. apply maintains_if; [apply maintains_ret|]. cbv zeta.
  apply maintains_bind; [by apply maintains_cache, write_data_preserves|].
  intros r. apply maintains_bind; [|intros _; apply maintains_ret].
  apply maintains_if; [|apply maintains_ret].
  apply maintains_modify. intros c (Hbits & Htargets & Hlen).
  split; [done|]. split; [|done]. cbn.
  apply Forall_insert; [done | by left].
Qed.

Lemma set_target_cache_ok (channel val : Z) :
  maintains cache_ok (set_target channel val).
Proof.
  unfold set_target. cbv zeta.
  apply maintains_bind; [|intros _; apply maintains_ret].
  apply maintains_modify. intros c (Hbits & Htargets & Hlen).
  split; [done|]. split; [|done]. cbn.
  apply Forall_insert; [done | right].
  unfold clamp_val. repeat case_match; lia.
Qed.

Lemma run_call_cache_ok (call : driver_call) (c : ccxt_device) :
  cache_ok c -> cache_ok (run_call call c).
Proof.
  destruct call; cbn.
  - revert c. change (maintains cache_ok ccxt_probe). unfold ccxt_probe.
    apply maintains_bind;
      [by apply maintains_cache, set_software_mode_preserves|].
    intros r. apply maintains_if; [apply maintains_ret|].
    apply maintains_bind; [apply get_fan_cnct_cache_ok|].
    intros r'. apply maintains_if; [apply maintains_ret|].
    apply maintains_bind;
      [by apply maintains_cache, get_temp_cnct_preserves|].
    intros _. apply maintains_bind; [|intros _; apply maintains_ret].
    unfold ccxt_debugfs_init, get_bl_version.
    apply maintains_bind;
      [by apply maintains_cache, get_fw_version_preserves|].
    intros _. apply maintains_bind; intros; apply maintains_ret.
  - apply cache_ok_same. by apply ccxt_remove_preserves.
  - apply cache_ok_same. by apply ccxt_read_preserves.
  - apply cache_ok_same. by apply ccxt_read_string_preserves.
  - revert c. change (maintains cache_ok (ccxt_write type attr channel val)).
    unfold ccxt_write.
    destruct type; try apply maintains_ret;
      (apply maintains_if; [|apply maintains_ret]).
    + apply set_target_cache_ok.
    + apply set_pwm_cache_ok.
  - apply cache_ok_same. by apply ccxt_raw_event_preserves.
Qed.

Lemma reachable_cache_ok (c : ccxt_device) : reachable c -> cache_ok c.
Proof.
  induction 1 as [h cmd buf dbuf _ _ _ | c call _ IH _].
  - split; [|split]; cbn.
    + intros channel. unfold test_bit. by rewrite Z.bits_0.
    + repeat (constructor; [right; lia|]). constructor.
    + done.
  - by apply run_call_cache_ok.
Qed.

(** X15.  In every state the driver can reach, a fan or PWM entry that
    [ccxt_is_visible] shows belongs to one of the channels 0..5, and the
    label [ccxt_read_string] gives for that channel is "fan" followed by
    its 1-based number. *)
Theorem X15_visible_fans_are_labelled (c : ccxt_device)
    (type : hwmon_sensor_types) (attr channel : Z) :
  reachable c ->
  type = hwmon_fan \/ type = hwmon_pwm ->
  ccxt_is_visible c type attr channel <> 0 ->
  0 <= channel < NUM_FANS
  /\ ccxt_read_string hwmon_fan hwmon_fan_label channel c
     = ((0, Some ("fan" +:+ pretty (channel + 1))%string), c).
Proof.
  intros Hreach Htype Hvisible.
  destruct (reachable_cache_ok c Hreach) as (Hbits & _ & _).
  assert (Hbit : test_bit channel (fan_cnct c) = true).
  { unfold ccxt_is_visible in Hvisible.
    destruct Htype as [-> | ->];
      by destruct (test_bit channel (fan_cnct c)). }
  destruct (Hbits channel Hbit) as [Hrange Hlabel].
  split; [done|].
  unfold ccxt_read_string, bind, get, ret; cbn. by rewrite Hlabel.
Qed.

Lemma X15_visible_fans_are_labelled_witness :
  let c := run_call call_probe
             (sample_device
                [report_of [0]; report_of [0]; report_of [0];
                 report_of [0; 0; 0; 0; 0; 3; 0x07; 0x00; 0x07];
                 report_of [0]]) in
  reachable c
  /\ ccxt_is_visible c hwmon_pwm hwmon_pwm_input 2 <> 0
  /\ ccxt_read_string hwmon_fan hwmon_fan_label 2 c = ((0, Some "fan3"%string), c).
Proof.
  set (c0 := sample_device _).
  assert (Hreach : reachable (run_call call_probe c0)).
  { apply reachable_call; [by apply reachable_fresh | exact I]. }
  assert (Hvisible : ccxt_is_visible (run_call call_probe c0)
                       hwmon_pwm hwmon_pwm_input 2 <> 0) by (by vm_compute).
  pose proof (X15_visible_fans_are_labelled _ hwmon_pwm hwmon_pwm_input 2
                Hreach (or_intror eq_refl) Hvisible) as [_ Hlabel].
  cbv zeta. split; [exact Hreach|]. split; [exact Hvisible | exact Hlabel].
Defined.

(** X16.  In every state the driver can reach, reading the target of one of
    the six fans exchanges nothing with the device and gives either
    -ENODATA with no value, or 0 with a value in 0..0xFFFF. *)
Theorem X16_target_read_range (c : ccxt_device) (channel : Z) :
  reachable c ->
  0 <= channel < NUM_FANS ->
  let rv := ccxt_read hwmon_fan hwmon_fan_target channel c in
  snd rv = c
  /\ (fst rv = (- ENODATA, None)
      \/ exists t, fst rv = (0, Some t) /\ 0 <= t <= 0xFFFF).
Proof.
  intros Hreach Hch rv. subst rv.
  destruct (reachable_cache_ok c Hreach) as (_ & Htargets & _).
  destruct (reachable_allocated c Hreach) as [_ _ _ Hlen _].
  unfold ccxt_read, bind, get, ret; cbn.
  destruct (lookup_lt_is_Some_2 (target c) (Z.to_nat channel)) as [t Ht];
    [rewrite Hlen; unfold NUM_FANS in *; lia|].
  unfold buf_get. rewrite Ht; cbn.
  pose proof (proj1 (Forall_lookup _ _) Htargets _ _ Ht) as Hrange.
  destruct (Z.ltb_spec t 0); cbn.
  - split; [done|]. by left.
  - split; [done|]. right. exists t. split; [done|].
    destruct Hrange as [-> | Hrange]; [by vm_compute in H | done].
Qed.

Lemma X16_target_read_range_witness :
  let c := run_call (call_write hwmon_fan hwmon_fan_target 4 (-5))
             (sample_device []) in
  reachable c
  /\ 0 <= 4 < NUM_FANS
  /\ fst (ccxt_read hwmon_fan hwmon_fan_target 4 c) = (0, Some 0).
Proof.
  set (c0 := sample_device []).
  assert (Hreach : reachable
            (run_call (call_write hwmon_fan hwmon_fan_target 4 (-5)) c0)).
  { apply reachable_call; [by apply reachable_fresh | by vm_compute]. }
  assert (Hch : 0 <= 4 < NUM_FANS) by (by vm_compute).
  pose proof (X16_target_read_range _ 4 Hreach Hch) as [_ Hres].
  cbv zeta. split; [exact Hreach|]. split; [exact Hch | by vm_compute].
Defined.

(** X17.  The connectivity bitmap only grows, and only in the inventory.
    [get_fan_cnct] never clears a bit: a bit that is set before it is set
    after it, whatever the device answers.  No entry point other than the
    attach sequence changes the bitmap at all, when it is called with a
    channel that [ccxt_info] registers. *)
Theorem X17_fan_bits_stay (call : driver_call) (channel : Z)
    (c : ccxt_device) :
  (test_bit channel (fan_cnct c) = true ->
   test_bit channel (fan_cnct (snd (get_fan_cnct c))) = true)
  /\ (call_in_range call -> call <> call_probe ->
      fan_cnct (run_call call c) = fan_cnct c).
Proof.
  split.
  - set (I := fun c => test_bit channel (fan_cnct c) = true).
    assert (Hkeep : forall A (m : M A), preserves fan_cnct m -> maintains I m).
    { intros A m Hm c0 Hc0. unfold I. by rewrite Hm. }
    revert c. change (maintains I get_fan_cnct).
    unfold get_fan_cnct.
    apply maintains_bind; [by apply Hkeep, read_data_preserves|].
    intros r'. apply maintains_if; [apply maintains_ret|].
    apply maintains_bind; [by intros c0|]. intros n.
    apply maintains_bind; [|intros _; apply maintains_ret].
    apply maintains_for_loop. intros a _. unfold mark_fan.
    apply maintains_bind; [by intros c0|]. intros state.
    apply maintains_if; [apply maintains_ret|].
    apply maintains_bind; [|intros _].
    { apply maintains_modify. intros c0 Hc0. unfold I in *; cbn.
      unfold test_bit, set_bit in *.
      by rewrite Z.lor_spec, Hc0. }
    apply maintains_bind; [|intros _]; by apply maintains_modify.
  - intros _ Hcall. destruct call; cbn [run_call]; try done.
    + by apply ccxt_remove_preserves.
    + by apply ccxt_read_preserves.
    + by apply ccxt_read_string_preserves.
    + by apply ccxt_write_preserves.
    + by apply ccxt_raw_event_preserves.
Qed.

(** ** Attaching the device *)

Lemma transaction_first_failure (c : ccxt_device) (out : Z * ccxt_device) :
  transaction_law c out ->
  fst out
  = first_failure (map (fun k => exchange_result (exchange_at c k))
                     [0; 1; 2; 3]%nat).
Proof.
  intros (H0 & H1 & H2 & H3). cbn [map first_failure].
  destruct (Z.eqb_spec (exchange_result (exchange_at c 0)) 0) as [E0|E0];
    [|by destruct (H0 E0)].
  destruct (Z.eqb_spec (exchange_result (exchange_at c 1)) 0) as [E1|E1];
    [|by destruct (H1 E0 E1)].
  destruct (Z.eqb_spec (exchange_result (exchange_at c 2)) 0) as [E2|E2];
    [|by destruct (H2 E0 E1 E2)].
  destruct (H3 E0 E1 E2) as [-> _].
  by destruct (Z.eqb_spec (exchange_result (exchange_at c 3)) 0).
Qed.

Lemma ccxt_probe_run (c : ccxt_device) :
  ccxt_probe c
  = let s := set_software_mode c in
    if fst s =? 0
    then let g := get_fan_cnct (snd s) in
         if fst g =? 0
         then (0, snd (ccxt_debugfs_init (snd (get_temp_cnct (snd g)))))
         else g
    else s.
Proof.
  unfold ccxt_probe. rewrite bind_run. cbv zeta.
  destruct (set_software_mode c) as [r c1]; cbn [fst snd].
  destruct (r =? 0); cbn [negb]; [|done].
  rewrite bind_run.
  destruct (get_fan_cnct c1) as [r' c2]; cbn [fst snd].
  destruct (r' =? 0); cbn [negb]; [|done].
  by rewrite !bind_run.
Qed.

Lemma set_software_mode_exchanged (c : ccxt_device) :
  length (cmd_buffer c) = Z.to_nat OUT_BUFFER_SIZE ->
  length (buffer c) = Z.to_nat IN_BUFFER_SIZE ->
  exchanged c (frame_of cmd_software_mode)
    (snd (set_software_mode c)) (fst (set_software_mode c)).
Proof.
  intros Hcmd Hbuf. unfold set_software_mode. rewrite bind_run.
  apply command_exchange; [done | done | cbn; lia].
Qed.

(** X18.  The attach sequence, from the point where the HID device has
    been opened and with the hwmon registration going through, returns the
    first failure among five exchanges, the switch to software mode and the
    four of the fan inventory, and 0 when all five succeed: what the
    temperature inventory and the firmware query do after them has no part
    in the result. *)
Theorem X18_probe_result (c : ccxt_device) :
  length (cmd_buffer c) = Z.to_nat OUT_BUFFER_SIZE ->
  length (buffer c) = Z.to_nat IN_BUFFER_SIZE ->
  length (data_buffer c) = Z.to_nat IN_BUFFER_SIZE ->
  fst (ccxt_probe c)
  = first_failure (map (fun k => exchange_result (exchange_at c k))
                     [0; 1; 2; 3; 4]%nat).
Proof.
  intros Hcmd Hbuf Hdbuf.
  rewrite ccxt_probe_run. cbv zeta.
  pose proof (set_software_mode_exchanged c Hcmd Hbuf) as X0.
  destruct (set_software_mode c) as [r0 c1]; cbn [fst snd] in *.
  cbn [map first_failure]. rewrite <- (ex_result _ _ _ _ X0).
  destruct (Z.eqb_spec r0 0) as [-> | Hr0]; [|done].
  rewrite get_fan_cnct_run. cbv zeta.
  pose proof (read_data_law endpoint_get_fans c1 (ex_buffer_len _ _ _ _ X0))
    as Hlaw.
  rewrite (ex_data_buffer _ _ _ _ X0) in Hlaw. specialize (Hlaw Hdbuf).
  apply transaction_first_failure in Hlaw. cbn [map first_failure] in Hlaw.
  rewrite !(exchange_at_tl c c1) in Hlaw by apply X0.
  rewrite <- Hlaw.
  destruct (read_data endpoint_get_fans c1) as [r c2]; cbn [fst snd].
  destruct (Z.eqb_spec r 0) as [-> | Hr]; cbn [fst]; [done|].
  by rewrite (proj2 (Z.eqb_neq _ _) Hr).
Qed.

Lemma X18_probe_result_witness :
  let c := sample_device [report_of [0]; report_of [0]; report_of [0x12];
                          report_of [0]] in
  length (cmd_buffer c) = Z.to_nat OUT_BUFFER_SIZE
  /\ length (buffer c) = Z.to_nat IN_BUFFER_SIZE
  /\ length (data_buffer c) = Z.to_nat IN_BUFFER_SIZE
  /\ fst (ccxt_probe c) = - ENODATA.
Proof.
  set (c := sample_device _).
  pose proof (X18_probe_result c eq_refl eq_refl eq_refl) as Hres.
  cbv zeta. do 3 (split; [reflexivity|]).
  rewrite Hres. by vm_compute.
Defined.

Lemma get_fan_cnct_bits (c : ccxt_device) (channel : Z) :
  length (buffer c) = Z.to_nat IN_BUFFER_SIZE ->
  length (data_buffer c) = Z.to_nat IN_BUFFER_SIZE ->
  0 <= channel ->
  fst (get_fan_cnct c) = 0 ->
  exists payload,
    input_report (exchange_at c 2) = Some payload
    /\ (test_bit channel (fan_cnct (snd (get_fan_cnct c))) = true <->
        test_bit channel (fan_cnct c) = true
        \/ (channel < min (buf_get payload FAN_CNT_INDEX) NUM_FANS
            /\ buf_get payload (FAN_DATA_OFFSET + channel) = FAN_STATE_OK)).
Proof.
  intros Hbuf Hdbuf Hch. rewrite get_fan_cnct_run. cbv zeta.
  pose proof (read_data_ok endpoint_get_fans c Hbuf Hdbuf) as Hpayload.
  pose proof (read_data_preserves fan_cnct ltac:(done) ltac:(done) ltac:(done)
                ltac:(done) ltac:(done) ltac:(done)
                endpoint_get_fans c) as Hc.
  destruct (read_data endpoint_get_fans c) as [r c1]; cbn [fst snd] in *.
  destruct (Z.eqb_spec r 0) as [-> | Hr]; cbn [fst snd]; [|done].
  intros _. exists (data_buffer c1). split; [by apply Hpayload|].
  set (n := min (buf_get (data_buffer c1) FAN_CNT_INDEX) NUM_FANS).
  unfold for_loop.
  destruct (mark_fans_spec (seqZ 0 (n - 0)) channel c1) as (_ & Hmark & Hkeep);
    [apply Forall_forall; intros a ?%elem_of_seqZ; lia | done |].
  rewrite elem_of_seqZ in Hmark, Hkeep. rewrite <- Hc.
  destruct (decide (channel < n)) as [Hlt | Hge].
  - destruct (decide (buf_get (data_buffer c1) (FAN_DATA_OFFSET + channel)
                      = FAN_STATE_OK)) as [Hok | Hbad].
    + destruct Hmark as [Hbit _]; [lia | done |]. split; [by right | done].
    + destruct (Hkeep (or_intror Hbad)) as [-> _].
      split; [by left | by intros [? | [_ ?]]].
  - destruct Hkeep as [-> _]; [left; lia|].
    split; [by left | intros [? | [? _]]; [done | lia]].
Qed.

Lemma ccxt_debugfs_init_preserves {B} (f : ccxt_device -> B) :
  (forall v c, f (with_hdev v c) = f c) ->
  (forall v c, f (with_wait_input_report v c) = f c) ->
  (forall v c, f (with_cmd_buffer v c) = f c) ->
  (forall v n c, f (with_buffer v n c) = f c) ->
  (forall v c, f (with_firmware_ver v c) = f c) ->
  preserves f ccxt_debugfs_init.
Proof.
  intros H1 H2 H3 H4 H5. unfold ccxt_debugfs_init, get_bl_version.
  preserves_with ltac:(auto using get_fw_version_preserves).
Qed.

(** X19.  Attach and visibility, end to end.  On a device structure whose
    fan bitmap is empty, as [devm_kzalloc] leaves it, a successful attach
    makes the entries of a channel visible exactly when the inventory reply
    (the fourth exchange) lists the channel below [min (count, 6)] with
    state 0x07: the fan input then shows as 0444 and the PWM input as
    0644, and otherwise both are hidden. *)
Theorem X19_probe_visibility (c : ccxt_device) (channel : Z) :
  length (cmd_buffer c) = Z.to_nat OUT_BUFFER_SIZE ->
  length (buffer c) = Z.to_nat IN_BUFFER_SIZE ->
  length (data_buffer c) = Z.to_nat IN_BUFFER_SIZE ->
  fan_cnct c = 0 ->
  0 <= channel ->
  fst (ccxt_probe c) = 0 ->
  exists payload,
    input_report (exchange_at c 3) = Some payload
    /\ let c' := snd (ccxt_probe c) in
       let listed :=
         channel < min (buf_get payload FAN_CNT_INDEX) NUM_FANS
         /\ buf_get payload (FAN_DATA_OFFSET + channel) = 0x07 in
       (listed ->
        ccxt_is_visible c' hwmon_fan hwmon_fan_input channel = S_0444
        /\ ccxt_is_visible c' hwmon_pwm hwmon_pwm_input channel = S_0644)
       /\ (~ listed ->
           forall attr,
             ccxt_is_visible c' hwmon_fan attr channel = 0
             /\ ccxt_is_visible c' hwmon_pwm attr channel = 0).
Proof.
  intros Hcmd Hbuf Hdbuf Hempty Hch.
  rewrite ccxt_probe_run. cbv zeta.
  pose proof (set_software_mode_exchanged c Hcmd Hbuf) as X0.
  destruct (set_software_mode c) as [r0 c1]; cbn [fst snd] in *.
  destruct (Z.eqb_spec r0 0) as [-> | Hr0]; [|done].
  pose proof (get_fan_cnct_bits c1 channel (ex_buffer_len _ _ _ _ X0)) as Hbits.
  rewrite (ex_data_buffer _ _ _ _ X0) in Hbits.
  specialize (Hbits Hdbuf Hch).
  rewrite (exchange_at_tl c c1) in Hbits by apply X0.
  rewrite (ex_fan_cnct _ _ _ _ X0), Hempty in Hbits.
  destruct (get_fan_cnct c1) as [r c2]; cbn [fst snd] in *.
  assert (Hsame : fan_cnct (snd (ccxt_debugfs_init (snd (get_temp_cnct c2))))
                  = fan_cnct c2).
  { rewrite (ccxt_debugfs_init_preserves fan_cnct) by done.
    by rewrite (get_temp_cnct_preserves fan_cnct). }
  revert Hsame.
  generalize (snd (ccxt_debugfs_init (snd (get_temp_cnct c2)))).
  intros cfin Hsame.
  destruct (Z.eqb_spec r 0) as [-> | Hr]; cbn [fst snd]; [|done].
  intros _. destruct (Hbits eq_refl) as (payload & Hpayload & Hbit).
  exists payload. split; [done|]. cbv zeta.
  unfold ccxt_is_visible. rewrite Hsame.
  unfold test_bit in Hbit at 2. rewrite Z.bits_0 in Hbit.
  split.
  - intros Hlisted. rewrite (proj2 Hbit (or_intror Hlisted)). done.
  - intros Hnot attr.
    destruct (test_bit channel (fan_cnct c2)) eqn:Hset; [|done].
    destruct (proj1 Hbit eq_refl) as [? | ?]; done.
Qed.

Lemma X19_probe_visibility_witness :
  let c := sample_device
             [report_of [0]; report_of [0]; report_of [0];
              report_of [0; 0; 0; 0; 0; 3; 0x07; 0x00; 0x07];
              report_of [0]] in
  let c' := snd (ccxt_probe c) in
  length (cmd_buffer c) = Z.to_nat OUT_BUFFER_SIZE
  /\ length (buffer c) = Z.to_nat IN_BUFFER_SIZE
  /\ length (data_buffer c) = Z.to_nat IN_BUFFER_SIZE
  /\ fan_cnct c = 0
  /\ 0 <= 2
  /\ fst (ccxt_probe c) = 0
  /\ ccxt_is_visible c' hwmon_fan hwmon_fan_input 2 = S_0444
  /\ ccxt_is_visible c' hwmon_pwm hwmon_pwm_input 2 = S_0644.
Proof.
  set (c := sample_device _).
  assert (Hch : 0 <= 2) by lia.
  assert (Hok : fst (ccxt_probe c) = 0) by (vm_compute; reflexivity).
  destruct (X19_probe_visibility c 2 eq_refl eq_refl eq_refl eq_refl Hch Hok)
    as (payload & Hpayload & Hvisible & _).
  vm_compute in Hpayload. injection Hpayload as <-.
  cbv zeta. do 4 (split; [reflexivity|]).
  split; [exact Hch|]. split; [exact Hok|].
  exact (Hvisible (conj eq_refl eq_refl)).
Defined.

(** ** The helpers of polyfills.h *)

(** X20.  [DIV_ROUND_CLOSEST] at the type [int], with a positive divisor
    and a dividend of either sign whose magnitude leaves room for half the
    divisor below [INT_MAX] = 2147483647: the sum the macro forms before it
    divides ([x + divisor / 2] for a positive dividend, [x - divisor / 2]
    otherwise) then fits an [int], and so does the result.  The macro gives
    the integer nearest to the quotient: the result times the divisor is
    within half the divisor of the dividend.  It is odd in the dividend:
    negating the dividend negates the result. *)
Theorem X20_div_round_closest (x divisor : Z) :
  0 < divisor <= 2147483647 ->
  Z.abs x + divisor / 2 <= 2147483647 ->
  (- 2147483648 <= (if 0 <? x then x + divisor / 2 else x - divisor / 2)
   <= 2147483647)
  /\ Z.abs (DIV_ROUND_CLOSEST x divisor) <= 2147483647
  /\ 2 * Z.abs (divisor * DIV_ROUND_CLOSEST x divisor - x) <= divisor
  /\ DIV_ROUND_CLOSEST (- x) divisor = - DIV_ROUND_CLOSEST x divisor.
Proof.
  intros [Hd Hdmax] Hfit.
  assert (Hhalf : divisor ÷ 2 = divisor / 2) by (apply Z.quot_div_nonneg; lia).
  pose proof (Z.div_mod divisor 2 ltac:(lia)) as Hh.
  pose proof (Z.mod_pos_bound divisor 2 ltac:(lia)) as Hh2.
  set (h := divisor / 2) in *.
  assert (Hpos : forall a, 0 <= a ->
            let q := (a + h) ÷ divisor in
            0 <= q /\ divisor * q <= a + h < divisor * q + divisor).
  { intros a Ha q. subst q. rewrite Z.quot_div_nonneg by lia.
    pose proof (Z.div_mod (a + h) divisor ltac:(lia)) as Hq.
    pose proof (Z.mod_pos_bound (a + h) divisor Hd) as Hr.
    split; [apply Z.div_pos; lia | lia]. }
  split; [destruct (0 <? x); lia|].
  unfold DIV_ROUND_CLOSEST. rewrite Hhalf. fold h.
  rewrite (proj2 (Z.ltb_lt 0 divisor) Hd).
  destruct (Z.ltb_spec 0 x) as [Hx | Hx]; cbn [Bool.eqb].
  - rewrite (proj2 (Z.ltb_ge 0 (- x)) ltac:(lia)); cbn [Bool.eqb].
    destruct (Hpos x ltac:(lia)) as [Hq0 Hq]. cbv zeta in Hq0, Hq.
    replace (- x - h) with (- (x + h)) by lia.
    rewrite Z.quot_opp_l by lia.
    split; [nia|]. split; [lia | done].
  - replace (x - h) with (- (- x + h)) by lia.
    rewrite Z.quot_opp_l by lia.
    destruct (Hpos (- x) ltac:(lia)) as [Hq0 Hq]. cbv zeta in Hq0, Hq.
    split; [nia|]. split; [lia|].
    destruct (Z.ltb_spec 0 (- x)) as [Hnx | Hnx]; cbn [Bool.eqb].
    + lia.
    + assert (x = 0) as -> by lia.
      assert (Hsmall : h ÷ divisor = 0) by (apply Z.quot_small; lia).
      replace (- 0 - h) with (- h) by lia.
      replace (- 0 + h) with h by lia.
      rewrite Z.quot_opp_l by lia. lia.
Qed.

Lemma X20_div_round_closest_witness :
  0 < 255 <= 2147483647
  /\ Z.abs 12750 + 255 / 2 <= 2147483647
  /\ DIV_ROUND_CLOSEST (-12750) 255 = -50
  /\ DIV_ROUND_CLOSEST (- 12750) 255 = - DIV_ROUND_CLOSEST 12750 255.
Proof.
  assert (Hd : 0 < 255 <= 2147483647) by lia.
  assert (Hfit : Z.abs 12750 + 255 / 2 <= 2147483647)
    by (vm_compute; discriminate).
  pose proof (X20_div_round_closest 12750 255 Hd Hfit) as (_ & _ & _ & Hodd).
  split; [exact Hd|]. split; [exact Hfit|].
  split; [reflexivity | exact Hodd].
Defined.

(** X21.  [set_bit] followed by [test_bit] on a one-word bitmap: the bit
    that was set reads as set, every other bit reads as before, and setting
    a bit twice is setting it once. *)
Theorem X21_set_bit_test_bit (nr channel bitmap : Z) :
  0 <= nr < 64 ->
  test_bit nr (set_bit nr bitmap) = true
  /\ (channel <> nr ->
      test_bit channel (set_bit nr bitmap) = test_bit channel bitmap)
  /\ set_bit nr (set_bit nr bitmap) = set_bit nr bitmap.
Proof.
  intros Hnr. split; [|split].
  - rewrite test_bit_set_bit by lia. by rewrite Z.eqb_refl.
  - intros Hne. rewrite test_bit_set_bit by lia.
    by rewrite (proj2 (Z.eqb_neq nr channel)) by done.
  - unfold set_bit. by rewrite <- Z.lor_assoc, Z.lor_diag.
Qed.

Lemma X21_set_bit_test_bit_witness :
  0 <= 2 < 64
  /\ set_bit 2 1 = 5
  /\ test_bit 2 (set_bit 2 1) = true.
Proof.
  assert (Hnr : 0 <= 2 < 64) by lia.
  pose proof (X21_set_bit_test_bit 2 0 1 Hnr) as [Hset _].
  split; [exact Hnr|]. split; [reflexivity | exact Hset].
Defined.

(** ** Every frame sent is well formed *)

Lemma hoare_ret {A} (P : ccxt_device -> Prop) (Q : A -> ccxt_device -> Prop)
    (a : A) :
  (forall c, P c -> Q a c) -> hoare P (ret a) Q.
Proof. intros H c. apply H. Qed.

Lemma hoare_bind {A C} (P : ccxt_device -> Prop)
    (Q : A -> ccxt_device -> Prop) (R : C -> ccxt_device -> Prop)
    (m : M A) (k : A -> M C) :
  hoare P m Q -> (forall a, hoare (Q a) (k a) R) -> hoare P (bind m k) R.
Proof. intros Hm Hk c Hc. rewrite bind_run. by apply Hk, Hm. Qed.

Lemma hoare_if {A} (P : ccxt_device -> Prop) (Q : A -> ccxt_device -> Prop)
    (b : bool) (m1 m2 : M A) :
  hoare P m1 Q -> hoare P m2 Q -> hoare P (if b then m1 else m2) Q.
Proof. by destruct b. Qed.

Lemma hoare_modify (P : ccxt_device -> Prop) (Q : unit -> ccxt_device -> Prop)
    (g : ccxt_device -> ccxt_device) :
  (forall c, P c -> Q tt (g c)) -> hoare P (modify g) Q.
Proof. intros H c. apply H. Qed.

Lemma hoare_pre {A} (P P' : ccxt_device -> Prop)
    (Q : A -> ccxt_device -> Prop) (m : M A) :
  (forall c, P c -> P' c) -> hoare P' m Q -> hoare P m Q.
Proof. intros HP Hm c Hc. by apply Hm, HP. Qed.

Lemma frame_ready_ok (c : ccxt_device) : frame_ready c -> frames_ok c.
Proof. by intros [[Hlen _] Hlog]. Qed.

Lemma take_2_list_inserts (i : nat) (k l : list Z) :
  (2 <= i)%nat -> take 2 (list_inserts i k l) = take 2 l.
Proof.
  intros Hi. apply list_eq. intros j.
  destruct (decide (j < 2)%nat) as [Hj | Hj].
  - rewrite !lookup_take_lt by done. apply list_lookup_inserts_lt. lia.
  - by rewrite !lookup_take_ge by lia.
Qed.

Lemma take_2_insert (i : nat) (v : Z) (l : list Z) :
  (2 <= i)%nat -> take 2 (<[i := v]> l) = take 2 l.
Proof. intros Hi. by rewrite take_insert_ge by lia. Qed.

Lemma is_frame_frame_of (content : list Z) :
  (length content <= 383)%nat -> is_frame (frame_of content).
Proof. intros Hfit. split; [by apply length_frame_of | done]. Qed.

Lemma prepare_cmd_safe_ready (cmd : list Z) :
  (length cmd <= 383)%nat ->
  hoare frames_ok (prepare_cmd_safe cmd)
    (fun r c => r = CMD_HEADER_SIZE + ARRAY_SIZE cmd /\ frame_ready c).
Proof.
  intros Hfit c [Hlen Hlog]. rewrite prepare_cmd_frame by done.
  split; [done|]. split; [by apply is_frame_frame_of | done].
Qed.

Lemma prepare_endpoint_cmd_safe_ready (cmd : list Z) (endpoint : Z) :
  (length cmd <= 382)%nat ->
  hoare frames_ok (prepare_endpoint_cmd_safe cmd endpoint)
    (fun _ => frame_ready).
Proof.
  intros Hfit c [Hlen Hlog]. rewrite prepare_endpoint_cmd_frame by done.
  split; [|done]. apply is_frame_frame_of.
  rewrite length_app; cbn. lia.
Qed.

Lemma send_usb_log (c : ccxt_device) :
  output_log (hdev (snd (send_usb c)))
  = output_log (hdev c) ++ [take (Z.to_nat OUT_BUFFER_SIZE) (cmd_buffer c)].
Proof.
  unfold send_usb, bind, modify, hid_hw_output_report; cbn.
  destruct (_ <? 0); [done|].
  unfold wait_for_completion_timeout, bind, get, modify; cbn.
  destruct (input_report _); cbn; [|done].
  by destruct (negb _).
Qed.

Lemma send_usb_ready : hoare frame_ready send_usb (fun _ => frame_ready).
Proof.
  intros c [[Hlen Hhead] Hlog]. split.
  - by rewrite (send_usb_preserves cmd_buffer).
  - rewrite send_usb_log. apply Forall_app. split; [done|].
    apply Forall_singleton. by rewrite take_ge by lia.
Qed.

(** Encode, exchange, and leave with the result if it is not 0. *)
Ltac ready_exchange :=
  eapply hoare_bind;
    [apply prepare_endpoint_cmd_safe_ready; cbn; lia
    |intros ?; eapply hoare_bind;
       [apply send_usb_ready
       |intros ?; apply hoare_if; [by apply hoare_ret|]]].

Lemma read_data_ready (endpoint : Z) :
  hoare frames_ok (read_data endpoint) (fun _ => frame_ready).
Proof.
  unfold read_data.
  ready_exchange.
  apply (hoare_pre _ frames_ok); [apply frame_ready_ok|].
  ready_exchange.
  apply (hoare_pre _ frames_ok); [apply frame_ready_ok|].
  ready_exchange.
  eapply hoare_bind;
    [apply (hoare_modify _ (fun _ => frame_ready)); by intros c [[? ?] ?]|].
  intros ?. eapply hoare_bind;
    [apply (hoare_modify _ (fun _ => frames_ok)); by intros c [[? ?] ?]|].
  intros ?. eapply hoare_bind;
    [apply prepare_endpoint_cmd_safe_ready; cbn; lia|].
  intros ?. apply send_usb_ready.
Qed.

Lemma is_frame_buf_set (b : list Z) (i v : Z) :
  2 <= i -> is_frame b -> is_frame (buf_set b i v).
Proof.
  intros Hi [Hlen Hhead]. split; [by rewrite length_buf_set|].
  unfold buf_set. by rewrite take_2_insert by lia.
Qed.

Lemma is_frame_memcpy (b : list Z) (off : Z) (src : list Z) (n : Z) :
  2 <= off -> is_frame b -> is_frame (memcpy b off src n).
Proof.
  intros Hoff [Hlen Hhead]. split; [by rewrite length_memcpy|].
  unfold memcpy. by rewrite take_2_list_inserts by lia.
Qed.

(** The stores of [write_data] into the frame start at offset 4. *)
Lemma payload_ready (r : Z) (g : list Z -> list Z) :
  (r = 4 -> forall b, is_frame b -> is_frame (g b)) ->
  hoare (fun c => r = 4 /\ frame_ready c)
    (modify (fun c => with_cmd_buffer (g (cmd_buffer c)) c))
    (fun _ c => r = 4 /\ frame_ready c).
Proof.
  intros Hg c [Hr [Hframe Hlog]]. split; [done|]. split; [|done].
  by apply Hg.
Qed.

Lemma write_data_ready (endpoint : Z) (data_type : list Z)
    (data_type_size : Z) (data : list Z) (data_size : Z) :
  0 <= data_type_size ->
  hoare frames_ok
    (write_data endpoint data_type data_type_size data data_size)
    (fun _ => frame_ready).
Proof.
  intros Hsize. unfold write_data.
  ready_exchange.
  apply (hoare_pre _ frames_ok); [apply frame_ready_ok|].
  ready_exchange.
  apply (hoare_pre _ frames_ok); [apply frame_ready_ok|].
  eapply hoare_bind;
    [apply (prepare_cmd_safe_ready cmd_write); cbn; lia|].
  intros r. cbv zeta.
  eapply hoare_bind.
  { apply (payload_ready r (fun b => buf_set b r _)).
    intros -> b. by apply is_frame_buf_set. }
  intros ?. eapply hoare_bind.
  { apply (payload_ready r (fun b => memcpy b _ _ _)).
    intros -> b. apply is_frame_memcpy. unfold WRITE_DATA_HEADER_SIZE. lia. }
  intros ?. eapply hoare_bind.
  { apply (payload_ready r (fun b => memcpy b _ _ _)).
    intros -> b. apply is_frame_memcpy. unfold WRITE_DATA_HEADER_SIZE. lia. }
  intros ?. apply (hoare_pre _ frame_ready); [by intros c [_ Hc]|].
  eapply hoare_bind; [apply send_usb_ready|]. intros r3.
  apply hoare_if; [by apply hoare_ret|].
  eapply hoare_bind;
    [apply (hoare_modify _ (fun _ => frames_ok)); by intros c [[? ?] ?]|].
  intros ?. eapply hoare_bind;
    [apply prepare_endpoint_cmd_safe_ready; cbn; lia|].
  intros ?. apply send_usb_ready.
Qed.

Lemma hoare_maintains {A} (m : M A) :
  hoare frames_ok m (fun _ => frame_ready) -> maintains frames_ok m.
Proof. intros Hm c Hc. by apply frame_ready_ok, Hm. Qed.

Lemma command_frames_ok (cmd : list Z) :
  (length cmd <= 383)%nat ->
  maintains frames_ok (prepare_cmd_safe cmd ;;; send_usb).
Proof.
  intros Hfit. apply hoare_maintains.
  eapply hoare_bind; [by apply prepare_cmd_safe_ready|].
  intros r. eapply hoare_pre; [|apply send_usb_ready].
  by intros c [_ Hc].
Qed.

Ltac frames_step :=
  lazymatch goal with
  | |- maintains _ (ret _) => apply maintains_ret
  | |- maintains _ (get _) => by intros ?
  | |- maintains _ (bind _ _) => apply maintains_bind; [|intros ?]
  | |- maintains _ (modify _) =>
      apply maintains_modify; by intros ? [? ?]
  | |- maintains _ (for_loop _ _ _) =>
      apply maintains_for_loop; intros ? _
  | |- maintains _ (if _ then _ else _) => apply maintains_if
  | |- maintains _ (match ?x with _ => _ end) => destruct x
  end.

Ltac frames_with tac := cbv zeta; repeat frames_step; tac.

Lemma command_then_frames_ok {A} (cmd : list Z) (k : Z -> M A) :
  (length cmd <= 383)%nat ->
  (forall r, maintains frames_ok (k r)) ->
  maintains frames_ok (prepare_cmd_safe cmd ;;; r <~ send_usb ;; k r).
Proof.
  intros Hfit Hk c Hc. rewrite !bind_run. apply Hk.
  apply frame_ready_ok, send_usb_ready.
  by apply (prepare_cmd_safe_ready cmd Hfit c Hc).
Qed.

Lemma set_hardware_mode_frames_ok : maintains frames_ok set_hardware_mode.
Proof. apply command_frames_ok. cbn. lia. Qed.

Lemma set_software_mode_frames_ok : maintains frames_ok set_software_mode.
Proof. apply command_frames_ok. cbn. lia. Qed.

Lemma get_fw_version_frames_ok : maintains frames_ok get_fw_version.
Proof.
  apply command_then_frames_ok; [cbn; lia|]. intros r. frames_with idtac.
Qed.

Lemma read_data_frames_ok (endpoint : Z) :
  maintains frames_ok (read_data endpoint).
Proof. apply hoare_maintains, read_data_ready. Qed.

Lemma write_data_frames_ok (endpoint : Z) (data_type : list Z)
    (data_type_size : Z) (data : list Z) (data_size : Z) :
  0 <= data_type_size ->
  maintains frames_ok
    (write_data endpoint data_type data_type_size data data_size).
Proof. intros Hsize. by apply hoare_maintains, write_data_ready. Qed.

Lemma ccxt_raw_event_frames_ok (data : list Z) (size : Z) :
  maintains frames_ok (ccxt_raw_event data size).
Proof. unfold ccxt_raw_event. frames_with idtac. Qed.

Lemma get_fan_cnct_frames_ok : maintains frames_ok get_fan_cnct.
Proof.
  unfold get_fan_cnct, mark_fan.
  frames_with ltac:(try apply read_data_frames_ok).
Qed.

Lemma get_temp_cnct_frames_ok : maintains frames_ok get_temp_cnct.
Proof.
  unfold get_temp_cnct. frames_with ltac:(try apply read_data_frames_ok).
Qed.

Lemma get_fan_rpm_frames_ok (channel : Z) :
  maintains frames_ok (get_fan_rpm channel).
Proof.
  unfold get_fan_rpm. frames_with ltac:(try apply read_data_frames_ok).
Qed.

Lemma get_fan_pwm_frames_ok (channel : Z) :
  maintains frames_ok (get_fan_pwm channel).
Proof.
  unfold get_fan_pwm. frames_with ltac:(try apply read_data_frames_ok).
Qed.

Lemma set_pwm_frames_ok (channel val : Z) :
  maintains frames_ok (set_pwm channel val).
Proof.
  unfold set_pwm.
  frames_with
    ltac:(try (apply write_data_frames_ok; unfold ARRAY_SIZE; lia)).
Qed.

Lemma set_target_frames_ok (channel val : Z) :
  maintains frames_ok (set_target channel val).
Proof. unfold set_target. frames_with idtac. Qed.

Lemma ccxt_probe_frames_ok : maintains frames_ok ccxt_probe.
Proof.
  unfold ccxt_probe, ccxt_debugfs_init, get_bl_version.
  frames_with ltac:(auto using set_software_mode_frames_ok,
    get_fan_cnct_frames_ok, get_temp_cnct_frames_ok,
    get_fw_version_frames_ok).
Qed.

(** X22.  Every frame the driver sends is a frame.  If the command buffer
    has its 385 bytes and every frame handed to the device so far is 385
    bytes long and starts with the report id 0x00 and the command marker
    0x08, the same holds after any call into the driver: probe, remove, a
    sensor read or write with any channel and value, a label read or an
    input report. *)
Theorem X22_frames_well_formed (call : driver_call) (c : ccxt_device) :
  frames_ok c -> frames_ok (run_call call c).
Proof.
  revert c. change (maintains frames_ok (fun c => (tt, run_call call c))).
  destruct call as [| |type attr channel|type attr channel
                   |type attr channel val|data].
  - apply ccxt_probe_frames_ok.
  - intros c Hc. apply (maintains_bind _ set_hardware_mode (fun _ => ret tt));
      [apply set_hardware_mode_frames_ok | intros ?; apply maintains_ret
      | done].
  - intros c. cbn [run_call snd]. revert c.
    change (maintains frames_ok (ccxt_read type attr channel)).
    unfold ccxt_read.
    frames_with ltac:(auto using get_fan_rpm_frames_ok,
                        get_fan_pwm_frames_ok).
  - intros c. cbn [run_call snd]. revert c.
    change (maintains frames_ok (ccxt_read_string type attr channel)).
    unfold ccxt_read_string. frames_with idtac.
  - intros c. cbn [run_call snd]. revert c.
    change (maintains frames_ok (ccxt_write type attr channel val)).
    unfold ccxt_write.
    frames_with ltac:(auto using set_pwm_frames_ok, set_target_frames_ok).
  - intros c. apply ccxt_raw_event_frames_ok.
Qed.

Lemma X22_frames_well_formed_witness :
  frames_ok (sample_device [report_of [0]; report_of [1]])
  /\ frames_ok (run_call call_probe
                  (sample_device [report_of [0]; report_of [1]])).
Proof.
  assert (Hok : frames_ok (sample_device [report_of [0]; report_of [1]]))
    by (split; [reflexivity | constructor]).
  split; [exact Hok|].
  exact (X22_frames_well_formed call_probe _ Hok).
Defined.
